(** * SPL framework: a shallow embedding of the three-layer pipeline

    The development follows the Python package [spl]:
    - [layer0_reactive.py]  (validation, rate limiting),
    - [layer1_tactical.py]  (pattern matching, cache, learning, shared state),
    - [layer2_deliberative.py] (the simulated foundation model),
    - [cost_tracker.py]     (the cost ledger and its derived metrics),
    - [agent.py]            (the orchestrator [SPLAgent.process]).

    Conventions of the embedding.
    - Python [float] amounts (costs, confidences, rates) are rationals [Q],
      with [float('inf')] the extra value [PlusInf] of [Py.efloat], where
      the code compares, copies and counts them; a statement on a running
      total is on the additions the code makes, not on what they add up
      to. The aggregates of the cost tracker add, multiply and divide
      floats: their laws are stated on IEEE 754 binary64 floats, in
      [CostTracker64].
    - Python [str] is [string]; texts are ASCII, so [str.lower] maps
      ['A'..'Z'] to ['a'..'z'] and leaves every other character alone.
    - Python [int] is [Z].
    - [datetime.now()] is the argument [now] of the operation that reads the
      clock, in microseconds; a timestamp is kept as that number.
    - [re.search] and [hashlib.sha256] belong to the Python library, not to
      the package: they are the two members of the class [Py.Lib].
    - A raised exception is the [Raise] constructor of [Py.result]; the state
      reached when the exception left the method is returned next to it.
    - A dict whose iteration order is observable (the patterns, the shared
      [learned_patterns]) is an insertion-ordered association list; the other
      dicts are [gmap]s, the blocklist is a [gset].
    - The shared-state dicts live in a heap and are referred to by location,
      so that two stages can alias one dict. *)

From Stdlib Require Import ZArith QArith Ascii String List.
From Stdlib Require Floats.
From stdpp Require Import gmap strings list fin_maps pretty.

Set Default Proof Using "Type".

(* ===================================================================== *)
(** * Python values, strings and exceptions                               *)
(* ===================================================================== *)

Module Py.

(** Exceptions that can travel through the pipeline. [TypeError] is what
    hashing a list raises; [OtherException] stands for any exception of the
    regular-expression engine that is not [re.error]. *)
Inductive exn : Type :=
| TypeError (msg : string)
| OtherException (name : string).

Inductive result (A : Type) : Type :=
| Ok (a : A)
| Raise (e : exn).
Arguments Ok {A} a.
Arguments Raise {A} e.

Definition is_ok {A} (r : result A) : bool :=
  match r with Ok _ => true | Raise _ => false end.

(** [try: body  except Exception: handler], over a state [S] that both
    the body and the handler update. *)
Definition try_except {A S : Type}
    (body : result A * S) (handler : exn → S → result A * S) : result A * S :=
  match body with
  | (Ok a, s) => (Ok a, s)
  | (Raise e, s) => handler e s
  end.

(** A float that may be [float('inf')]. *)
Inductive efloat : Type :=
| Finite (q : Q)
| PlusInf.

(** The values a request can carry under a key. A list is unhashable. *)
Inductive value : Type :=
| VStr (s : string)
| VInt (n : Z)
| VNone
| VList (items : list Z).

#[global] Instance value_eq_dec : EqDecision value.
Proof. solve_decision. Defined.

#[global] Instance value_countable : Countable value.
Proof.
  refine (inj_countable'
    (λ v, match v with
          | VStr s => inl s
          | VInt n => inr (inl n)
          | VNone => inr (inr (inl ()))
          | VList l => inr (inr (inr l))
          end)
    (λ x, match x with
          | inl s => VStr s
          | inr (inl n) => VInt n
          | inr (inr (inl _)) => VNone
          | inr (inr (inr l)) => VList l
          end) _).
  intros []; reflexivity.
Defined.

Definition isinstance_str (v : value) : bool :=
  match v with VStr _ => true | _ => false end.

(** [hash(v)] succeeds on strings, ints and [None] and raises on a list. *)
Definition hashable (v : value) : bool :=
  match v with VList _ => false | _ => true end.

(** [a < b] and [a >= b] on floats. *)
Definition Qltb (a b : Q) : bool := negb (Qle_bool b a).
Definition Qgeb (a b : Q) : bool := Qle_bool b a.

(** ** Strings *)

Definition lower_char (c : ascii) : ascii :=
  let n := nat_of_ascii c in
  if (65 <=? n)%nat && (n <=? 90)%nat then ascii_of_nat (n + 32) else c.

(** [s.lower()] *)
Fixpoint lower (s : string) : string :=
  match s with
  | EmptyString => EmptyString
  | String c t => String (lower_char c) (lower t)
  end.

(** [needle in hay] *)
Fixpoint contains (hay needle : string) : bool :=
  String.prefix needle hay ||
  match hay with
  | EmptyString => false
  | String _ t => contains t needle
  end.

(** The ASCII characters on which [str.split()] splits. *)
Definition is_space (c : ascii) : bool :=
  let n := nat_of_ascii c in
  ((9 <=? n)%nat && (n <=? 13)%nat) || ((28 <=? n)%nat && (n <=? 32)%nat).

Definition is_empty (s : string) : bool :=
  match s with EmptyString => true | _ => false end.

Fixpoint split_from (s cur : string) : list string :=
  match s with
  | EmptyString => if is_empty cur then [] else [cur]
  | String c t =>
      if is_space c
      then (if is_empty cur then split_from t EmptyString
            else cur :: split_from t EmptyString)
      else split_from t (cur +:+ String c EmptyString)
  end.

(** [s.split()] *)
Definition split (s : string) : list string := split_from s EmptyString.

(** [s.lstrip()], [s.rstrip()] and [s.strip()] *)
Fixpoint lstrip (s : string) : string :=
  match s with
  | EmptyString => EmptyString
  | String c t => if is_space c then lstrip t else s
  end.

Fixpoint rstrip (s : string) : string :=
  match s with
  | EmptyString => EmptyString
  | String c t =>
      let t1 := rstrip t in
      if is_space c && is_empty t1 then EmptyString else String c t1
  end.

Definition strip (s : string) : string := lstrip (rstrip s).

(** The newline character, as a string. *)
Definition nl : string := String (ascii_of_nat 10) EmptyString.

(** [x or default] on strings: the empty string is falsy. *)
Definition str_or (x default : string) : string :=
  if is_empty x then default else x.

(** ** The library functions the package calls *)

(** What [re.search(pattern, text, re.IGNORECASE)] can do: find a match,
    find none, raise [re.error] on a malformed pattern, or raise another
    exception. *)
Inductive re_outcome : Type :=
| ReMatch
| ReNoMatch
| ReError
| ReRaise (e : exn).

Class Lib : Type := {
  re_search : string → string → re_outcome;
  sha256_hexdigest : string → string
}.

(** ** Insertion-ordered dicts *)

Section odict.
Context {V : Type}.

Fixpoint od_get (d : list (string * V)) (k : string) : option V :=
  match d with
  | [] => None
  | (k', v) :: t => if String.eqb k' k then Some v else od_get t k
  end.

(** [d[k] = v]: an existing key keeps its place, a new one goes last. *)
Fixpoint od_set (d : list (string * V)) (k : string) (v : V)
    : list (string * V) :=
  match d with
  | [] => [(k, v)]
  | (k', v') :: t =>
      if String.eqb k' k then (k', v) :: t else (k', v') :: od_set t k v
  end.

(** [del d[k]] *)
Fixpoint od_del (d : list (string * V)) (k : string) : list (string * V) :=
  match d with
  | [] => []
  | (k', v') :: t =>
      if String.eqb k' k then t else (k', v') :: od_del t k
  end.

Definition od_mem (d : list (string * V)) (k : string) : bool :=
  match od_get d k with Some _ => true | None => false end.
End odict.

End Py.

(* ===================================================================== *)
(** * layer2_deliberative.py                                              *)
(* ===================================================================== *)

Module DeliberativeResult.
Record t : Type := mk {
  category : string;
  confidence : Q;
  cost : Q;
  reasoning : option string;
  model : option string
}.
End DeliberativeResult.

Module Layer2Deliberative.

Record t : Type := mk {
  model_client : option string;
  cost_per_call : Q;
  model_name : string;
  _call_count : Z;
  _total_cost : Q
}.

(** [Layer2Deliberative()] *)
Definition new : t :=
  {| model_client := None; cost_per_call := 1 # 100;
     model_name := "simulated"; _call_count := 0; _total_cost := 0 |}.

Definition _simulated_reason (self : t) (content : string)
    : DeliberativeResult.t :=
  let text_lower := Py.lower content in
  if Py.contains text_lower "urgent" || Py.contains text_lower "asap"
     || Py.contains text_lower "emergency"
  then DeliberativeResult.mk "urgent" (92 # 100) (cost_per_call self)
         (Some "Contains urgency indicators") (Some (model_name self))
  else if Py.contains text_lower "invoice" || Py.contains text_lower "billing"
          || Py.contains text_lower "payment"
  then DeliberativeResult.mk "billing" (88 # 100) (cost_per_call self)
         (Some "Contains billing-related terms") (Some (model_name self))
  else if Py.contains text_lower "unsubscribe"
          || Py.contains text_lower "viagra"
          || Py.contains text_lower "lottery"
  then DeliberativeResult.mk "spam" (95 # 100) (cost_per_call self)
         (Some "Contains spam indicators") (Some (model_name self))
  else DeliberativeResult.mk "other" (75 # 100) (cost_per_call self)
         (Some "No specific category matched") (Some (model_name self)).

(** The default implementation answers with the simulation. *)
Definition _call_model (self : t) (content : string) : DeliberativeResult.t :=
  _simulated_reason self content.

Definition reason (self : t) (content : string)
    : DeliberativeResult.t * t :=
  let self1 :=
    {| model_client := model_client self;
       cost_per_call := cost_per_call self;
       model_name := model_name self;
       _call_count := _call_count self + 1;
       _total_cost := (_total_cost self + cost_per_call self)%Q |} in
  match model_client self1 with
  | Some _ => (_call_model self1 content, self1)
  | None => (_simulated_reason self1 content, self1)
  end.

Definition set_cost_per_call (self : t) (cost : Q) : t :=
  {| model_client := model_client self; cost_per_call := cost;
     model_name := model_name self; _call_count := _call_count self;
     _total_cost := _total_cost self |}.

Definition set_model_client (self : t) (client : option string) : t :=
  {| model_client := client; cost_per_call := cost_per_call self;
     model_name := model_name self; _call_count := _call_count self;
     _total_cost := _total_cost self |}.

Definition reset_tracking (self : t) : t :=
  {| model_client := model_client self; cost_per_call := cost_per_call self;
     model_name := model_name self; _call_count := 0; _total_cost := 0 |}.

(** The states of a stage whose price per call is left alone: built with
    a price, then changed by [reason], [set_model_client] and
    [reset_tracking]. *)
Inductive priced (cost : Q) : t → Prop :=
| priced_new client name : priced cost (mk client cost name 0 0)
| priced_reason self content :
    priced cost self → priced cost (reason self content).2
| priced_set_model_client self client :
    priced cost self → priced cost (set_model_client self client)
| priced_reset_tracking self :
    priced cost self → priced cost (reset_tracking self).

End Layer2Deliberative.

(* ===================================================================== *)
(** * mcp_integration.py                                                  *)
(* ===================================================================== *)

Module MCPResponse.
Record t : Type := mk {
  content : string;
  category : option string;
  confidence : Q;
  cost : Q;
  model : string
}.
End MCPResponse.

(** The API client handed to [MCPClient], as far as [_call_api] uses it:
    whether it has a [messages] attribute, and what
    [messages.create(model, max_tokens=100, messages=[prompt])] followed
    by [response.content[0].text] gives: a text, or an exception raised
    on the way. *)
Module ApiClient.
Record t : Type := mk {
  has_messages : bool;
  create_text : string → string → Py.result string
}.
End ApiClient.

Module MCPClient.

Record t : Type := mk {
  model : string;
  api_client : option ApiClient.t;
  cost_per_call : Q;
  _call_count : Z;
  _total_cost : Q
}.

(** [MCPClient()] *)
Definition new : t :=
  {| model := "claude-3-5-sonnet-20241022"; api_client := None;
     cost_per_call := 1 # 100; _call_count := 0; _total_cost := 0 |}.

Definition _simulated_reason (self : t) (content : string) : MCPResponse.t :=
  let text_lower := Py.lower content in
  if Py.contains text_lower "urgent" || Py.contains text_lower "asap"
     || Py.contains text_lower "emergency"
  then MCPResponse.mk "urgent" (Some "urgent") (92 # 100)
         (cost_per_call self) (model self)
  else if Py.contains text_lower "invoice" || Py.contains text_lower "billing"
          || Py.contains text_lower "payment"
  then MCPResponse.mk "billing" (Some "billing") (88 # 100)
         (cost_per_call self) (model self)
  else if Py.contains text_lower "unsubscribe"
          || Py.contains text_lower "viagra"
          || Py.contains text_lower "lottery"
  then MCPResponse.mk "spam" (Some "spam") (95 # 100)
         (cost_per_call self) (model self)
  else MCPResponse.mk "other" (Some "other") (75 # 100)
         (cost_per_call self) (model self).

(** The text sent to the model. *)
Definition prompt (content : string) : string :=
  "Classify this email into one category (urgent, billing, spam, or other). "
  +:+ "Respond with just the category name." +:+ Py.nl +:+ Py.nl
  +:+ "Email: " +:+ content.

(** The whole body is inside [try ... except Exception], which answers
    with the simulation. *)
Definition _call_api (self : t) (client : ApiClient.t) (content : string)
    : MCPResponse.t :=
  if ApiClient.has_messages client
  then
    match ApiClient.create_text client (model self) (prompt content) with
    | Py.Ok text =>
        MCPResponse.mk text (Some (Py.lower (Py.strip text))) (90 # 100)
          (cost_per_call self) (model self)
    | Py.Raise _ => _simulated_reason self content
    end
  else _simulated_reason self content.

Definition reason (self : t) (content : string) : MCPResponse.t * t :=
  let self1 :=
    {| model := model self; api_client := api_client self;
       cost_per_call := cost_per_call self;
       _call_count := (_call_count self + 1)%Z;
       _total_cost := (_total_cost self + cost_per_call self)%Q |} in
  match api_client self1 with
  | Some client => (_call_api self1 client content, self1)
  | None => (_simulated_reason self1 content, self1)
  end.

(** [response.category or 'other'] *)
Definition classify (self : t) (content : string) : string * t :=
  let '(response, self1) := reason self content in
  (Py.str_or (default "" (MCPResponse.category response)) "other", self1).

Definition set_api_client (self : t) (client : option ApiClient.t) : t :=
  {| model := model self; api_client := client;
     cost_per_call := cost_per_call self; _call_count := _call_count self;
     _total_cost := _total_cost self |}.

Definition reset_tracking (self : t) : t :=
  {| model := model self; api_client := api_client self;
     cost_per_call := cost_per_call self; _call_count := 0;
     _total_cost := 0 |}.

End MCPClient.

(* ===================================================================== *)
(** * agent.py: the Decision record                                       *)
(* ===================================================================== *)

Module Decision.
Record t : Type := mk {
  category : string;
  method : string;
  confidence : Q;
  cost : Q;
  layer : Z;
  suppressed : bool
}.
End Decision.

(* ===================================================================== *)
(** * cost_tracker.py                                                     *)
(* ===================================================================== *)

Module CostRecord.
Record t : Type := mk {
  layer : Z;
  cost : Q;
  category : string;
  method : string;
  timestamp : Z;
  confidence : Q
}.
End CostRecord.

(** The dict handed to [CostTracker.record]; an absent key is [None]. *)
Module ResultDict.
Record t : Type := mk {
  layer : option Z;
  cost : option Q;
  category : option string;
  method : option string;
  confidence : option Q
}.
End ResultDict.

Module CostReport.
Record t : Type := mk {
  total_requests : Z;
  total_cost : Q;
  baseline_cost : Q;
  cost_savings : Q;
  cost_reduction_factor : Py.efloat;
  suppression_rate : Q;
  suppressions : Z
}.
End CostReport.

(** The tracker with its amounts as exact rationals: the model behind
    the counters and the ledger. What its float aggregates satisfy under
    rounding and overflow is stated on [CostTracker64], further down. *)
Module CostTracker.

Record t : Type := mk {
  records : list CostRecord.t;
  layer_costs : gmap Z Q;
  layer_counts : gmap Z Z;
  _suppressions : Z;
  _baseline_cost_per_request : Q
}.

(** [CostTracker()] *)
Definition new : t :=
  {| records := [];
     layer_costs := <[0%Z := 0%Q]> (<[1%Z := 0%Q]> (<[2%Z := 0%Q]> ∅));
     layer_counts := <[0%Z := 0%Z]> (<[1%Z := 0%Z]> (<[2%Z := 0%Z]> ∅));
     _suppressions := 0;
     _baseline_cost_per_request := 1 # 100 |}.

Definition record (self : t) (now : Z) (result : ResultDict.t) : t :=
  let layer := default 2%Z (ResultDict.layer result) in
  let cost := default 0%Q (ResultDict.cost result) in
  let category := default "unknown" (ResultDict.category result) in
  let method := default "unknown" (ResultDict.method result) in
  let confidence := default 0%Q (ResultDict.confidence result) in
  let record := CostRecord.mk layer cost category method now confidence in
  {| records := records self ++ [record];
     layer_costs :=
       <[layer := (default 0%Q (layer_costs self !! layer) + cost)%Q]>
         (layer_costs self);
     layer_counts :=
       <[layer := (default 0%Z (layer_counts self !! layer) + 1)%Z]>
         (layer_counts self);
     _suppressions :=
       if (layer <? 2)%Z then (_suppressions self + 1)%Z
       else _suppressions self;
     _baseline_cost_per_request := _baseline_cost_per_request self |}.

(** [record_result] reads the five attributes of a [Decision]. *)
Definition record_result (self : t) (now : Z) (result : Decision.t) : t :=
  record self now
    {| ResultDict.layer := Some (Decision.layer result);
       ResultDict.cost := Some (Decision.cost result);
       ResultDict.category := Some (Decision.category result);
       ResultDict.method := Some (Decision.method result);
       ResultDict.confidence := Some (Decision.confidence result) |}.

(** [sum(self.layer_counts.values())] *)
Definition total_requests (self : t) : Z :=
  map_fold (λ _ v acc, (acc + v)%Z) 0%Z (layer_counts self).

(** [sum(self.layer_costs.values())] *)
Definition total_cost (self : t) : Q :=
  map_fold (λ _ v acc, (acc + v)%Q) 0%Q (layer_costs self).

Definition baseline_cost (self : t) : Q :=
  (inject_Z (total_requests self) * _baseline_cost_per_request self)%Q.

Definition cost_savings (self : t) : Q :=
  (baseline_cost self - total_cost self)%Q.

Definition suppression_rate (self : t) : Q :=
  if (total_requests self =? 0)%Z then 0%Q
  else (inject_Z (_suppressions self) / inject_Z (total_requests self))%Q.

Definition cost_reduction_factor (self : t) : Py.efloat :=
  if Qeq_bool (total_cost self) 0
  then (if Py.Qltb 0 (baseline_cost self) then Py.PlusInf
        else Py.Finite 1)
  else Py.Finite (baseline_cost self / total_cost self).

Definition set_baseline_cost (self : t) (cost : Q) : t :=
  {| records := records self; layer_costs := layer_costs self;
     layer_counts := layer_counts self; _suppressions := _suppressions self;
     _baseline_cost_per_request := cost |}.

Definition report (self : t) : CostReport.t :=
  {| CostReport.total_requests := total_requests self;
     CostReport.total_cost := total_cost self;
     CostReport.baseline_cost := baseline_cost self;
     CostReport.cost_savings := cost_savings self;
     CostReport.cost_reduction_factor := cost_reduction_factor self;
     CostReport.suppression_rate := suppression_rate self;
     CostReport.suppressions := _suppressions self |}.

Definition reset (self : t) : t :=
  {| records := [];
     layer_costs := <[0%Z := 0%Q]> (<[1%Z := 0%Q]> (<[2%Z := 0%Q]> ∅));
     layer_counts := <[0%Z := 0%Z]> (<[1%Z := 0%Z]> (<[2%Z := 0%Z]> ∅));
     _suppressions := 0;
     _baseline_cost_per_request := _baseline_cost_per_request self |}.

Definition get_records_by_layer (self : t) (layer : Z) : list CostRecord.t :=
  filter (λ r, CostRecord.layer r = layer) (records self).

Definition get_records_by_category (self : t) (category : string)
    : list CostRecord.t :=
  filter (λ r, CostRecord.category r = category) (records self).

(** The states a tracker can be in: built by the constructor and changed
    by its public methods only. *)
Inductive reachable : t → Prop :=
| reach_new : reachable new
| reach_record self now result :
    reachable self → reachable (record self now result)
| reach_record_result self now d :
    reachable self → reachable (record_result self now d)
| reach_set_baseline_cost self cost :
    reachable self → reachable (set_baseline_cost self cost)
| reach_reset self :
    reachable self → reachable (reset self).

End CostTracker.

(* ===================================================================== *)
(** * cost_tracker.py, its floats as IEEE 754 binary64                    *)
(* ===================================================================== *)

(** Python's [float] is the binary64 format with round to nearest even,
    which is what Rocq's primitive floats are. The other modules take
    exact rationals for the floats, which is what their comparisons and
    counters need; the aggregates of the tracker add, multiply and divide
    floats, so their laws are stated on the model below, where an
    addition rounds and a quotient can overflow. *)
Module Float64.
Import Floats.

(** An int, as the conversions below read it. *)
Definition int_sf (n : Z) : spec_float :=
  match n with
  | Z0 => S754_zero false
  | Zpos p => S754_finite false p 0
  | Zneg p => S754_finite true p 0
  end.

(** [float(n)], as in [n * x] with [x] a float: the nearest float.
    (Beyond the range of floats Python raises [OverflowError]; no counter
    gets there.) *)
Definition of_int (n : Z) : float :=
  SF2Prim (binary_normalize prec emax n 0 false).

(** [a / b] on two ints, [b] not zero: the quotient, correctly rounded. *)
Definition int_div (a b : Z) : float :=
  SF2Prim (SFdiv prec emax (int_sf a) (int_sf b)).

(** [x == float('inf')] *)
Definition is_inf (x : float) : bool := (x =? infinity)%float.

(** The builtin [sum] on floats belongs to Python, not to the package,
    and is a parameter of the tracker. In the Python versions the
    package declares (3.8 to 3.11) it adds from 0, left to right, as
    [sum_plain] does; later versions compensate the rounding errors. *)
Class Sum := float_sum : list float → float.

Definition sum_plain : Sum := foldl PrimFloat.add 0%float.

End Float64.

(** The dict handed to [CostTracker.record]; an absent key is [None]. *)
Module ResultDict64.
Record t : Type := mk {
  layer : option Z;
  cost : option PrimFloat.float;
  category : option string;
  method : option string;
  confidence : option PrimFloat.float
}.
End ResultDict64.

Module CostRecord64.
Record t : Type := mk {
  layer : Z;
  cost : PrimFloat.float;
  category : string;
  method : string;
  timestamp : Z;
  confidence : PrimFloat.float
}.
End CostRecord64.

Module CostTracker64.
Import Floats.
#[local] Set Warnings "-inexact-float".

(** A dict with int keys, in insertion order: [d.get(k, default)] and
    [d[k] = v]. *)
Section dict.
Context {V : Type}.

Fixpoint get (d : list (Z * V)) (k : Z) (default : V) : V :=
  match d with
  | [] => default
  | (k', v) :: rest => if (k' =? k)%Z then v else get rest k default
  end.

Fixpoint set (d : list (Z * V)) (k : Z) (v : V) : list (Z * V) :=
  match d with
  | [] => [(k, v)]
  | (k', v') :: rest =>
      if (k' =? k)%Z then (k', v) :: rest else (k', v') :: set rest k v
  end.

End dict.

Record t : Type := mk {
  records : list CostRecord64.t;
  layer_costs : list (Z * float);
  layer_counts : list (Z * Z);
  _suppressions : Z;
  _baseline_cost_per_request : float
}.

(** [CostTracker()] *)
Definition new : t :=
  {| records := [];
     layer_costs := [(0%Z, 0%float); (1%Z, 0%float); (2%Z, 0%float)];
     layer_counts := [(0%Z, 0%Z); (1%Z, 0%Z); (2%Z, 0%Z)];
     _suppressions := 0;
     _baseline_cost_per_request := 0.01%float |}.

Definition record (self : t) (now : Z) (result : ResultDict64.t) : t :=
  let layer := default 2%Z (ResultDict64.layer result) in
  let cost := default 0%float (ResultDict64.cost result) in
  let category := default "unknown" (ResultDict64.category result) in
  let method := default "unknown" (ResultDict64.method result) in
  let confidence := default 0%float (ResultDict64.confidence result) in
  let record := CostRecord64.mk layer cost category method now confidence in
  {| records := records self ++ [record];
     layer_costs :=
       set (layer_costs self) layer
         (get (layer_costs self) layer 0 + cost)%float;
     layer_counts :=
       set (layer_counts self) layer
         (get (layer_counts self) layer 0 + 1)%Z;
     _suppressions :=
       if (layer <? 2)%Z then (_suppressions self + 1)%Z
       else _suppressions self;
     _baseline_cost_per_request := _baseline_cost_per_request self |}.

(** [record_result] reads the five attributes of the object, each with
    the default that [record] has for the key. *)
Definition record_result (self : t) (now : Z) (result : ResultDict64.t) : t :=
  record self now
    {| ResultDict64.layer := Some (default 2%Z (ResultDict64.layer result));
       ResultDict64.cost :=
         Some (default 0%float (ResultDict64.cost result));
       ResultDict64.category :=
         Some (default "unknown" (ResultDict64.category result));
       ResultDict64.method :=
         Some (default "unknown" (ResultDict64.method result));
       ResultDict64.confidence :=
         Some (default 0%float (ResultDict64.confidence result)) |}.

(** [sum(self.layer_counts.values())] *)
Definition total_requests (self : t) : Z :=
  foldl (λ acc kv, (acc + kv.2)%Z) 0%Z (layer_counts self).

Definition baseline_cost (self : t) : float :=
  (Float64.of_int (total_requests self) * _baseline_cost_per_request self)%float.

Definition suppression_rate (self : t) : float :=
  if (total_requests self =? 0)%Z then 0%float
  else Float64.int_div (_suppressions self) (total_requests self).

Section with_sum.
Context `{Float64.Sum}.

(** [sum(self.layer_costs.values())], the values in the order of the
    dict. *)
Definition total_cost (self : t) : float :=
  Float64.float_sum (layer_costs self).*2.

Definition cost_savings (self : t) : float :=
  (baseline_cost self - total_cost self)%float.

Definition cost_reduction_factor (self : t) : float :=
  if (total_cost self =? 0)%float
  then (if (0 <? baseline_cost self)%float then infinity else 1%float)
  else (baseline_cost self / total_cost self)%float.

End with_sum.

Definition set_baseline_cost (self : t) (cost : float) : t :=
  {| records := records self; layer_costs := layer_costs self;
     layer_counts := layer_counts self; _suppressions := _suppressions self;
     _baseline_cost_per_request := cost |}.

Definition reset (self : t) : t :=
  {| records := [];
     layer_costs := [(0%Z, 0%float); (1%Z, 0%float); (2%Z, 0%float)];
     layer_counts := [(0%Z, 0%Z); (1%Z, 0%Z); (2%Z, 0%Z)];
     _suppressions := 0;
     _baseline_cost_per_request := _baseline_cost_per_request self |}.

(** The states a tracker can be in: built by the constructor and changed
    by its public methods only. *)
Inductive reachable : t → Prop :=
| reach_new : reachable new
| reach_record self now result :
    reachable self → reachable (record self now result)
| reach_record_result self now result :
    reachable self → reachable (record_result self now result)
| reach_set_baseline_cost self cost :
    reachable self → reachable (set_baseline_cost self cost)
| reach_reset self :
    reachable self → reachable (reset self).

End CostTracker64.

(* ===================================================================== *)
(** * layer0_reactive.py                                                  *)
(* ===================================================================== *)

Module ValidationResult.
Record t : Type := mk {
  valid : bool;
  reason : option string;
  rejected : bool
}.
End ValidationResult.

(** The request dict, with the two keys the pipeline reads. *)
Module Request.
Record t : Type := mk {
  content : option Py.value;
  user_id : option Py.value
}.
(** [request.get('content', '')] *)
Definition get_content (request : t) : Py.value :=
  default (Py.VStr "") (content request).
(** [request.get('user_id', 'anonymous')] *)
Definition get_user_id (request : t) : Py.value :=
  default (Py.VStr "anonymous") (user_id request).
End Request.

Module RateEntry.
Record t : Type := mk {
  count : Z;
  window_start : Z
}.
End RateEntry.

Module Layer0Reactive.

Record t : Type := mk {
  min_length : Z;
  max_length : Z;
  blocklist : gset string;
  allowlist : gset string;
  rate_limits : gmap Py.value RateEntry.t;
  _validation_count : Z
}.

(** [Layer0Reactive()] *)
Definition new : t :=
  {| min_length := 5; max_length := 1000; blocklist := ∅; allowlist := ∅;
     rate_limits := ∅; _validation_count := 0 |}.

Definition set_rate_limits (self : t) (rl : gmap Py.value RateEntry.t) : t :=
  {| min_length := min_length self; max_length := max_length self;
     blocklist := blocklist self; allowlist := allowlist self;
     rate_limits := rl; _validation_count := _validation_count self |}.

Definition passed : ValidationResult.t := ValidationResult.mk true None false.

Definition failed (reason : string) : ValidationResult.t :=
  ValidationResult.mk false (Some reason) true.

(** [elapsed > window_seconds], the clock being in microseconds. *)
Definition window_expired (now window_start window_seconds : Z) : bool :=
  (window_seconds * 1000000 <? now - window_start)%Z.

Definition _check_rate_limit (self : t) (now : Z) (user_id : Py.value)
    (max_requests window_seconds : Z) : Py.result ValidationResult.t * t :=
  if negb (Py.hashable user_id)
  then (Py.Raise (Py.TypeError "unhashable type"), self)
  else
    match rate_limits self !! user_id with
    | None =>
        (Py.Ok passed,
         set_rate_limits self
           (<[user_id := RateEntry.mk 1 now]> (rate_limits self)))
    | Some user_limits =>
        if window_expired now (RateEntry.window_start user_limits)
             window_seconds
        then (Py.Ok passed,
              set_rate_limits self
                (<[user_id := RateEntry.mk 1 now]> (rate_limits self)))
        else if (max_requests <=? RateEntry.count user_limits)%Z
        then (Py.Ok (failed "Rate limit exceeded"), self)
        else (Py.Ok passed,
              set_rate_limits self
                (<[user_id :=
                     RateEntry.mk (RateEntry.count user_limits + 1)
                       (RateEntry.window_start user_limits)]>
                   (rate_limits self)))
    end.

(** The first blocklist term, in the iteration order of the set, that
    occurs in the lowercased content. *)
Definition blocked_term (blocklist : gset string) (content_lower : string)
    : option string :=
  List.find (λ blocked, Py.contains content_lower (Py.lower blocked))
    (elements blocklist).

(** [self._validation_count += 1] *)
Definition count_validation (self : t) : t :=
  {| min_length := min_length self; max_length := max_length self;
     blocklist := blocklist self; allowlist := allowlist self;
     rate_limits := rate_limits self;
     _validation_count := (_validation_count self + 1)%Z |}.

Definition validate (self : t) (now : Z) (request : Request.t)
    : Py.result ValidationResult.t * t :=
  let self1 := count_validation self in
  let content := Request.get_content request in
  let user_id := Request.get_user_id request in
  match content with
  | Py.VStr s =>
      if (Z.of_nat (String.length s) <? min_length self1)%Z
      then (Py.Ok (failed ("Content too short (min "
                           +:+ pretty (min_length self1) +:+ " chars)")),
            self1)
      else if (max_length self1 <? Z.of_nat (String.length s))%Z
      then (Py.Ok (failed ("Content too long (max "
                           +:+ pretty (max_length self1) +:+ " chars)")),
            self1)
      else
        match blocked_term (blocklist self1) (Py.lower s) with
        | Some blocked =>
            (Py.Ok (failed ("Blocked term detected: " +:+ blocked)), self1)
        | None =>
            match _check_rate_limit self1 now user_id 100 60 with
            | (Py.Ok rate_result, self2) =>
                if negb (ValidationResult.valid rate_result)
                then (Py.Ok rate_result, self2)
                else (Py.Ok passed, self2)
            | (Py.Raise e, self2) => (Py.Raise e, self2)
            end
        end
  | _ => (Py.Ok (failed "Content must be a string"), self1)
  end.

Definition add_to_blocklist (self : t) (term : string) : t :=
  {| min_length := min_length self; max_length := max_length self;
     blocklist := {[term]} ∪ blocklist self; allowlist := allowlist self;
     rate_limits := rate_limits self;
     _validation_count := _validation_count self |}.

Definition remove_from_blocklist (self : t) (term : string) : t :=
  {| min_length := min_length self; max_length := max_length self;
     blocklist := blocklist self ∖ {[term]}; allowlist := allowlist self;
     rate_limits := rate_limits self;
     _validation_count := _validation_count self |}.

Definition add_to_allowlist (self : t) (term : string) : t :=
  {| min_length := min_length self; max_length := max_length self;
     blocklist := blocklist self; allowlist := {[term]} ∪ allowlist self;
     rate_limits := rate_limits self;
     _validation_count := _validation_count self |}.

Definition validation_count (self : t) : Z := _validation_count self.

Definition reset_rate_limits (self : t) : t := set_rate_limits self ∅.

End Layer0Reactive.

(* ===================================================================== *)
(** * The shared-state dict and the heap it lives in                      *)
(* ===================================================================== *)

(** One entry of [shared_state['learned_patterns']]; an absent key of the
    entry is [None]. *)
Module PatternInfo.
Record t : Type := mk {
  confidence : option Q;
  learned_by : option string;
  learned_at : option Z
}.
End PatternInfo.

Module SharedState.
(** The dict: its ['learned_patterns'] entry when it has one, and the
    other keys a caller may have put there. *)
Record t : Type := mk {
  learned_patterns : option (list (string * PatternInfo.t));
  other_keys : list string
}.

(** [{}] *)
Definition empty : t := mk None [].

(** Truth value of the dict: only the dict without keys is falsy. *)
Definition truthy (d : t) : bool :=
  match learned_patterns d, other_keys d with
  | None, [] => false
  | _, _ => true
  end.
End SharedState.

Module Heap.
(** Dict objects by location. *)
Abbreviation t := (gmap nat SharedState.t).

Definition deref (h : t) (l : nat) : SharedState.t :=
  default SharedState.empty (h !! l).

(** A new empty dict. *)
Definition alloc (h : t) : nat * t :=
  let l := fresh (dom h) in (l, <[l := SharedState.empty]> h).

(** [shared_state or {}]: the given dict when there is one and it is
    truthy, a new empty dict otherwise. *)
Definition or_empty (shared_state : option nat) (h : t) : nat * t :=
  match shared_state with
  | Some l => if SharedState.truthy (deref h l) then (l, h) else alloc h
  | None => alloc h
  end.
End Heap.

(* ===================================================================== *)
(** * layer1_tactical.py                                                  *)
(* ===================================================================== *)

Module Pattern.
Record t : Type := mk {
  name : string;
  regex : string;
  category : string;
  confidence : Q;
  learned_at : option Z;
  learned_by : option string;
  match_count : Z
}.

(** [pattern.match_count += 1] *)
Definition hit (p : t) : t :=
  {| name := name p; regex := regex p; category := category p;
     confidence := confidence p; learned_at := learned_at p;
     learned_by := learned_by p; match_count := (match_count p + 1)%Z |}.
End Pattern.

Module PatternMatchResult.
Record t : Type := mk {
  matched : bool;
  pattern_name : option string;
  category : option string;
  confidence : Q;
  method : string
}.

(** [PatternMatchResult(matched=False)] *)
Definition no_match : t := mk false None None 0 "pattern".
End PatternMatchResult.

Module Layer1Tactical.

Record t : Type := mk {
  patterns : list (string * Pattern.t);
  confidence_threshold : Q;
  shared_state : nat;
  cache : gmap string PatternMatchResult.t;
  _match_count : Z;
  _cost : Q
}.

(** [Layer1Tactical(confidence_threshold, shared_state)] *)
Definition new (confidence_threshold : Q) (shared_state : option nat)
    (h : Heap.t) : t * Heap.t :=
  let '(l, h1) := Heap.or_empty shared_state h in
  ({| patterns := []; confidence_threshold := confidence_threshold;
      shared_state := l; cache := ∅; _match_count := 0; _cost := 0 |}, h1).

Definition add_pattern (self : t) (now : Z)
    (name regex category : string) (confidence : Q) : t :=
  {| patterns :=
       Py.od_set (patterns self) name
         (Pattern.mk name regex category confidence (Some now) None 0);
     confidence_threshold := confidence_threshold self;
     shared_state := shared_state self; cache := cache self;
     _match_count := _match_count self; _cost := _cost self |}.

Definition remove_pattern (self : t) (name : string) : bool * t :=
  if Py.od_mem (patterns self) name
  then (true,
        {| patterns := Py.od_del (patterns self) name;
           confidence_threshold := confidence_threshold self;
           shared_state := shared_state self; cache := cache self;
           _match_count := _match_count self; _cost := _cost self |})
  else (false, self).

Definition clear_cache (self : t) : t :=
  {| patterns := patterns self;
     confidence_threshold := confidence_threshold self;
     shared_state := shared_state self; cache := ∅;
     _match_count := _match_count self; _cost := _cost self |}.

Definition pattern_count (self : t) : Z := Z.of_nat (length (patterns self)).

(** How the loop over the local patterns ends. *)
Inductive scan_outcome : Type :=
| ScanHit (pattern_name : string) (pattern : Pattern.t)
| ScanMiss
| ScanRaise (e : Py.exn).

Section with_lib.
Context `{Py.Lib}.

(** Strategy 1, the loop over [self.patterns.items()]. It returns how the
    loop ended and the patterns after it: the winning pattern, if there
    is one, has its [match_count] incremented where it stands. *)
Fixpoint scan_patterns (threshold : Q) (ps : list (string * Pattern.t))
    (content_lower : string) : scan_outcome * list (string * Pattern.t) :=
  match ps with
  | [] => (ScanMiss, [])
  | (pattern_name, pattern) :: rest =>
      match Py.re_search (Pattern.regex pattern) content_lower with
      | Py.ReMatch =>
          if Py.Qgeb (Pattern.confidence pattern) threshold
          then (ScanHit pattern_name pattern,
                (pattern_name, Pattern.hit pattern) :: rest)
          else
            let '(o, rest1) := scan_patterns threshold rest content_lower in
            (o, (pattern_name, pattern) :: rest1)
      | Py.ReNoMatch =>
          let '(o, rest1) := scan_patterns threshold rest content_lower in
          (o, (pattern_name, pattern) :: rest1)
      | Py.ReError =>
          (* except re.error: continue *)
          let '(o, rest1) := scan_patterns threshold rest content_lower in
          (o, (pattern_name, pattern) :: rest1)
      | Py.ReRaise e => (ScanRaise e, ps)
      end
  end.

(** Strategy 2, the loop over [shared_state['learned_patterns'].items()]. *)
Fixpoint scan_shared (threshold : Q)
    (entries : list (string * PatternInfo.t)) (content_lower : string)
    : option (string * Q) :=
  match entries with
  | [] => None
  | (category, pattern_info) :: rest =>
      if Py.contains content_lower (Py.lower category)
      then
        let confidence := default 0%Q (PatternInfo.confidence pattern_info) in
        if Py.Qgeb confidence threshold
        then Some (category, confidence)
        else scan_shared threshold rest content_lower
      else scan_shared threshold rest content_lower
  end.

(** The state after a result was produced at a cost and cached. *)
Definition store_hit (self : t) (ps : list (string * Pattern.t))
    (cache_key : string) (result : PatternMatchResult.t) : t :=
  {| patterns := ps;
     confidence_threshold := confidence_threshold self;
     shared_state := shared_state self;
     cache := <[cache_key := result]> (cache self);
     _match_count := _match_count self;
     _cost := (_cost self + (1 # 10000))%Q |}.

Definition store_miss (self : t) (cache_key : string) : t :=
  {| patterns := patterns self;
     confidence_threshold := confidence_threshold self;
     shared_state := shared_state self;
     cache := <[cache_key := PatternMatchResult.no_match]> (cache self);
     _match_count := _match_count self;
     _cost := _cost self |}.

Definition match_ (self : t) (h : Heap.t) (content : string)
    : Py.result (option PatternMatchResult.t) * t :=
  let self1 :=
    {| patterns := patterns self;
       confidence_threshold := confidence_threshold self;
       shared_state := shared_state self; cache := cache self;
       _match_count := (_match_count self + 1)%Z; _cost := _cost self |} in
  let content_lower := Py.lower content in
  let cache_key := Py.sha256_hexdigest content_lower in
  match cache self1 !! cache_key with
  | Some cached =>
      (Py.Ok (if PatternMatchResult.matched cached then Some cached else None),
       self1)
  | None =>
      match scan_patterns (confidence_threshold self1) (patterns self1)
              content_lower with
      | (ScanHit pattern_name pattern, ps1) =>
          let result :=
            PatternMatchResult.mk true (Some pattern_name)
              (Some (Pattern.category pattern)) (Pattern.confidence pattern)
              "pattern_cached" in
          (Py.Ok (Some result), store_hit self1 ps1 cache_key result)
      | (ScanRaise e, _) => (Py.Raise e, self1)
      | (ScanMiss, _) =>
          match
            match SharedState.learned_patterns
                    (Heap.deref h (shared_state self1)) with
            | Some entries =>
                scan_shared (confidence_threshold self1) entries content_lower
            | None => None
            end
          with
          | Some (category, confidence) =>
              let result :=
                PatternMatchResult.mk true (Some category) (Some category)
                  confidence "pattern_shared" in
              (Py.Ok (Some result),
               store_hit self1 (patterns self1) cache_key result)
          | None => (Py.Ok None, store_miss self1 cache_key)
          end
      end
  end.

End with_lib.

Definition learn_pattern (self : t) (h : Heap.t) (now : Z)
    (content category : string) (confidence : Q) (learned_by : option string)
    : option string * t * Heap.t :=
  if Py.Qltb confidence (90 # 100) then (None, self, h)
  else
    match Py.split (Py.lower content) with
    | [] => (None, self, h)
    | key_word :: _ =>
        let pattern_name := "learned_" +:+ key_word +:+ "_" +:+ category in
        let self1 :=
          {| patterns :=
               Py.od_set (patterns self) pattern_name
                 (Pattern.mk pattern_name key_word category confidence
                    (Some now) learned_by 0);
             confidence_threshold := confidence_threshold self;
             shared_state := shared_state self; cache := cache self;
             _match_count := _match_count self; _cost := _cost self |} in
        let d := Heap.deref h (shared_state self) in
        let learned := default [] (SharedState.learned_patterns d) in
        let d1 :=
          SharedState.mk
            (Some (Py.od_set learned category
                     (PatternInfo.mk (Some confidence) learned_by (Some now))))
            (SharedState.other_keys d) in
        (Some pattern_name, self1, <[shared_state self := d1]> h)
    end.

End Layer1Tactical.

(* ===================================================================== *)
(** * agent.py: the orchestrator                                          *)
(* ===================================================================== *)

Module AgentReport.
(** The scalar fields of [SPLAgent.report()]. *)
Record t : Type := mk {
  agent_id : string;
  total_cost : Q;
  cost_savings : Q;
  cost_reduction_factor : Py.efloat;
  suppression_rate : Q;
  suppressions : Z;
  patterns_learned : Z
}.
End AgentReport.

Module SPLAgent.

Record t : Type := mk {
  agent_id : string;
  shared_state : nat;
  confidence_threshold : Q;
  layer0 : Layer0Reactive.t;
  layer1 : Layer1Tactical.t;
  layer2 : Layer2Deliberative.t;
  cost_tracker : CostTracker.t;
  _suppression_count : Z
}.

(** [SPLAgent(agent_id, shared_state, confidence_threshold)] *)
Definition new (agent_id : string) (shared_state : option nat)
    (confidence_threshold : Q) (h : Heap.t) : t * Heap.t :=
  let '(l, h1) := Heap.or_empty shared_state h in
  let '(layer1, h2) := Layer1Tactical.new confidence_threshold (Some l) h1 in
  ({| agent_id := agent_id; shared_state := l;
      confidence_threshold := confidence_threshold;
      layer0 := Layer0Reactive.new; layer1 := layer1;
      layer2 := Layer2Deliberative.new; cost_tracker := CostTracker.new;
      _suppression_count := 0 |}, h2).

Definition set_layer0 (self : t) (l0 : Layer0Reactive.t) : t :=
  {| agent_id := agent_id self; shared_state := shared_state self;
     confidence_threshold := confidence_threshold self;
     layer0 := l0; layer1 := layer1 self; layer2 := layer2 self;
     cost_tracker := cost_tracker self;
     _suppression_count := _suppression_count self |}.

Definition set_layer1 (self : t) (l1 : Layer1Tactical.t) : t :=
  {| agent_id := agent_id self; shared_state := shared_state self;
     confidence_threshold := confidence_threshold self;
     layer0 := layer0 self; layer1 := l1; layer2 := layer2 self;
     cost_tracker := cost_tracker self;
     _suppression_count := _suppression_count self |}.

Definition set_layer2 (self : t) (l2 : Layer2Deliberative.t) : t :=
  {| agent_id := agent_id self; shared_state := shared_state self;
     confidence_threshold := confidence_threshold self;
     layer0 := layer0 self; layer1 := layer1 self; layer2 := l2;
     cost_tracker := cost_tracker self;
     _suppression_count := _suppression_count self |}.

Definition set_cost_tracker (self : t) (ct : CostTracker.t) : t :=
  {| agent_id := agent_id self; shared_state := shared_state self;
     confidence_threshold := confidence_threshold self;
     layer0 := layer0 self; layer1 := layer1 self; layer2 := layer2 self;
     cost_tracker := ct;
     _suppression_count := _suppression_count self |}.

Definition set_suppression_count (self : t) (n : Z) : t :=
  {| agent_id := agent_id self; shared_state := shared_state self;
     confidence_threshold := confidence_threshold self;
     layer0 := layer0 self; layer1 := layer1 self; layer2 := layer2 self;
     cost_tracker := cost_tracker self;
     _suppression_count := n |}.

(** [self.cost_tracker.record_result(decision); return decision] *)
Definition record_and_return (self : t) (h : Heap.t) (now : Z)
    (decision : Decision.t) : Py.result Decision.t * (t * Heap.t) :=
  (Py.Ok decision,
   (set_cost_tracker self
      (CostTracker.record_result (cost_tracker self) now decision), h)).

Definition rejected_decision : Decision.t :=
  Decision.mk "REJECTED" "validation" 1 0 0 true.

(** [suppressed] is not given in the source and takes the default of the
    dataclass, [False]. *)
Definition error_decision : Decision.t :=
  Decision.mk "ERROR" "error_handler" 0 0 0 false.

Section with_lib.
Context `{Py.Lib}.

(** The body of the [try] of [process]: the state it returns is the one
    reached at the [return] or at the point of the exception. *)
Definition process_try (self : t) (h : Heap.t) (now : Z)
    (request : Request.t) : Py.result Decision.t * (t * Heap.t) :=
  let content := Request.get_content request in
  (* ===== LAYER 0: VALIDATION ===== *)
  match Layer0Reactive.validate (layer0 self) now request with
  | (Py.Raise e, l0) => (Py.Raise e, (set_layer0 self l0, h))
  | (Py.Ok validation, l0) =>
      let self0 := set_layer0 self l0 in
      if negb (ValidationResult.valid validation)
      then record_and_return self0 h now rejected_decision
      else
        (* ===== LAYER 1: PATTERN MATCHING ===== *)
        match content with
        | Py.VStr s =>
            match Layer1Tactical.match_ (layer1 self0) h s with
            | (Py.Raise e, l1) => (Py.Raise e, (set_layer1 self0 l1, h))
            | (Py.Ok (Some match_result), l1) =>
                (* a result that is returned has [matched] set *)
                let self1 :=
                  set_suppression_count (set_layer1 self0 l1)
                    (_suppression_count self0 + 1)%Z in
                record_and_return self1 h now
                  (Decision.mk
                     (Py.str_or
                        (default ""
                           (PatternMatchResult.category match_result))
                        "unknown")
                     (PatternMatchResult.method match_result)
                     (PatternMatchResult.confidence match_result)
                     0 1 true)
            | (Py.Ok None, l1) =>
                (* ===== LAYER 2: FOUNDATION MODEL ===== *)
                let self1 := set_layer1 self0 l1 in
                let '(fm_result, l2) :=
                  Layer2Deliberative.reason (layer2 self1) s in
                let self2 := set_layer2 self1 l2 in
                let '(self3, h3) :=
                  if Py.Qgeb (DeliberativeResult.confidence fm_result)
                       (90 # 100)
                  then
                    let '(_, l1', h') :=
                      Layer1Tactical.learn_pattern (layer1 self2) h now s
                        (DeliberativeResult.category fm_result)
                        (DeliberativeResult.confidence fm_result)
                        (Some (agent_id self2)) in
                    (set_layer1 self2 l1', h')
                  else (self2, h) in
                record_and_return self3 h3 now
                  (Decision.mk (DeliberativeResult.category fm_result) "llm"
                     (DeliberativeResult.confidence fm_result)
                     (DeliberativeResult.cost fm_result) 2 false)
            end
        | _ =>
            (* [content.lower()] on a value that is not a string *)
            (Py.Raise (Py.OtherException "AttributeError"), (self0, h))
        end
  end.

Definition process (self : t) (h : Heap.t) (now : Z) (request : Request.t)
    : Py.result Decision.t * (t * Heap.t) :=
  Py.try_except (process_try self h now request)
    (λ _ '(self1, h1), record_and_return self1 h1 now error_decision).

End with_lib.

Definition add_pattern (self : t) (now : Z)
    (name regex category : string) (confidence : Q) : t :=
  set_layer1 self
    (Layer1Tactical.add_pattern (layer1 self) now name regex category
       confidence).

Definition add_to_blocklist (self : t) (term : string) : t :=
  set_layer0 self (Layer0Reactive.add_to_blocklist (layer0 self) term).

Definition suppression_count (self : t) : Z := _suppression_count self.

Definition patterns_learned (self : t) : Z :=
  Layer1Tactical.pattern_count (layer1 self).

Definition report (self : t) : AgentReport.t :=
  let cost_report := CostTracker.report (cost_tracker self) in
  {| AgentReport.agent_id := agent_id self;
     AgentReport.total_cost := CostReport.total_cost cost_report;
     AgentReport.cost_savings := CostReport.cost_savings cost_report;
     AgentReport.cost_reduction_factor :=
       CostReport.cost_reduction_factor cost_report;
     AgentReport.suppression_rate := CostReport.suppression_rate cost_report;
     AgentReport.suppressions := _suppression_count self;
     AgentReport.patterns_learned := patterns_learned self |}.

Definition reset (self : t) : t :=
  {| agent_id := agent_id self; shared_state := shared_state self;
     confidence_threshold := confidence_threshold self;
     layer0 := Layer0Reactive.reset_rate_limits (layer0 self);
     layer1 := Layer1Tactical.clear_cache (layer1 self);
     layer2 := layer2 self;
     cost_tracker := CostTracker.reset (cost_tracker self);
     _suppression_count := 0 |}.

End SPLAgent.

(* ===================================================================== *)
(** * Notions used to state the properties                                *)
(* ===================================================================== *)

Module Ledger.

(** Number of ledger entries whose layer satisfies [P]. *)
Definition count_layer (P : Z → bool) (rs : list CostRecord.t) : Z :=
  Z.of_nat (length (filter (λ r, P (CostRecord.layer r) = true) rs)).

(** The ledger entry written for a decision at time [now]. *)
Definition entry (now : Z) (d : Decision.t) : CostRecord.t :=
  CostRecord.mk (Decision.layer d) (Decision.cost d) (Decision.category d)
    (Decision.method d) now (Decision.confidence d).

End Ledger.

Module Scan.
Section with_lib.
Context `{Py.Lib}.

(** The pattern matches the content and is confident enough. *)
Definition wins (threshold : Q) (content_lower : string) (p : Pattern.t)
    : bool :=
  match Py.re_search (Pattern.regex p) content_lower with
  | Py.ReMatch => Py.Qgeb (Pattern.confidence p) threshold
  | _ => false
  end.

(** The loop passes over the pattern: no match, too little confidence,
    or a malformed regular expression. *)
Definition passed_over (threshold : Q) (content_lower : string)
    (p : Pattern.t) : bool :=
  match Py.re_search (Pattern.regex p) content_lower with
  | Py.ReMatch => negb (Py.Qgeb (Pattern.confidence p) threshold)
  | Py.ReNoMatch => true
  | Py.ReError => true
  | Py.ReRaise _ => false
  end.

(** [re.error] is raised on the regular expression of the pattern. *)
Definition malformed (content_lower : string) (p : Pattern.t) : bool :=
  match Py.re_search (Pattern.regex p) content_lower with
  | Py.ReError => true
  | _ => false
  end.

(** The search raises something that [except re.error] does not catch. *)
Definition raises_other (content_lower : string) (p : Pattern.t) : bool :=
  match Py.re_search (Pattern.regex p) content_lower with
  | Py.ReRaise _ => true
  | _ => false
  end.

End with_lib.

(** The entries of an ordered dict that come before key [k]. *)
Fixpoint od_before {V : Type} (d : list (string * V)) (k : string)
    : list (string * V) :=
  match d with
  | [] => []
  | (k', v) :: t => if String.eqb k' k then [] else (k', v) :: od_before t k
  end.

End Scan.

Module Outcome.

(** The three ways the body of [process] returns a decision [d], with
    what it has done to the suppression counter of the agent. *)
Inductive returned (self self1 : SPLAgent.t) (d : Decision.t) : Prop :=
| ret_rejected :
    d = SPLAgent.rejected_decision →
    SPLAgent._suppression_count self1 = SPLAgent._suppression_count self →
    returned self self1 d
| ret_matched :
    Decision.layer d = 1%Z → Decision.cost d = 0%Q →
    Decision.suppressed d = true →
    SPLAgent._suppression_count self1
    = (SPLAgent._suppression_count self + 1)%Z →
    returned self self1 d
| ret_deliberated :
    Decision.layer d = 2%Z → Decision.method d = "llm" →
    Decision.cost d
    = Layer2Deliberative.cost_per_call (SPLAgent.layer2 self) →
    Decision.suppressed d = false →
    SPLAgent._suppression_count self1 = SPLAgent._suppression_count self →
    returned self self1 d.

End Outcome.

Module Reach.
Section with_lib.
Context `{Py.Lib}.

(** The states of an agent: built by the constructor and changed by its
    public methods; the heap handed to [process] is arbitrary, since
    other agents write to the shared dicts between two calls. *)
Inductive agent : SPLAgent.t → Prop :=
| agent_new agent_id shared_state threshold h :
    agent (SPLAgent.new agent_id shared_state threshold h).1
| agent_process self h now request :
    agent self → agent (SPLAgent.process self h now request).2.1
| agent_add_pattern self now name regex category confidence :
    agent self →
    agent (SPLAgent.add_pattern self now name regex category confidence)
| agent_add_to_blocklist self term :
    agent self → agent (SPLAgent.add_to_blocklist self term)
| agent_reset self :
    agent self → agent (SPLAgent.reset self).

End with_lib.
End Reach.

(** The classifier of the deliberative stage as the specification words
    it: keyword sets tried in order. *)
Module HeuristicSpec.

Definition urgency_keywords : list string := ["urgent"; "asap"; "emergency"].
Definition billing_keywords : list string := ["invoice"; "billing"; "payment"].
Definition spam_keywords : list string := ["unsubscribe"; "viagra"; "lottery"].

Definition has_any (text : string) (keywords : list string) : bool :=
  existsb (λ k, Py.contains text k) keywords.

Definition classify (text_lower : string) : string * Q :=
  if has_any text_lower urgency_keywords then ("urgent", 92 # 100)
  else if has_any text_lower billing_keywords then ("billing", 88 # 100)
  else if has_any text_lower spam_keywords then ("spam", 95 # 100)
  else ("other", 75 # 100).

End HeuristicSpec.

Module Runs.

(** Successive calls of the rate limiter for one user, at the given
    times: the answers ([valid]) in order, and the final state. A call
    that raises ends the run. *)
Fixpoint rate_limit_calls (self : Layer0Reactive.t) (user_id : Py.value)
    (max_requests window_seconds : Z) (times : list Z)
    : list bool * Layer0Reactive.t :=
  match times with
  | [] => ([], self)
  | now :: rest =>
      match Layer0Reactive._check_rate_limit self now user_id max_requests
              window_seconds with
      | (Py.Ok v, self1) =>
          let '(answers, self2) :=
            rate_limit_calls self1 user_id max_requests window_seconds rest in
          (ValidationResult.valid v :: answers, self2)
      | (Py.Raise _, self1) => ([], self1)
      end
  end.

(** The costs of a ledger, added in ledger order. *)
Definition sum_costs (rs : list CostRecord.t) : Q :=
  foldl (λ acc r, (acc + CostRecord.cost r)%Q) 0%Q rs.

(** The states of a tactical stage: built by the constructor and changed
    by its methods; the heap handed to a method is arbitrary. *)
Inductive stage `{Py.Lib} : Layer1Tactical.t → Prop :=
| stage_new threshold shared_state h :
    stage (Layer1Tactical.new threshold shared_state h).1
| stage_add_pattern self now name regex category confidence :
    stage self →
    stage (Layer1Tactical.add_pattern self now name regex category confidence)
| stage_remove_pattern self name :
    stage self → stage (Layer1Tactical.remove_pattern self name).2
| stage_match self h content :
    stage self → stage (Layer1Tactical.match_ self h content).2
| stage_learn_pattern self h now content category confidence learned_by :
    stage self →
    stage (Layer1Tactical.learn_pattern self h now content category
             confidence learned_by).1.2
| stage_clear_cache self :
    stage self → stage (Layer1Tactical.clear_cache self).

End Runs.

(* ===================================================================== *)
(** * Four statements of the specification, word for word                *)
(* ===================================================================== *)

(** These four sentences are formalised as they are written; the
    properties section shows where the code departs from them and what
    holds instead. *)
Module AsStated.
Section with_lib.
Context `{Py.Lib}.

(** "cost == 0 for every Decision with layer in {0,1}; cost > 0 only
    possible at layer == 2 (where cost equals cost_per_call);
    suppressed == true iff layer < 2", for every call of [process]. *)
Definition decision_invariant : Prop :=
  ∀ self h now request d st,
    SPLAgent.process self h now request = (Py.Ok d, st) →
    ((Decision.layer d = 0%Z ∨ Decision.layer d = 1%Z) →
     (Decision.cost d == 0)%Q)
    ∧ ((0 < Decision.cost d)%Q →
       Decision.layer d = 2%Z
       ∧ (Decision.cost d
          == Layer2Deliberative.cost_per_call (SPLAgent.layer2 self))%Q)
    ∧ (Decision.suppressed d = true ↔ (Decision.layer d < 2)%Z).


(** "If one stage's learn_pattern publishes category C with confidence
    c >= 0.90 into the shared-state map, then a subsequent match call on
    any stage configured with the same shared-state reference - for
    content that contains C case-insensitively, has no cached entry and
    is matched by no qualifying local pattern - returns a matched result
    with method pattern_shared, category C and confidence c." *)
Definition published_category_is_matched : Prop :=
  ∀ stage_a h now content0 C c learned_by name stage_a1 h1 stage_b content,
    (90 # 100 <= c)%Q →
    Layer1Tactical.learn_pattern stage_a h now content0 C c learned_by
    = (Some name, stage_a1, h1) →
    Layer1Tactical.shared_state stage_b
    = Layer1Tactical.shared_state stage_a →
    Py.contains (Py.lower content) (Py.lower C) = true →
    Layer1Tactical.cache stage_b
      !! Py.sha256_hexdigest (Py.lower content) = None →
    Forall (λ np, Scan.passed_over
                    (Layer1Tactical.confidence_threshold stage_b)
                    (Py.lower content) np.2 = true)
      (Layer1Tactical.patterns stage_b) →
    ∃ stage_b1,
      Layer1Tactical.match_ stage_b h1 content
      = (Py.Ok (Some (PatternMatchResult.mk true (Some C) (Some C) c
                        "pattern_shared")), stage_b1).

End with_lib.

Section aggregates.
Import Floats.
Context `{Float64.Sum}.

(** "total_requests is the sum of per-layer counts and total_cost the sum
    of per-layer costs; baseline_cost == total_requests *
    baseline_cost_per_request; cost_savings == baseline_cost -
    total_cost; suppression_rate == suppressions / total_requests and is
    0 when total_requests == 0; and cost_reduction_factor ==
    baseline_cost / total_cost, is infinite iff total_cost == 0 and
    baseline_cost > 0, and equals 1.0 when both are zero", at every
    reachable state of the tracker. *)
Definition cost_aggregate_laws : Prop :=
  ∀ self, CostTracker64.reachable self →
    CostTracker64.total_requests self
    = foldl (λ acc kv, (acc + kv.2)%Z) 0%Z (CostTracker64.layer_counts self)
    ∧ CostTracker64.total_cost self
      = Float64.float_sum (CostTracker64.layer_costs self).*2
    ∧ CostTracker64.baseline_cost self
      = (Float64.of_int (CostTracker64.total_requests self)
         * CostTracker64._baseline_cost_per_request self)%float
    ∧ CostTracker64.cost_savings self
      = (CostTracker64.baseline_cost self
         - CostTracker64.total_cost self)%float
    ∧ (CostTracker64.total_requests self = 0%Z →
       CostTracker64.suppression_rate self = 0%float)
    ∧ (CostTracker64.total_requests self ≠ 0%Z →
       CostTracker64.suppression_rate self
       = Float64.int_div (CostTracker64._suppressions self)
           (CostTracker64.total_requests self))
    ∧ ((CostTracker64.total_cost self =? 0)%float = false →
       CostTracker64.cost_reduction_factor self
       = (CostTracker64.baseline_cost self
          / CostTracker64.total_cost self)%float)
    ∧ (Float64.is_inf (CostTracker64.cost_reduction_factor self) = true
       ↔ (CostTracker64.total_cost self =? 0)%float = true
         ∧ (0 <? CostTracker64.baseline_cost self)%float = true)
    ∧ ((CostTracker64.total_cost self =? 0)%float = true →
       (CostTracker64.baseline_cost self =? 0)%float = true →
       CostTracker64.cost_reduction_factor self = 1%float).

End aggregates.

End AsStated.

(* ===================================================================== *)
(** * A small library instance, to run the pipeline on concrete requests  *)
(* ===================================================================== *)

Module Toy.

Fixpoint split_on (sep : ascii) (s cur : string) : list string :=
  match s with
  | EmptyString => [cur]
  | String c t =>
      if Ascii.eqb c sep then cur :: split_on sep t EmptyString
      else split_on sep t (cur +:+ String c EmptyString)
  end.

Definition unclosed_bracket (pattern : string) : bool :=
  Py.contains pattern "[" && negb (Py.contains pattern "]").

(** Stand-in for [re.search(pattern, text, re.IGNORECASE)] on the patterns
    used below: an alternation [w1|w2|...] of literal words, and the
    malformed patterns that open a bracket and never close it. *)
Definition re_search (pattern text : string) : Py.re_outcome :=
  if unclosed_bracket pattern then Py.ReError
  else if existsb (λ w, Py.contains (Py.lower text) (Py.lower w))
            (split_on "|" pattern EmptyString)
  then Py.ReMatch
  else Py.ReNoMatch.

(** The digest is replaced by the identity. *)
Definition lib : Py.Lib :=
  {| Py.re_search := re_search; Py.sha256_hexdigest := λ s, s |}.

Definition process := @SPLAgent.process lib.
Definition process_try := @SPLAgent.process_try lib.
Definition match_ := @Layer1Tactical.match_ lib.

Definition req (user content : string) : Request.t :=
  Request.mk (Some (Py.VStr content)) (Some (Py.VStr user)).

(** A request whose [user_id] is a list. *)
Definition req_list_user (content : string) : Request.t :=
  Request.mk (Some (Py.VStr content)) (Some (Py.VList [1%Z])).

(** A fresh agent with default settings and a dict of its own. *)
Definition agent0 : SPLAgent.t := (SPLAgent.new "spl_agent" None (85 # 100) ∅).1.
Definition heap0 : Heap.t := (SPLAgent.new "spl_agent" None (85 # 100) ∅).2.

End Toy.

(** [re.search] on a pattern whose repetition count is beyond what the
    engine accepts: compiling [a{4294967296}] raises [OverflowError],
    which is not an [re.error]. Every other pattern is read as in [Toy]. *)
Module Overflow.

Definition too_many : string := "a{4294967296}".

Definition re_search (pattern text : string) : Py.re_outcome :=
  if String.eqb pattern too_many
  then Py.ReRaise (Py.OtherException "OverflowError")
  else Toy.re_search pattern text.

Definition lib : Py.Lib :=
  {| Py.re_search := re_search; Py.sha256_hexdigest := λ s, s |}.

End Overflow.

(** A tracker on floats with one request recorded, at a cost of 1e-320. *)
Module Tiny.
Import Floats.
#[local] Set Warnings "-inexact-float".

Definition tracker : CostTracker64.t :=
  CostTracker64.record CostTracker64.new 0
    (ResultDict64.mk (Some 2%Z) (Some 1e-320%float) None None None).

End Tiny.

(* ===================================================================== *)
(** * Properties                                                          *)
(* ===================================================================== *)

(** End-to-end scenario 1 of the test suite: too short a content. *)
Example scenario_too_short :
  (Toy.process Toy.agent0 Toy.heap0 0 (Toy.req "user123" "Hi")).1
  = Py.Ok SPLAgent.rejected_decision.
Proof. vm_compute. reflexivity. Qed.

(** End-to-end scenario 2: a registered pattern answers at layer 1. *)
Example scenario_pattern :
  (Toy.process (SPLAgent.add_pattern Toy.agent0 0 "urgent" "urgent|asap|emergency"
          "urgent" (95 # 100))
       Toy.heap0 0 (Toy.req "user123" "This is an urgent request!")).1
  = Py.Ok (Decision.mk "urgent" "pattern_cached" (95 # 100) 0 1 true).
Proof. vm_compute. reflexivity. Qed.

(** End-to-end scenario 3: no pattern, the deliberative stage answers and
    one pattern is learned. *)
Example scenario_layer2 :
  let out := Toy.process Toy.agent0 Toy.heap0 0
               (Toy.req "user123"
                  "This is an urgent message that needs attention!") in
  out.1 = Py.Ok (Decision.mk "urgent" "llm" (92 # 100) (1 # 100) 2 false)
  ∧ SPLAgent.patterns_learned out.2.1 = 1%Z.
Proof. vm_compute. split; reflexivity. Qed.

(* --------------------------------------------------------------------- *)
(** ** The deliberative stage                                             *)
(* --------------------------------------------------------------------- *)

Lemma simulated_reason_classify (self : Layer2Deliberative.t) (content : string) :
  let r := Layer2Deliberative._simulated_reason self content in
  (DeliberativeResult.category r, DeliberativeResult.confidence r)
  = HeuristicSpec.classify (Py.lower content)
  ∧ DeliberativeResult.cost r = Layer2Deliberative.cost_per_call self.
Proof.
  unfold Layer2Deliberative._simulated_reason, HeuristicSpec.classify,
    HeuristicSpec.has_any, HeuristicSpec.urgency_keywords,
    HeuristicSpec.billing_keywords, HeuristicSpec.spam_keywords.
  cbn [existsb].
  repeat match goal with
         | |- context [Py.contains ?t ?k] => destruct (Py.contains t k)
         end; cbn; split; reflexivity.
Qed.

(** C6. Every call of [reason] adds one to the call counter and
    [cost_per_call] to the running total, whether the stage has a model
    client or not; the answer costs [cost_per_call] and is the one of the
    keyword heuristic on the lowercased content: urgency keywords give
    (urgent, 0.92), else billing keywords (billing, 0.88), else spam
    keywords (spam, 0.95), else (other, 0.75). The default cost per call
    is 0.01. *)
Theorem C6_reason_accounting_and_heuristic
    (self : Layer2Deliberative.t) (content : string) :
  let '(r, self1) := Layer2Deliberative.reason self content in
  Layer2Deliberative._call_count self1
    = (Layer2Deliberative._call_count self + 1)%Z
  ∧ Layer2Deliberative._total_cost self1
    = (Layer2Deliberative._total_cost self
       + Layer2Deliberative.cost_per_call self)%Q
  ∧ Layer2Deliberative.cost_per_call self1
    = Layer2Deliberative.cost_per_call self
  ∧ DeliberativeResult.cost r = Layer2Deliberative.cost_per_call self
  ∧ (DeliberativeResult.category r, DeliberativeResult.confidence r)
    = HeuristicSpec.classify (Py.lower content)
  ∧ Layer2Deliberative.cost_per_call Layer2Deliberative.new = 1 # 100.
Proof.
  unfold Layer2Deliberative.reason.
  cbn [Layer2Deliberative.model_client].
  destruct (Layer2Deliberative.model_client self);
    unfold Layer2Deliberative._call_model;
    match goal with
    | |- context [Layer2Deliberative._simulated_reason ?s content] =>
        destruct (simulated_reason_classify s content) as [Hclass Hcost]
    end;
    repeat split; try reflexivity; assumption.
Qed.

(** The four answers of the heuristic, on sample texts. *)
Example classify_samples :
  HeuristicSpec.classify (Py.lower "Need this ASAP") = ("urgent", 92 # 100)
  ∧ HeuristicSpec.classify (Py.lower "Invoice for an urgent job")
    = ("urgent", 92 # 100)
  ∧ HeuristicSpec.classify (Py.lower "Payment received, you won the lottery")
    = ("billing", 88 # 100)
  ∧ HeuristicSpec.classify (Py.lower "Unsubscribe here") = ("spam", 95 # 100)
  ∧ HeuristicSpec.classify (Py.lower "Team lunch tomorrow") = ("other", 75 # 100).
Proof. vm_compute. repeat split. Qed.

(* --------------------------------------------------------------------- *)
(** ** The cost tracker                                                   *)
(* --------------------------------------------------------------------- *)

Lemma sum_counts_bump (m : gmap Z Z) (k : Z) :
  map_fold (λ _ v acc, (acc + v)%Z) 0%Z
    (<[k := (default 0%Z (m !! k) + 1)%Z]> m)
  = (map_fold (λ _ v acc, (acc + v)%Z) 0%Z m + 1)%Z.
Proof.
  assert (Hcomm : ∀ (z1 z2 y : Z),
             (y + z2 + z1 = y + z1 + z2)%Z) by (intros; lia).
  destruct (m !! k) as [v|] eqn:Hk; cbn [default]; unfold id.
  - rewrite (map_fold_delete_L _ _ k v m); [|intros; apply Hcomm|done].
    rewrite <- insert_delete_eq.
    rewrite map_fold_insert_L;
      [lia|intros; apply Hcomm|apply lookup_delete_eq].
  - rewrite map_fold_insert_L; [lia|intros; apply Hcomm|done].
Qed.

Lemma count_layer_snoc (P : Z → bool) (rs : list CostRecord.t) (r : CostRecord.t) :
  Ledger.count_layer P (rs ++ [r])
  = (Ledger.count_layer P rs + (if P (CostRecord.layer r) then 1 else 0))%Z.
Proof.
  unfold Ledger.count_layer. rewrite filter_app, length_app.
  rewrite filter_cons, filter_nil.
  destruct (P (CostRecord.layer r)); case_decide; try done; cbn; lia.
Qed.

(** Ledger invariant: the per-layer counts add up to the number of ledger
    entries, and the suppression counter is the number of entries below
    layer 2. *)
Lemma tracker_ledger (self : CostTracker.t) :
  CostTracker.reachable self →
  CostTracker.total_requests self
    = Z.of_nat (length (CostTracker.records self))
  ∧ CostTracker._suppressions self
    = Ledger.count_layer (λ l, (l <? 2)%Z) (CostTracker.records self).
Proof.
  assert (Hrec : ∀ s now result,
    CostTracker.total_requests s = Z.of_nat (length (CostTracker.records s))
    ∧ CostTracker._suppressions s
      = Ledger.count_layer (λ l, (l <? 2)%Z) (CostTracker.records s) →
    CostTracker.total_requests (CostTracker.record s now result)
      = Z.of_nat (length (CostTracker.records (CostTracker.record s now result)))
    ∧ CostTracker._suppressions (CostTracker.record s now result)
      = Ledger.count_layer (λ l, (l <? 2)%Z)
          (CostTracker.records (CostTracker.record s now result))).
  { intros s now result [Hn Hs].
    unfold CostTracker.total_requests in *. cbn.
    rewrite sum_counts_bump, Hn, length_app, count_layer_snoc. cbn.
    rewrite Hs. split; [lia|].
    destruct (default 2%Z (ResultDict.layer result) <? 2)%Z; lia. }
  induction 1 as [|s now result _ IH|s now d _ IH|s cost _ IH|s _ IH].
  - split; reflexivity.
  - by apply Hrec.
  - by apply Hrec.
  - exact IH.
  - split; reflexivity.
Qed.

(* --------------------------------------------------------------------- *)
(** ** The aggregates of the tracker, on binary64 floats                  *)
(* --------------------------------------------------------------------- *)

Section aggregates.
Import Floats.
Context `{Float64.Sum}.

Lemma float_zero_not_positive (x : float) :
  (x =? 0)%float = true → (0 <? x)%float = false.
Proof.
  rewrite FloatAxioms.eqb_spec, FloatAxioms.ltb_spec.
  destruct (Prim2SF x) as [s|s| |s m e]; try done; by destruct s.
Qed.

Lemma sum_counts_from (d : list (Z * Z)) (a : Z) :
  foldl (λ acc kv, (acc + kv.2)%Z) a d
  = (a + foldl (λ acc kv, (acc + kv.2)%Z) 0%Z d)%Z.
Proof.
  revert a. induction d as [|[k v] d IH]; intros a; cbn [foldl snd];
    [lia|].
  rewrite (IH (a + v)%Z), (IH (0 + v)%Z). lia.
Qed.

Lemma sum_counts_set (d : list (Z * Z)) (k : Z) :
  foldl (λ acc kv, (acc + kv.2)%Z) 0%Z
    (CostTracker64.set d k (CostTracker64.get d k 0 + 1)%Z)
  = (foldl (λ acc kv, (acc + kv.2)%Z) 0%Z d + 1)%Z.
Proof.
  induction d as [|[k' v] d IH];
    cbn [CostTracker64.set CostTracker64.get foldl snd]; [lia|].
  destruct (k' =? k)%Z; cbn [foldl snd].
  - rewrite (sum_counts_from d (0 + (v + 1))), (sum_counts_from d (0 + v)).
    lia.
  - rewrite (sum_counts_from _ (0 + v)), (sum_counts_from d (0 + v)), IH.
    lia.
Qed.

Lemma tracker64_requests (self : CostTracker64.t) :
  CostTracker64.reachable self →
  CostTracker64.total_requests self
  = Z.of_nat (length (CostTracker64.records self)).
Proof.
  assert (Hrec : ∀ s now result,
    CostTracker64.total_requests s
    = Z.of_nat (length (CostTracker64.records s)) →
    CostTracker64.total_requests (CostTracker64.record s now result)
    = Z.of_nat (length (CostTracker64.records
                          (CostTracker64.record s now result)))).
  { intros s now result IH. unfold CostTracker64.total_requests in *. cbn.
    rewrite sum_counts_set, IH, length_app. cbn. lia. }
  induction 1 as [|s now result _ IH|s now result _ IH|s cost _ IH|s _ IH];
    [reflexivity|by apply Hrec|by apply Hrec|exact IH|reflexivity].
Qed.

(** C7, amended. On binary64 floats, in every state a tracker reaches
    through its methods: [total_requests] is the sum of the per-layer
    counts (and the number of ledger entries) and [total_cost] the [sum]
    of the per-layer costs, in the order of the dict;
    [baseline_cost] is [total_requests] times the baseline cost per
    request; [cost_savings] is the baseline cost minus the total cost;
    [suppression_rate] is the suppression counter over [total_requests],
    and 0 without requests; [cost_reduction_factor] is the quotient of
    the baseline cost by the total cost when the total cost is not zero,
    is infinite when the total cost is zero and the baseline cost
    positive, and is 1 when both are zero. It is infinite in these two
    cases only: total cost zero and baseline cost positive, or a quotient
    that is itself infinite. *)
Theorem C7_cost_aggregate_laws_amended (self : CostTracker64.t) :
  CostTracker64.reachable self →
  CostTracker64.total_requests self
  = foldl (λ acc kv, (acc + kv.2)%Z) 0%Z (CostTracker64.layer_counts self)
  ∧ CostTracker64.total_requests self
    = Z.of_nat (length (CostTracker64.records self))
  ∧ CostTracker64.total_cost self
    = Float64.float_sum (CostTracker64.layer_costs self).*2
  ∧ CostTracker64.baseline_cost self
    = (Float64.of_int (CostTracker64.total_requests self)
       * CostTracker64._baseline_cost_per_request self)%float
  ∧ CostTracker64.cost_savings self
    = (CostTracker64.baseline_cost self
       - CostTracker64.total_cost self)%float
  ∧ (CostTracker64.total_requests self = 0%Z →
     CostTracker64.suppression_rate self = 0%float)
  ∧ (CostTracker64.total_requests self ≠ 0%Z →
     CostTracker64.suppression_rate self
     = Float64.int_div (CostTracker64._suppressions self)
         (CostTracker64.total_requests self))
  ∧ ((CostTracker64.total_cost self =? 0)%float = false →
     CostTracker64.cost_reduction_factor self
     = (CostTracker64.baseline_cost self
        / CostTracker64.total_cost self)%float)
  ∧ ((CostTracker64.total_cost self =? 0)%float = true →
     (0 <? CostTracker64.baseline_cost self)%float = true →
     CostTracker64.cost_reduction_factor self = infinity)
  ∧ ((CostTracker64.total_cost self =? 0)%float = true →
     (CostTracker64.baseline_cost self =? 0)%float = true →
     CostTracker64.cost_reduction_factor self = 1%float)
  ∧ (Float64.is_inf (CostTracker64.cost_reduction_factor self) = true
     ↔ ((CostTracker64.total_cost self =? 0)%float = true
        ∧ (0 <? CostTracker64.baseline_cost self)%float = true)
       ∨ ((CostTracker64.total_cost self =? 0)%float = false
          ∧ Float64.is_inf
              (CostTracker64.baseline_cost self
               / CostTracker64.total_cost self)%float = true)).
Proof.
  intros Hreach.
  split; [reflexivity|]. split; [by apply tracker64_requests|].
  split; [reflexivity|]. split; [reflexivity|]. split; [reflexivity|].
  unfold CostTracker64.suppression_rate, CostTracker64.cost_reduction_factor.
  split; [intros ->; reflexivity|].
  split; [intros Hne; apply Z.eqb_neq in Hne; by rewrite Hne|].
  destruct (CostTracker64.total_cost self =? 0)%float eqn:Hzero.
  - split; [done|].
    destruct (0 <? CostTracker64.baseline_cost self)%float eqn:Hpos.
    + split; [done|]. split.
      { intros _ Hb. apply float_zero_not_positive in Hb. congruence. }
      split; [auto|done].
    + split; [done|]. split; [done|].
      split; [by vm_compute|]. by intros [[_ ?]|[? _]].
  - split; [done|]. split; [done|]. split; [done|].
    split; [auto|]. by intros [[? _]|[_ ?]].
Qed.

End aggregates.

Lemma C7_cost_aggregate_laws_amended_witness :
  Float64.is_inf
    (@CostTracker64.cost_reduction_factor Float64.sum_plain Tiny.tracker)
  = true
  ∧ CostTracker64.total_requests Tiny.tracker = 1%Z.
Proof.
  assert (Hreach : CostTracker64.reachable Tiny.tracker)
    by apply CostTracker64.reach_record, CostTracker64.reach_new.
  destruct (@C7_cost_aggregate_laws_amended Float64.sum_plain
              Tiny.tracker Hreach)
    as (_ & Hn & _ & _ & _ & _ & _ & _ & _ & _ & Hinf).
  split; [|rewrite Hn; reflexivity].
  apply Hinf. right. split; vm_compute; reflexivity.
Defined.

(** C7, as stated, fails, with [sum] adding from left to right: a
    tracker that has recorded one request at a cost of 1e-320 has a
    total cost that is not zero, and its cost reduction factor,
    0.01 / 1e-320, overflows to infinity. *)
Lemma C7_counterexample : ¬ @AsStated.cost_aggregate_laws Float64.sum_plain.
Proof.
  intros Hlaws.
  destruct (Hlaws Tiny.tracker)
    as (_ & _ & _ & _ & _ & _ & _ & [Hinf _] & _).
  { apply CostTracker64.reach_record, CostTracker64.reach_new. }
  destruct Hinf as [Hzero _]; [by vm_compute|].
  vm_compute in Hzero. discriminate.
Qed.

(* --------------------------------------------------------------------- *)
(** ** Ordered dicts and float comparisons                                *)
(* --------------------------------------------------------------------- *)

Lemma od_get_set_eq {V} (d : list (string * V)) (k : string) (v : V) :
  Py.od_get (Py.od_set d k v) k = Some v.
Proof.
  induction d as [|[k' v'] d IH]; cbn.
  - by rewrite String.eqb_refl.
  - destruct (String.eqb k' k) eqn:Hk; cbn; by rewrite Hk.
Qed.

Lemma od_get_set_ne {V} (d : list (string * V)) (k k' : string) (v : V) :
  k ≠ k' → Py.od_get (Py.od_set d k v) k' = Py.od_get d k'.
Proof.
  intros Hne. induction d as [|[k0 v0] d IH]; cbn.
  - destruct (String.eqb k k') eqn:Hk; [|done].
    by apply String.eqb_eq in Hk.
  - destruct (String.eqb k0 k) eqn:Hk; cbn.
    + apply String.eqb_eq in Hk. subst k0.
      destruct (String.eqb k k') eqn:Hk'; [|done].
      by apply String.eqb_eq in Hk'.
    + by rewrite IH.
Qed.

Lemma Qltb_true (a b : Q) : Py.Qltb a b = true ↔ (a < b)%Q.
Proof.
  unfold Py.Qltb. rewrite negb_true_iff. split.
  - intros Hle. apply Qnot_le_lt. intros Hc.
    apply Qle_bool_iff in Hc. congruence.
  - intros Hlt. destruct (Qle_bool b a) eqn:Hle; [|done].
    apply Qle_bool_iff in Hle. exfalso. by apply (Qlt_not_le _ _ Hlt).
Qed.

Lemma Qltb_false (a b : Q) : Py.Qltb a b = false ↔ (b <= a)%Q.
Proof.
  unfold Py.Qltb. rewrite negb_false_iff. apply Qle_bool_iff.
Qed.

(** C5. [learn_pattern] with a confidence below 0.90 returns [None] and
    leaves the stage and the heap of shared dicts as they were. With a
    confidence of at least 0.90 and a content whose lowercased text has a
    first whitespace-delimited token, it returns the name
    [learned_<token>_<category>], registers under that name a pattern
    whose regex is the token and whose confidence is the supplied one
    (other patterns are kept), and writes under the category key of
    [shared_state['learned_patterns']] the entry made of the confidence,
    the learner and the time, replacing an entry that was there; other
    categories and other dicts are untouched. *)
Theorem C5_learn_pattern_threshold
    (self : Layer1Tactical.t) (h : Heap.t) (now : Z)
    (content category : string) (confidence : Q) (learned_by : option string) :
  ((confidence < 90 # 100)%Q →
   Layer1Tactical.learn_pattern self h now content category confidence
     learned_by = (None, self, h))
  ∧ ((90 # 100 <= confidence)%Q →
     ∀ key_word rest, Py.split (Py.lower content) = key_word :: rest →
     let pattern_name := "learned_" +:+ key_word +:+ "_" +:+ category in
     let learned0 :=
       default [] (SharedState.learned_patterns
                     (Heap.deref h (Layer1Tactical.shared_state self))) in
     ∃ self1 h1 learned1,
       Layer1Tactical.learn_pattern self h now content category confidence
         learned_by = (Some pattern_name, self1, h1)
       ∧ Py.od_get (Layer1Tactical.patterns self1) pattern_name
         = Some (Pattern.mk pattern_name key_word category confidence
                   (Some now) learned_by 0)
       ∧ (∀ n, n ≠ pattern_name →
          Py.od_get (Layer1Tactical.patterns self1) n
          = Py.od_get (Layer1Tactical.patterns self) n)
       ∧ Layer1Tactical.shared_state self1 = Layer1Tactical.shared_state self
       ∧ SharedState.learned_patterns
           (Heap.deref h1 (Layer1Tactical.shared_state self))
         = Some learned1
       ∧ Py.od_get learned1 category
         = Some (PatternInfo.mk (Some confidence) learned_by (Some now))
       ∧ (∀ c, c ≠ category → Py.od_get learned1 c = Py.od_get learned0 c)
       ∧ (∀ l, l ≠ Layer1Tactical.shared_state self → h1 !! l = h !! l)).
Proof.
  unfold Layer1Tactical.learn_pattern. split.
  - intros Hlt. apply Qltb_true in Hlt. by rewrite Hlt.
  - intros Hge key_word rest Hsplit. apply Qltb_false in Hge.
    rewrite Hge, Hsplit. cbn zeta.
    eexists _, _, _. split; [reflexivity|]. cbn.
    split; [apply od_get_set_eq|].
    split; [intros n Hn; by apply od_get_set_ne|].
    split; [done|].
    unfold Heap.deref at 1. rewrite lookup_insert_eq. cbn.
    split; [reflexivity|].
    split; [apply od_get_set_eq|].
    split; [intros c Hc; by apply od_get_set_ne|].
    intros l Hl. by rewrite lookup_insert_ne.
Qed.

Lemma C5_learn_pattern_threshold_witness :
  ∃ self1 h1,
    Layer1Tactical.learn_pattern (SPLAgent.layer1 Toy.agent0) Toy.heap0 7
      "Billing question about invoice" "billing" (92 # 100) (Some "agent_a")
    = (Some "learned_billing_billing", self1, h1)
    ∧ Py.od_get (Layer1Tactical.patterns self1) "learned_billing_billing"
      = Some (Pattern.mk "learned_billing_billing" "billing" "billing"
                (92 # 100) (Some 7%Z) (Some "agent_a") 0).
Proof.
  destruct (C5_learn_pattern_threshold (SPLAgent.layer1 Toy.agent0)
              Toy.heap0 7 "Billing question about invoice" "billing"
              (92 # 100) (Some "agent_a")) as [_ Hlearn].
  destruct (Hlearn ltac:(vm_compute; discriminate) "billing"
              ["question"; "about"; "invoice"] ltac:(vm_compute; reflexivity))
    as (self1 & h1 & learned1 & Heq & Hpat & _).
  exists self1, h1. split; [exact Heq | exact Hpat].
Defined.

(** Below the learning threshold nothing is registered. *)
Example learn_pattern_low_confidence :
  Layer1Tactical.learn_pattern (SPLAgent.layer1 Toy.agent0) Toy.heap0 7
    "some content" "category" (80 # 100) None
  = (None, SPLAgent.layer1 Toy.agent0, Toy.heap0).
Proof. reflexivity. Qed.

(* --------------------------------------------------------------------- *)
(** ** The validation stage                                               *)
(* --------------------------------------------------------------------- *)


Lemma blocked_term_none (blocklist : gset string) (content_lower : string) :
  Layer0Reactive.blocked_term blocklist content_lower = None
  ↔ ∀ b, b ∈ blocklist → Py.contains content_lower (Py.lower b) = false.
Proof.
  unfold Layer0Reactive.blocked_term. split.
  - intros Hfind b Hb. apply (find_none _ _ Hfind).
    by apply list_elem_of_In, elem_of_elements.
  - intros Hnone.
    destruct (find _ _) as [b|] eqn:Hfind; [|done].
    apply find_some in Hfind as [Hin Hb].
    rewrite Hnone in Hb; [done|].
    by apply elem_of_elements, list_elem_of_In.
Qed.

(** The rate limiter, case by case. *)
Lemma check_rate_limit_cases (self : Layer0Reactive.t) (now : Z)
    (user_id : Py.value) (max_requests window_seconds : Z) :
  Py.hashable user_id = true →
  (Layer0Reactive.rate_limits self !! user_id = None →
   Layer0Reactive._check_rate_limit self now user_id max_requests
     window_seconds
   = (Py.Ok Layer0Reactive.passed,
      Layer0Reactive.set_rate_limits self
        (<[user_id := RateEntry.mk 1 now]> (Layer0Reactive.rate_limits self))))
  ∧ (∀ e, Layer0Reactive.rate_limits self !! user_id = Some e →
     ((window_seconds * 1000000 < now - RateEntry.window_start e)%Z →
      Layer0Reactive._check_rate_limit self now user_id max_requests
        window_seconds
      = (Py.Ok Layer0Reactive.passed,
         Layer0Reactive.set_rate_limits self
           (<[user_id := RateEntry.mk 1 now]>
              (Layer0Reactive.rate_limits self))))
     ∧ ((now - RateEntry.window_start e <= window_seconds * 1000000)%Z →
        (max_requests <= RateEntry.count e)%Z →
        Layer0Reactive._check_rate_limit self now user_id max_requests
          window_seconds
        = (Py.Ok (Layer0Reactive.failed "Rate limit exceeded"), self))
     ∧ ((now - RateEntry.window_start e <= window_seconds * 1000000)%Z →
        (RateEntry.count e < max_requests)%Z →
        Layer0Reactive._check_rate_limit self now user_id max_requests
          window_seconds
        = (Py.Ok Layer0Reactive.passed,
           Layer0Reactive.set_rate_limits self
             (<[user_id := RateEntry.mk (RateEntry.count e + 1)
                             (RateEntry.window_start e)]>
                (Layer0Reactive.rate_limits self))))).
Proof.
  intros Hhash. unfold Layer0Reactive._check_rate_limit,
    Layer0Reactive.window_expired. rewrite Hhash. cbn [negb].
  split.
  - by intros ->.
  - intros e ->. repeat split.
    + intros Hexp. apply Z.ltb_lt in Hexp. by rewrite Hexp.
    + intros Hin Hmax. apply Z.ltb_ge in Hin. apply Z.leb_le in Hmax.
      by rewrite Hin, Hmax.
    + intros Hin Hmax. apply Z.ltb_ge in Hin. apply Z.leb_gt in Hmax.
      by rewrite Hin, Hmax.
Qed.

(** The limiter answers [passed] or the rate-limit failure, nothing else. *)
Lemma check_rate_limit_result (self : Layer0Reactive.t) (now : Z)
    (user_id : Py.value) (max_requests window_seconds : Z) v self1 :
  Layer0Reactive._check_rate_limit self now user_id max_requests
    window_seconds = (Py.Ok v, self1) →
  v = Layer0Reactive.passed
  ∨ (v = Layer0Reactive.failed "Rate limit exceeded" ∧ self1 = self).
Proof.
  unfold Layer0Reactive._check_rate_limit.
  repeat case_match; intros [= <- <-]; auto.
Qed.

Lemma check_rate_limit_unhashable (self : Layer0Reactive.t) (now : Z)
    (user_id : Py.value) (max_requests window_seconds : Z) :
  Py.hashable user_id = false →
  Layer0Reactive._check_rate_limit self now user_id max_requests
    window_seconds = (Py.Raise (Py.TypeError "unhashable type"), self).
Proof.
  intros Hhash. unfold Layer0Reactive._check_rate_limit. by rewrite Hhash.
Qed.

(** [validate], check by check. *)
Lemma validate_cases (self : Layer0Reactive.t) (now : Z) (request : Request.t) :
  let self1 := Layer0Reactive.count_validation self in
  let content := Request.get_content request in
  let user_id := Request.get_user_id request in
  (Py.isinstance_str content = false →
   Layer0Reactive.validate self now request
   = (Py.Ok (Layer0Reactive.failed "Content must be a string"), self1))
  ∧ (∀ s n, content = Py.VStr s → n = Z.of_nat (String.length s) →
     ((n < Layer0Reactive.min_length self)%Z →
      Layer0Reactive.validate self now request
      = (Py.Ok (Layer0Reactive.failed
                  ("Content too short (min "
                   +:+ pretty (Layer0Reactive.min_length self)
                   +:+ " chars)")), self1))
     ∧ ((Layer0Reactive.min_length self <= n)%Z →
        (Layer0Reactive.max_length self < n)%Z →
        Layer0Reactive.validate self now request
        = (Py.Ok (Layer0Reactive.failed
                    ("Content too long (max "
                     +:+ pretty (Layer0Reactive.max_length self)
                     +:+ " chars)")), self1))
     ∧ ((Layer0Reactive.min_length self <= n)%Z →
        (n <= Layer0Reactive.max_length self)%Z →
        ∀ b, Layer0Reactive.blocked_term (Layer0Reactive.blocklist self)
               (Py.lower s) = Some b →
        Layer0Reactive.validate self now request
        = (Py.Ok (Layer0Reactive.failed ("Blocked term detected: " +:+ b)),
           self1))
     ∧ ((Layer0Reactive.min_length self <= n)%Z →
        (n <= Layer0Reactive.max_length self)%Z →
        (∀ b, b ∈ Layer0Reactive.blocklist self →
              Py.contains (Py.lower s) (Py.lower b) = false) →
        Layer0Reactive.validate self now request
        = Layer0Reactive._check_rate_limit self1 now user_id 100 60)).
Proof.
  intros self1 content user_id. unfold Layer0Reactive.validate.
  fold self1 content user_id.
  change (Layer0Reactive.min_length self1)
    with (Layer0Reactive.min_length self).
  change (Layer0Reactive.max_length self1)
    with (Layer0Reactive.max_length self).
  change (Layer0Reactive.blocklist self1)
    with (Layer0Reactive.blocklist self).
  split.
  - destruct content; done.
  - intros s n -> ->. repeat split.
    + intros Hshort. apply Z.ltb_lt in Hshort. by rewrite Hshort.
    + intros Hmin Hlong. apply Z.ltb_ge in Hmin. apply Z.ltb_lt in Hlong.
      by rewrite Hmin, Hlong.
    + intros Hmin Hmax b Hb. apply Z.ltb_ge in Hmin, Hmax.
      by rewrite Hmin, Hmax, Hb.
    + intros Hmin Hmax Hnone. apply Z.ltb_ge in Hmin, Hmax.
      apply blocked_term_none in Hnone. rewrite Hmin, Hmax, Hnone.
      destruct (Layer0Reactive._check_rate_limit _ _ _ _ _)
        as [[v|e] self2] eqn:Hrate; [|done].
      destruct (check_rate_limit_result _ _ _ _ _ _ _ Hrate)
        as [->|[-> ->]]; done.
Qed.



(* --------------------------------------------------------------------- *)
(** ** The tactical stage: the loop over the local patterns               *)
(* --------------------------------------------------------------------- *)

Section scan.
Context `{Py.Lib}.
Implicit Types (ps pre post : list (string * Pattern.t)) (p : Pattern.t).

Lemma scan_wins_head threshold name p post c :
  Scan.wins threshold c p = true →
  Layer1Tactical.scan_patterns threshold ((name, p) :: post) c
  = (Layer1Tactical.ScanHit name p, (name, Pattern.hit p) :: post).
Proof.
  unfold Scan.wins. cbn.
  destruct (Py.re_search _ _); try done. by intros ->.
Qed.

Lemma scan_passed_over_cons threshold name p rest c :
  Scan.passed_over threshold c p = true →
  Layer1Tactical.scan_patterns threshold ((name, p) :: rest) c
  = ((Layer1Tactical.scan_patterns threshold rest c).1,
     (name, p) :: (Layer1Tactical.scan_patterns threshold rest c).2).
Proof.
  unfold Scan.passed_over. cbn.
  destruct (Py.re_search _ _); try done;
    destruct (Layer1Tactical.scan_patterns threshold rest c); try done.
  rewrite negb_true_iff. by intros ->.
Qed.

Lemma scan_passed_over_app threshold pre rest c :
  Forall (λ np, Scan.passed_over threshold c np.2 = true) pre →
  Layer1Tactical.scan_patterns threshold (pre ++ rest) c
  = ((Layer1Tactical.scan_patterns threshold rest c).1,
     pre ++ (Layer1Tactical.scan_patterns threshold rest c).2).
Proof.
  induction 1 as [|[name p] pre Hp _ IH]; cbn [app].
  - by destruct (Layer1Tactical.scan_patterns threshold rest c).
  - rewrite scan_passed_over_cons by done. by rewrite IH.
Qed.

(** The first pattern that wins is the hit, and only its counter moves. *)
Lemma scan_first_winner threshold pre name p post c :
  Forall (λ np, Scan.passed_over threshold c np.2 = true) pre →
  Scan.wins threshold c p = true →
  Layer1Tactical.scan_patterns threshold (pre ++ (name, p) :: post) c
  = (Layer1Tactical.ScanHit name p, pre ++ (name, Pattern.hit p) :: post).
Proof.
  intros Hpre Hp. rewrite scan_passed_over_app by done.
  by rewrite scan_wins_head.
Qed.

Lemma malformed_passed_over threshold c p :
  Scan.malformed c p = true → Scan.passed_over threshold c p = true.
Proof.
  unfold Scan.malformed, Scan.passed_over. by destruct (Py.re_search _ _).
Qed.

(** Dropping the malformed patterns does not change how the loop ends. *)
Lemma scan_without_malformed threshold ps c :
  (Layer1Tactical.scan_patterns threshold ps c).1
  = (Layer1Tactical.scan_patterns threshold
       (filter (λ np, Scan.malformed c np.2 = false) ps) c).1.
Proof.
  induction ps as [|[name p] ps IH]; [done|].
  rewrite filter_cons. case_decide as Hm; cbn [snd] in Hm.
  - unfold Scan.malformed in Hm. cbn.
    destruct (Py.re_search (Pattern.regex p) c); try done.
    + destruct (Py.Qgeb _ _); [done|].
      destruct (Layer1Tactical.scan_patterns threshold ps c),
        (Layer1Tactical.scan_patterns threshold (filter _ ps) c). done.
    + destruct (Layer1Tactical.scan_patterns threshold ps c),
        (Layer1Tactical.scan_patterns threshold (filter _ ps) c). done.
  - apply not_false_is_true in Hm.
    rewrite scan_passed_over_cons by by apply malformed_passed_over.
    done.
Qed.

(** The loop raises only what a search raised and [re.error] is not. *)
Lemma scan_no_raise threshold ps c e :
  Forall (λ np, Scan.raises_other c np.2 = false) ps →
  (Layer1Tactical.scan_patterns threshold ps c).1 ≠ Layer1Tactical.ScanRaise e.
Proof.
  induction 1 as [|[name p] ps Hp _ IH]; [done|].
  unfold Scan.raises_other in Hp. cbn in *.
  destruct (Py.re_search (Pattern.regex p) c); try done;
    try destruct (Py.Qgeb _ _); try done;
    by destruct (Layer1Tactical.scan_patterns threshold ps c).
Qed.

(** The loop keeps every pattern registered, in place. *)
Lemma scan_keeps_names threshold ps c :
  (Layer1Tactical.scan_patterns threshold ps c).2.*1 = ps.*1.
Proof.
  induction ps as [|[name p] ps IH]; [done|]. cbn.
  destruct (Py.re_search (Pattern.regex p) c); try done;
    try destruct (Py.Qgeb _ _); try done;
    destruct (Layer1Tactical.scan_patterns threshold ps c); cbn in *;
    by rewrite IH.
Qed.

(** A cache miss followed by a local hit. *)
Lemma match_local_hit (self : Layer1Tactical.t) (h : Heap.t) (content : string)
    name p ps1 :
  let key := Py.sha256_hexdigest (Py.lower content) in
  Layer1Tactical.cache self !! key = None →
  Layer1Tactical.scan_patterns (Layer1Tactical.confidence_threshold self)
    (Layer1Tactical.patterns self) (Py.lower content)
  = (Layer1Tactical.ScanHit name p, ps1) →
  ∃ self1,
    Layer1Tactical.match_ self h content
    = (Py.Ok (Some (PatternMatchResult.mk true (Some name)
                      (Some (Pattern.category p)) (Pattern.confidence p)
                      "pattern_cached")), self1)
    ∧ Layer1Tactical.patterns self1 = ps1
    ∧ Layer1Tactical.cache self1 !! key
      = Some (PatternMatchResult.mk true (Some name)
                (Some (Pattern.category p)) (Pattern.confidence p)
                "pattern_cached")
    ∧ Layer1Tactical._match_count self1
      = (Layer1Tactical._match_count self + 1)%Z
    ∧ Layer1Tactical._cost self1
      = (Layer1Tactical._cost self + (1 # 10000))%Q
    ∧ Layer1Tactical.shared_state self1 = Layer1Tactical.shared_state self
    ∧ Layer1Tactical.confidence_threshold self1
      = Layer1Tactical.confidence_threshold self.
Proof.
  intros key Hmiss Hscan. unfold Layer1Tactical.match_. fold key. cbn.
  rewrite Hmiss, Hscan. eexists. split; [reflexivity|]. cbn.
  by rewrite lookup_insert_eq.
Qed.

(** [match] raises only when a search raised something else than
    [re.error]. *)
Lemma match_no_raise (self : Layer1Tactical.t) (h : Heap.t) (content : string) :
  Forall (λ np, Scan.raises_other (Py.lower content) np.2 = false)
    (Layer1Tactical.patterns self) →
  ∃ r self1, Layer1Tactical.match_ self h content = (Py.Ok r, self1).
Proof.
  intros Hno. unfold Layer1Tactical.match_. cbn.
  destruct (Layer1Tactical.cache self !! _); [by eexists _, _|].
  destruct (Layer1Tactical.scan_patterns _ _ _) as [o ps1] eqn:Hscan.
  destruct o as [name p| |e].
  - by eexists _, _.
  - repeat case_match; by eexists _, _.
  - exfalso.
    apply (scan_no_raise (Layer1Tactical.confidence_threshold self) _ _ e)
      in Hno.
    by rewrite Hscan in Hno.
Qed.

End scan.

(** What the loop does get right: a registered pattern on which the
    search raises [re.error] never makes [match] raise and never stops
    the loop. The loop ends as it would without these patterns, they
    stay registered, a later pattern that qualifies still wins, and
    [match] returns normally unless a search raises something else than
    [re.error]. *)
Lemma re_error_pattern_skipped `{Py.Lib}
    (self : Layer1Tactical.t) (h : Heap.t) (content : string) :
  let c := Py.lower content in
  let threshold := Layer1Tactical.confidence_threshold self in
  let ps := Layer1Tactical.patterns self in
  (Layer1Tactical.scan_patterns threshold ps c).1
  = (Layer1Tactical.scan_patterns threshold
       (filter (λ np, Scan.malformed c np.2 = false) ps) c).1
  ∧ (Layer1Tactical.scan_patterns threshold ps c).2.*1 = ps.*1
  ∧ (Forall (λ np, Scan.raises_other c np.2 = false) ps →
     ∃ r self1, Layer1Tactical.match_ self h content = (Py.Ok r, self1))
  ∧ (∀ pre name p post,
       ps = pre ++ (name, p) :: post →
       Forall (λ np, Scan.malformed c np.2 = true) pre →
       Scan.wins threshold c p = true →
       Layer1Tactical.cache self !! Py.sha256_hexdigest c = None →
       ∃ self1,
         Layer1Tactical.match_ self h content
         = (Py.Ok (Some (PatternMatchResult.mk true (Some name)
                           (Some (Pattern.category p))
                           (Pattern.confidence p) "pattern_cached")), self1)
         ∧ Layer1Tactical.patterns self1
           = pre ++ (name, Pattern.hit p) :: post).
Proof.
  intros c threshold ps.
  split; [apply scan_without_malformed|].
  split; [apply scan_keeps_names|].
  split; [apply match_no_raise|].
  intros pre name p post Hps Hpre Hwin Hmiss.
  assert (Hscan : Layer1Tactical.scan_patterns threshold ps c
                  = (Layer1Tactical.ScanHit name p,
                     pre ++ (name, Pattern.hit p) :: post)).
  { rewrite Hps. apply scan_first_winner; [|done].
    eapply Forall_impl; [exact Hpre|].
    intros np Hnp. by apply malformed_passed_over. }
  destruct (match_local_hit self h content name p _ Hmiss Hscan)
    as (self1 & Hmatch & Hpat & _).
  by exists self1.
Qed.

Lemma re_error_pattern_skipped_witness :
  let l1 :=
    Layer1Tactical.add_pattern
      (Layer1Tactical.add_pattern (SPLAgent.layer1 Toy.agent0) 0
         "invalid" "[invalid" "category" (95 # 100))
      1 "urgent" "urgent" "urgent" (95 # 100) in
  ∃ self1,
    Toy.match_ l1 Toy.heap0 "This is URGENT!"
    = (Py.Ok (Some (PatternMatchResult.mk true (Some "urgent")
                      (Some "urgent") (95 # 100) "pattern_cached")), self1).
Proof.
  intros l1.
  destruct (@re_error_pattern_skipped Toy.lib l1 Toy.heap0
              "This is URGENT!") as (_ & _ & _ & Hlater).
  destruct (Hlater
    [("invalid", Pattern.mk "invalid" "[invalid" "category" (95 # 100)
                   (Some 0%Z) None 0)]
    "urgent"
    (Pattern.mk "urgent" "urgent" "urgent" (95 # 100) (Some 1%Z) None 0)
    [] eq_refl)
    as (self1 & Hmatch & _).
  - repeat constructor.
  - reflexivity.
  - reflexivity.
  - by exists self1.
Defined.

(** What the loop misses: an exception of the search that is not
    [re.error] leaves [match], whatever comes after the pattern. *)
Lemma other_exception_escapes `{Py.Lib} (self : Layer1Tactical.t)
    (h : Heap.t) (content : string) pre name p post e :
  Layer1Tactical.cache self !! Py.sha256_hexdigest (Py.lower content)
  = None →
  Layer1Tactical.patterns self = pre ++ (name, p) :: post →
  Forall (λ np, Scan.passed_over (Layer1Tactical.confidence_threshold self)
                  (Py.lower content) np.2 = true) pre →
  Py.re_search (Pattern.regex p) (Py.lower content) = Py.ReRaise e →
  (Layer1Tactical.match_ self h content).1 = Py.Raise e.
Proof.
  intros Hmiss Hps Hpre Hsearch. unfold Layer1Tactical.match_. cbn.
  rewrite Hmiss, Hps, scan_passed_over_app by done.
  cbn. by rewrite Hsearch.
Qed.

(** C9: the code does not do this for every malformed expression. The
    loop catches [re.error] only ("Invalid regex, skip"): when the scan
    gets to a pattern on which the search raises another exception,
    [match] raises it. [re.search] raises [OverflowError] on
    [a{4294967296}]: with that pattern registered before a pattern that
    qualifies, [match] raises instead of answering with the later
    pattern. An agent registers such a pattern by itself when it learns
    from a content that starts with these characters, and from then on
    answers a content it has not seen before with the error decision. *)
Theorem C9_overflowing_regex_escapes :
  (∀ (lib : Py.Lib) (self : Layer1Tactical.t) (h : Heap.t)
     (content : string) pre name p post e,
     Layer1Tactical.cache self !! Py.sha256_hexdigest (Py.lower content)
     = None →
     Layer1Tactical.patterns self = pre ++ (name, p) :: post →
     Forall (λ np, Scan.passed_over
                     (Layer1Tactical.confidence_threshold self)
                     (Py.lower content) np.2 = true) pre →
     Py.re_search (Pattern.regex p) (Py.lower content) = Py.ReRaise e →
     (Layer1Tactical.match_ self h content).1 = Py.Raise e) ∧
  let stage :=
    Layer1Tactical.add_pattern
      (Layer1Tactical.add_pattern (SPLAgent.layer1 Toy.agent0) 0
         "big" "a{4294967296}" "category" (95 # 100))
      1 "urgent" "urgent" "urgent" (95 # 100) in
  let learned :=
    @SPLAgent.process Overflow.lib Toy.agent0 Toy.heap0 0
      (Toy.req "user123" "a{4294967296} is urgent") in
  (@Layer1Tactical.match_ Overflow.lib stage Toy.heap0 "This is URGENT!").1
  = Py.Raise (Py.OtherException "OverflowError")
  ∧ learned.1
    = Py.Ok (Decision.mk "urgent" "llm" (92 # 100) (1 # 100) 2 false)
  ∧ Py.od_get (Layer1Tactical.patterns (SPLAgent.layer1 learned.2.1))
      "learned_a{4294967296}_urgent"
    = Some (Pattern.mk "learned_a{4294967296}_urgent" "a{4294967296}"
              "urgent" (92 # 100) (Some 0%Z) (Some "spl_agent") 0)
  ∧ (@Layer1Tactical.match_ Overflow.lib (SPLAgent.layer1 learned.2.1)
       learned.2.2 "hello world").1
    = Py.Raise (Py.OtherException "OverflowError")
  ∧ (@SPLAgent.process Overflow.lib learned.2.1 learned.2.2 1
       (Toy.req "user123" "hello world")).1
    = Py.Ok SPLAgent.error_decision.
Proof.
  split; [intros lib; apply other_exception_escapes|].
  intros stage learned.
  split; [reflexivity|]. split; [reflexivity|]. split; [reflexivity|].
  split; reflexivity.
Qed.

(* --------------------------------------------------------------------- *)
(** ** The orchestrator                                                   *)
(* --------------------------------------------------------------------- *)

Lemma reason_cost (self : Layer2Deliberative.t) (content : string) :
  DeliberativeResult.cost (Layer2Deliberative.reason self content).1
  = Layer2Deliberative.cost_per_call self.
Proof.
  unfold Layer2Deliberative.reason. cbn [Layer2Deliberative.model_client].
  destruct (Layer2Deliberative.model_client self);
    unfold Layer2Deliberative._call_model; cbn [fst];
    match goal with
    | |- context [Layer2Deliberative._simulated_reason ?s content] =>
        apply (simulated_reason_classify s content)
    end.
Qed.

Lemma record_result_records (t : CostTracker.t) (now : Z) (d : Decision.t) :
  CostTracker.records (CostTracker.record_result t now d)
  = CostTracker.records t ++ [Ledger.entry now d].
Proof. reflexivity. Qed.

Lemma record_result_suppressions (t : CostTracker.t) (now : Z) (d : Decision.t) :
  CostTracker._suppressions (CostTracker.record_result t now d)
  = (CostTracker._suppressions t
     + (if (Decision.layer d <? 2)%Z then 1 else 0))%Z.
Proof. cbn. destruct (Decision.layer d <? 2)%Z; lia. Qed.

Section process.
Context `{Py.Lib}.

Lemma process_try_ok (self : SPLAgent.t) (h : Heap.t) (now : Z)
    (request : Request.t) d self1 h1 :
  SPLAgent.process_try self h now request = (Py.Ok d, (self1, h1)) →
  SPLAgent.cost_tracker self1
  = CostTracker.record_result (SPLAgent.cost_tracker self) now d
  ∧ Outcome.returned self self1 d.
Proof.
  unfold SPLAgent.process_try, SPLAgent.record_and_return.
  destruct (Layer0Reactive.validate _ _ _) as [[v|e] l0]; [|done].
  destruct (ValidationResult.valid v); cbn [negb].
  2:{ intros [= <- <- <-]. split; [done|]. by apply Outcome.ret_rejected. }
  destruct (Request.get_content request) as [s| | |]; try done.
  cbn [SPLAgent.layer1 SPLAgent.set_layer0].
  destruct (Layer1Tactical.match_ _ _ _) as [[[m|]|e] l1]; [| |done].
  - intros [= <- <- <-]. split; [done|]. by apply Outcome.ret_matched.
  - cbn [SPLAgent.layer2 SPLAgent.set_layer1].
    pose proof (reason_cost (SPLAgent.layer2 self) s) as Hcost.
    destruct (Layer2Deliberative.reason _ _) as [fm l2]. cbn [fst] in Hcost.
    destruct (Py.Qgeb _ _).
    + destruct (Layer1Tactical.learn_pattern _ _ _ _ _ _ _)
        as [[o l1'] h'].
      intros [= <- <- <-]. split; [done|]. by apply Outcome.ret_deliberated.
    + intros [= <- <- <-]. split; [done|]. by apply Outcome.ret_deliberated.
Qed.

Lemma process_try_raise (self : SPLAgent.t) (h : Heap.t) (now : Z)
    (request : Request.t) e self1 h1 :
  SPLAgent.process_try self h now request = (Py.Raise e, (self1, h1)) →
  SPLAgent.cost_tracker self1 = SPLAgent.cost_tracker self
  ∧ SPLAgent._suppression_count self1 = SPLAgent._suppression_count self
  ∧ SPLAgent.layer2 self1 = SPLAgent.layer2 self.
Proof.
  unfold SPLAgent.process_try, SPLAgent.record_and_return.
  destruct (Layer0Reactive.validate _ _ _) as [[v|e0] l0];
    [|by intros [= <- <- <-]].
  destruct (ValidationResult.valid v); cbn [negb]; [|done].
  destruct (Request.get_content request) as [s| | |];
    try by intros [= <- <- <-].
  cbn [SPLAgent.layer1 SPLAgent.set_layer0].
  destruct (Layer1Tactical.match_ _ _ _) as [[[m|]|e0] l1];
    [done| |by intros [= <- <- <-]].
  cbn [SPLAgent.layer2 SPLAgent.set_layer1].
  destruct (Layer2Deliberative.reason _ _) as [fm l2].
  destruct (Py.Qgeb _ _); [|done].
  by destruct (Layer1Tactical.learn_pattern _ _ _ _ _ _ _) as [[o l1'] h'].
Qed.

(** [process] always returns a decision: the one of the body, or the
    error decision when the body raised; the decision is the last entry
    of the ledger. *)
Lemma process_cases (self : SPLAgent.t) (h : Heap.t) (now : Z)
    (request : Request.t) :
  ∃ d self1 h1,
    SPLAgent.process self h now request = (Py.Ok d, (self1, h1))
    ∧ ((SPLAgent.process_try self h now request = (Py.Ok d, (self1, h1))
        ∧ SPLAgent.cost_tracker self1
          = CostTracker.record_result (SPLAgent.cost_tracker self) now d
        ∧ Outcome.returned self self1 d)
       ∨ (∃ e self0,
            SPLAgent.process_try self h now request
            = (Py.Raise e, (self0, h1))
            ∧ d = SPLAgent.error_decision
            ∧ self1 = SPLAgent.set_cost_tracker self0
                        (CostTracker.record_result
                           (SPLAgent.cost_tracker self) now d)
            ∧ SPLAgent._suppression_count self1
              = SPLAgent._suppression_count self)).
Proof.
  unfold SPLAgent.process, Py.try_except.
  destruct (SPLAgent.process_try self h now request)
    as [[d|e] [self0 h0]] eqn:Htry.
  - exists d, self0, h0. split; [done|]. left.
    split; [done|]. by apply process_try_ok in Htry.
  - apply process_try_raise in Htry as Hsame.
    destruct Hsame as (Hct & Hsc & _).
    eexists _, _, _. split; [reflexivity|]. right.
    exists e, self0. rewrite Hct. by repeat split.
Qed.

End process.

(** C2. [process] never raises: for every agent state, heap, time and
    request (a content that is not a string, a user id that cannot be
    hashed, ...) it returns a decision. When the body of its [try]
    returns a decision, that decision is returned; when the body raises,
    whatever the stage, the decision is
    [Decision(category='ERROR', method='error_handler', confidence=0,
    cost=0, layer=0, suppressed=False)]. In both cases the decision is
    appended to the ledger of the cost tracker before it is returned. *)
Theorem C2_process_never_raises `{Py.Lib}
    (self : SPLAgent.t) (h : Heap.t) (now : Z) (request : Request.t) :
  ∃ d self1 h1,
    SPLAgent.process self h now request = (Py.Ok d, (self1, h1))
    ∧ CostTracker.records (SPLAgent.cost_tracker self1)
      = CostTracker.records (SPLAgent.cost_tracker self)
        ++ [Ledger.entry now d]
    ∧ (∀ d0 st, SPLAgent.process_try self h now request = (Py.Ok d0, st) →
                d = d0)
    ∧ (∀ e st, SPLAgent.process_try self h now request = (Py.Raise e, st) →
               d = Decision.mk "ERROR" "error_handler" 0 0 0 false).
Proof.
  destruct (process_cases self h now request)
    as (d & self1 & h1 & Hproc & [(Htry & Hct & _)|(e & self0 & Htry & Hd & Hself & _)]).
  - exists d, self1, h1. split; [done|].
    split; [by rewrite Hct, record_result_records|].
    split; intros ? ? Htry'; rewrite Htry in Htry'; by injection Htry'.
  - exists d, self1, h1. split; [done|].
    split; [by rewrite Hself|].
    split; intros ? ? Htry'; rewrite Htry in Htry'; [done|by rewrite Hd].
Qed.

Lemma C2_process_never_raises_witness :
  ∃ d self1 h1,
    Toy.process Toy.agent0 Toy.heap0 0 (Toy.req_list_user "hello world")
    = (Py.Ok d, (self1, h1))
    ∧ d = Decision.mk "ERROR" "error_handler" 0 0 0 false
    ∧ CostTracker.records (SPLAgent.cost_tracker self1)
      = [CostRecord.mk 0 0 "ERROR" "error_handler" 0 0].
Proof.
  destruct (@C2_process_never_raises Toy.lib Toy.agent0 Toy.heap0 0
              (Toy.req_list_user "hello world"))
    as (d & self1 & h1 & Hproc & Hrec & _ & Hraise).
  exists d, self1, h1. split; [exact Hproc|].
  assert (Hd : d = Decision.mk "ERROR" "error_handler" 0 0 0 false).
  { eapply Hraise. reflexivity. }
  split; [exact Hd|]. rewrite Hrec, Hd. reflexivity.
Defined.

(** A content that is not a string is rejected by the validation stage,
    not by the exception handler. *)
Example process_none_content :
  (Toy.process Toy.agent0 Toy.heap0 0
     (Request.mk (Some Py.VNone) (Some (Py.VStr "user123")))).1
  = Py.Ok SPLAgent.rejected_decision.
Proof. reflexivity. Qed.

(** The request with a list as user id makes the sentence about decisions
    fail as it is written: the decision has layer 0 and is not marked
    suppressed. *)
Lemma C1_counterexample : ¬ @AsStated.decision_invariant Toy.lib.
Proof.
  intros Hinv.
  destruct (Hinv Toy.agent0 Toy.heap0 0%Z (Toy.req_list_user "hello world")
              SPLAgent.error_decision _ eq_refl) as (_ & _ & Hiff).
  assert (Hsup : Decision.suppressed SPLAgent.error_decision = true)
    by (apply Hiff; reflexivity).
  discriminate Hsup.
Qed.

(** C1, amended. Every call of [process] returns a decision whose layer
    is 0, 1 or 2; its cost is 0 at layers 0 and 1 and [cost_per_call] at
    layer 2, so a positive cost occurs at layer 2 only. When the decision
    comes from one of the three stages, it is marked suppressed exactly
    when its layer is below 2; the decision built by the exception
    handler has layer 0 and cost 0 and is not marked suppressed. *)
Theorem C1_decision_invariant_amended `{Py.Lib}
    (self : SPLAgent.t) (h : Heap.t) (now : Z) (request : Request.t) :
  ∃ d st,
    SPLAgent.process self h now request = (Py.Ok d, st)
    ∧ (Decision.layer d = 0%Z ∨ Decision.layer d = 1%Z
       ∨ Decision.layer d = 2%Z)
    ∧ ((Decision.layer d = 0%Z ∨ Decision.layer d = 1%Z) →
       Decision.cost d = 0%Q)
    ∧ (Decision.layer d = 2%Z →
       Decision.cost d
       = Layer2Deliberative.cost_per_call (SPLAgent.layer2 self))
    ∧ ((0 < Decision.cost d)%Q → Decision.layer d = 2%Z)
    ∧ (∀ d0 st0,
         SPLAgent.process_try self h now request = (Py.Ok d0, st0) →
         d = d0 ∧ (Decision.suppressed d = true ↔ (Decision.layer d < 2)%Z))
    ∧ (∀ e st0,
         SPLAgent.process_try self h now request = (Py.Raise e, st0) →
         Decision.category d = "ERROR" ∧ Decision.layer d = 0%Z
         ∧ Decision.cost d = 0%Q ∧ Decision.suppressed d = false).
Proof.
  destruct (process_cases self h now request)
    as (d & self1 & h1 & Hproc
        & [(Htry & _ & Hret)|(e & self0 & Htry & -> & _)]).
  - exists d, (self1, h1). split; [done|].
    assert (Hraise : ∀ e st0,
              SPLAgent.process_try self h now request = (Py.Raise e, st0) →
              Decision.category d = "ERROR" ∧ Decision.layer d = 0%Z
              ∧ Decision.cost d = 0%Q ∧ Decision.suppressed d = false)
      by (intros ? ? Htry'; by rewrite Htry in Htry').
    assert (Hsame : ∀ d0 st0,
              SPLAgent.process_try self h now request = (Py.Ok d0, st0) →
              d = d0)
      by (intros ? ? Htry'; rewrite Htry in Htry'; by injection Htry').
    destruct Hret as [-> _|Hl Hc Hs _|Hl _ Hc Hs _].
    + split; [by left|]. split; [done|].
      split; [intros Hl; discriminate Hl|].
      split; [intros Hpos; by apply Qlt_irrefl in Hpos|].
      split; [|exact Hraise].
      intros d0 st0 Htry'. split; [by eapply Hsame|]. cbn. split; [lia|done].
    + split; [by right; left|]. split; [done|].
      split; [intros Hl2; rewrite Hl in Hl2; discriminate Hl2|].
      split; [rewrite Hc; intros Hpos; by apply Qlt_irrefl in Hpos|].
      split; [|exact Hraise].
      intros d0 st0 Htry'. split; [by eapply Hsame|].
      rewrite Hs, Hl. split; [lia|done].
    + split; [by right; right|].
      split; [intros [Hl0|Hl1]; rewrite Hl in *; discriminate|].
      split; [done|]. split; [done|].
      split; [|exact Hraise].
      intros d0 st0 Htry'. split; [by eapply Hsame|].
      rewrite Hs, Hl. split; [done|lia].
  - exists SPLAgent.error_decision, (self1, h1). split; [done|].
    split; [by left|]. split; [done|].
    split; [intros Hl; discriminate Hl|].
    split; [intros Hpos; by apply Qlt_irrefl in Hpos|].
    split; [intros d0 st0 Htry'; by rewrite Htry in Htry'|].
    intros _ _ _. by repeat split.
Qed.

Lemma C1_decision_invariant_amended_witness :
  ∃ d st,
    Toy.process Toy.agent0 Toy.heap0 0
      (Toy.req "user123" "This is an urgent message that needs attention!")
    = (Py.Ok d, st)
    ∧ Decision.layer d = 2%Z ∧ Decision.cost d = 1 # 100
    ∧ Decision.suppressed d = false.
Proof.
  destruct (@C1_decision_invariant_amended Toy.lib Toy.agent0 Toy.heap0 0
              (Toy.req "user123"
                 "This is an urgent message that needs attention!"))
    as (d & st & Hproc & _ & _ & Hcost & _ & Hok & _).
  destruct (Hok (Decision.mk "urgent" "llm" (92 # 100) (1 # 100) 2 false)
              _ eq_refl) as [Hd _].
  exists d, st. split; [exact Hproc|].
  rewrite Hd. repeat split; reflexivity.
Defined.

(* --------------------------------------------------------------------- *)
(** ** The two suppression counters                                       *)
(* --------------------------------------------------------------------- *)

Lemma count_layer_cons (P : Z → bool) (r : CostRecord.t) (rs : list CostRecord.t) :
  Ledger.count_layer P (r :: rs)
  = ((if P (CostRecord.layer r) then 1 else 0) + Ledger.count_layer P rs)%Z.
Proof.
  unfold Ledger.count_layer. rewrite filter_cons.
  destruct (P (CostRecord.layer r)); case_decide; try done; cbn [length]; lia.
Qed.

Lemma count_layer_nonneg (P : Z → bool) (rs : list CostRecord.t) :
  (0 <= Ledger.count_layer P rs)%Z.
Proof. unfold Ledger.count_layer. lia. Qed.

Lemma count_layer_pos (P : Z → bool) (rs : list CostRecord.t) (r : CostRecord.t) :
  r ∈ rs → P (CostRecord.layer r) = true → (0 < Ledger.count_layer P rs)%Z.
Proof.
  induction 1 as [r rs|r r' rs _ IH]; intros HP; rewrite count_layer_cons.
  - rewrite HP. pose proof (count_layer_nonneg P rs). lia.
  - specialize (IH HP). destruct (P (CostRecord.layer r')); lia.
Qed.

Lemma count_layer_below_two (rs : list CostRecord.t) :
  Forall (λ r, CostRecord.layer r = 0 ∨ CostRecord.layer r = 1
               ∨ CostRecord.layer r = 2)%Z rs →
  Ledger.count_layer (λ l, (l <? 2)%Z) rs
  = (Ledger.count_layer (λ l, (l =? 1)%Z) rs
     + Ledger.count_layer (λ l, (l =? 0)%Z) rs)%Z.
Proof.
  induction 1 as [|r rs Hr _ IH]; [done|].
  rewrite !count_layer_cons, IH.
  destruct Hr as [-> | [-> | ->] ]; cbn; lia.
Qed.

Section counters.
Context `{Py.Lib}.

(** What the ledger says about the two counters, in every state of an
    agent. *)
Lemma agent_counters (self : SPLAgent.t) :
  Reach.agent self →
  CostTracker._suppressions (SPLAgent.cost_tracker self)
  = Ledger.count_layer (λ l, (l <? 2)%Z)
      (CostTracker.records (SPLAgent.cost_tracker self))
  ∧ SPLAgent._suppression_count self
    = Ledger.count_layer (λ l, (l =? 1)%Z)
        (CostTracker.records (SPLAgent.cost_tracker self))
  ∧ Forall (λ r, CostRecord.layer r = 0 ∨ CostRecord.layer r = 1
                 ∨ CostRecord.layer r = 2)%Z
      (CostTracker.records (SPLAgent.cost_tracker self)).
Proof.
  induction 1 as [agent_id shared threshold h
                 |self h now request _ (IHt & IHa & IHl)
                 |self now name regex category confidence _ IH
                 |self term _ IH
                 |self _ IH].
  - unfold SPLAgent.new.
    destruct (Heap.or_empty shared h) as [l h1].
    destruct (Layer1Tactical.new threshold (Some l) h1) as [l1 h2].
    cbn. by repeat split.
  - destruct (process_cases self h now request)
      as (d & self1 & h1 & Hproc
          & [(_ & Hct & Hret)|(e & self0 & _ & -> & -> & Hsc)]).
    + rewrite Hproc. cbn [fst snd]. rewrite Hct.
      rewrite record_result_records, record_result_suppressions.
      rewrite !count_layer_snoc, Forall_app, Forall_singleton.
      cbn [Ledger.entry CostRecord.layer].
      destruct Hret as [-> Hsc|Hl _ _ Hsc|Hl _ _ _ Hsc];
        rewrite Hsc, ?Hl; cbn; (split; [lia|]); (split; [lia|]);
        (split; [done|]); auto.
    + rewrite Hproc. cbn [fst snd] in *. rewrite Hsc.
      cbn [SPLAgent.cost_tracker SPLAgent.set_cost_tracker].
      rewrite record_result_records, record_result_suppressions.
      rewrite !count_layer_snoc, Forall_app, Forall_singleton. cbn.
      split; [lia|]. split; [lia|]. split; [done|]. auto.
  - exact IH.
  - exact IH.
  - cbn. by repeat split.
Qed.

End counters.

(** C10. In every state an agent reaches, the suppression counter of its
    cost tracker is the number of ledger entries below layer 2 (the
    rejections and the error decisions, at layer 0, are among them),
    while the counter of the agent is the number of entries at layer 1.
    So the tracker's counter is the agent's plus the number of layer-0
    entries: never smaller, and larger as soon as the ledger has a
    layer-0 entry. In [report()], ['suppressions'] is the agent's counter
    and ['suppression_rate'] is the tracker's counter over the number of
    requests; there are states in which the rate is not the reported
    suppressions over the number of requests. *)
Theorem C10_suppression_counters `{Py.Lib} :
  (∀ self, Reach.agent self →
     let t := SPLAgent.cost_tracker self in
     let rs := CostTracker.records t in
     CostTracker._suppressions t
     = Ledger.count_layer (λ l, (l <? 2)%Z) rs
     ∧ SPLAgent._suppression_count self
       = Ledger.count_layer (λ l, (l =? 1)%Z) rs
     ∧ CostTracker._suppressions t
       = (SPLAgent._suppression_count self
          + Ledger.count_layer (λ l, (l =? 0)%Z) rs)%Z
     ∧ (SPLAgent._suppression_count self <= CostTracker._suppressions t)%Z
     ∧ ((∃ r, r ∈ rs ∧ CostRecord.layer r = 0%Z) →
        (SPLAgent._suppression_count self < CostTracker._suppressions t)%Z)
     ∧ AgentReport.suppressions (SPLAgent.report self)
       = SPLAgent._suppression_count self
     ∧ AgentReport.suppression_rate (SPLAgent.report self)
       = CostTracker.suppression_rate t
     ∧ (CostTracker.total_requests t ≠ 0%Z →
        AgentReport.suppression_rate (SPLAgent.report self)
        = (inject_Z (CostTracker._suppressions t)
           / inject_Z (CostTracker.total_requests t))%Q))
  ∧ (∃ self,
       Reach.agent self
       ∧ CostTracker.total_requests (SPLAgent.cost_tracker self) ≠ 0%Z
       ∧ ¬ (AgentReport.suppression_rate (SPLAgent.report self)
            == inject_Z (AgentReport.suppressions (SPLAgent.report self))
               / inject_Z (CostTracker.total_requests
                             (SPLAgent.cost_tracker self)))%Q).
Proof.
  split.
  - intros self Hreach t rs.
    destruct (agent_counters self Hreach) as (Ht & Ha & Hl).
    fold t rs in Ht, Ha, Hl.
    pose proof (count_layer_below_two rs Hl) as Hsum.
    pose proof (count_layer_nonneg (λ l, (l =? 0)%Z) rs) as Hnn.
    split; [done|]. split; [done|]. split; [lia|]. split; [lia|].
    split.
    { intros (r & Hr & Hr0).
      assert (0 < Ledger.count_layer (λ l, (l =? 0)%Z) rs)%Z; [|lia].
      apply (count_layer_pos _ rs r Hr). by rewrite Hr0. }
    split; [done|]. split; [done|].
    intros Hne. cbn. unfold CostTracker.suppression_rate.
    apply Z.eqb_neq in Hne. fold t. by rewrite Hne.
  - exists (SPLAgent.process Toy.agent0 Toy.heap0 0
              (Toy.req "user123" "Hi")).2.1.
    split; [apply Reach.agent_process, Reach.agent_new|].
    split; [by vm_compute|].
    vm_compute. discriminate.
Qed.

Lemma C10_suppression_counters_witness :
  let a1 :=
    (Toy.process
       (SPLAgent.add_pattern Toy.agent0 0 "urgent" "urgent" "urgent"
          (95 # 100))
       Toy.heap0 1 (Toy.req "user123" "Hi")).2.1 in
  let a2 := (Toy.process a1 Toy.heap0 2 (Toy.req_list_user "hello world")).2.1 in
  let a3 := (Toy.process a2 Toy.heap0 3 (Toy.req "user123" "This is urgent!")).2.1 in
  SPLAgent._suppression_count a3 = 1%Z
  ∧ CostTracker._suppressions (SPLAgent.cost_tracker a3) = 3%Z
  ∧ (SPLAgent._suppression_count a3
     < CostTracker._suppressions (SPLAgent.cost_tracker a3))%Z.
Proof.
  intros a1 a2 a3.
  assert (Hreach : @Reach.agent Toy.lib a3).
  { apply @Reach.agent_process, @Reach.agent_process, @Reach.agent_process,
      Reach.agent_add_pattern, Reach.agent_new. }
  destruct (@C10_suppression_counters Toy.lib) as [Hall _].
  destruct (Hall a3 Hreach) as (_ & _ & _ & _ & Hlt & _).
  split; [reflexivity|]. split; [reflexivity|].
  apply Hlt. exists (CostRecord.mk 0 0 "REJECTED" "validation" 1 1).
  split; [|reflexivity]. vm_compute. apply list_elem_of_here.
Defined.

(* --------------------------------------------------------------------- *)
(** ** Local patterns through the orchestrator                            *)
(* --------------------------------------------------------------------- *)


(** What the second call of the counterexample returns. *)
Example stale_negative_cache :
  let request := Toy.req "user123" "please reset my password" in
  let a1 := (Toy.process Toy.agent0 Toy.heap0 0 request).2.1 in
  let a2 := SPLAgent.add_pattern a1 1 "reset" "reset" "account" (95 # 100) in
  (Toy.process a2 Toy.heap0 2 request).1
  = Py.Ok (Decision.mk "other" "llm" (75 # 100) (1 # 100) 2 false).
Proof. vm_compute. reflexivity. Qed.

(** A pattern registered with an empty category is reported as
    ['unknown']. *)
Example empty_category_reported_unknown :
  (Toy.process
     (SPLAgent.add_pattern Toy.agent0 0 "reset" "reset" "" (95 # 100))
     Toy.heap0 1 (Toy.req "user123" "please reset my password")).1
  = Py.Ok (Decision.mk "unknown" "pattern_cached" (95 # 100) 0 1 true).
Proof. vm_compute. reflexivity. Qed.



(* --------------------------------------------------------------------- *)
(** ** Patterns shared between stages                                     *)
(* --------------------------------------------------------------------- *)

(** Writing an entry that qualifies under [k] makes the loop over the
    shared map stop at [k], when no entry before [k] qualifies. *)
Lemma scan_shared_published (threshold : Q)
    (learned : list (string * PatternInfo.t)) (k : string)
    (info : PatternInfo.t) (c : string) :
  Py.contains c (Py.lower k) = true →
  Py.Qgeb (default 0%Q (PatternInfo.confidence info)) threshold = true →
  Layer1Tactical.scan_shared threshold (Scan.od_before learned k) c = None →
  Layer1Tactical.scan_shared threshold (Py.od_set learned k info) c
  = Some (k, default 0%Q (PatternInfo.confidence info)).
Proof.
  intros Hin Hge.
  induction learned as [|[k' v'] learned IH];
    cbn [Layer1Tactical.scan_shared Scan.od_before Py.od_set].
  - intros _. by rewrite Hin, Hge.
  - destruct (String.eqb k' k) eqn:Hk;
      cbn [Layer1Tactical.scan_shared].
    + apply String.eqb_eq in Hk. subst k'. intros _. by rewrite Hin, Hge.
    + destruct (Py.contains c (Py.lower k')); [|exact IH].
      destruct (Py.Qgeb (default 0%Q (PatternInfo.confidence v')) threshold);
        [intros [=]|exact IH].
Qed.

Section shared.
Context `{Py.Lib}.

Lemma scan_all_passed_over threshold (ps : list (string * Pattern.t)) c :
  Forall (λ np, Scan.passed_over threshold c np.2 = true) ps →
  Layer1Tactical.scan_patterns threshold ps c = (Layer1Tactical.ScanMiss, ps).
Proof.
  intros Hps. rewrite <- (app_nil_r ps) at 1.
  rewrite scan_passed_over_app by done. cbn. by rewrite app_nil_r.
Qed.

(** A cache miss, no local hit, and a hit in the shared map. *)
Lemma match_shared_hit (self : Layer1Tactical.t) (h : Heap.t)
    (content : string) entries category confidence :
  Layer1Tactical.cache self !! Py.sha256_hexdigest (Py.lower content) = None →
  Forall (λ np, Scan.passed_over (Layer1Tactical.confidence_threshold self)
                  (Py.lower content) np.2 = true)
    (Layer1Tactical.patterns self) →
  SharedState.learned_patterns
    (Heap.deref h (Layer1Tactical.shared_state self)) = Some entries →
  Layer1Tactical.scan_shared (Layer1Tactical.confidence_threshold self)
    entries (Py.lower content) = Some (category, confidence) →
  ∃ self1,
    Layer1Tactical.match_ self h content
    = (Py.Ok (Some (PatternMatchResult.mk true (Some category)
                      (Some category) confidence "pattern_shared")), self1)
    ∧ Layer1Tactical.patterns self1 = Layer1Tactical.patterns self.
Proof.
  intros Hmiss Hps Hlearned Hshared. unfold Layer1Tactical.match_. cbn.
  rewrite Hmiss, (scan_all_passed_over _ _ _ Hps), Hlearned, Hshared.
  by eexists.
Qed.

End shared.

(** Two categories are published, [bill] and then [billing]; a content
    that contains [billing] contains [bill] too, and the loop over the
    shared map stops at the entry published first. *)
Lemma C4_counterexample : ¬ @AsStated.published_category_is_matched Toy.lib.
Proof.
  intros Hclaim.
  pose (stage_a := SPLAgent.layer1 Toy.agent0).
  pose (out1 := Layer1Tactical.learn_pattern stage_a Toy.heap0 0
                  "bill overdue" "bill" (95 # 100) (Some "agent_a")).
  pose (stage_b := (Layer1Tactical.new (85 # 100)
                      (Some (Layer1Tactical.shared_state stage_a))
                      out1.2).1).
  destruct (Hclaim out1.1.2 out1.2 1%Z "billing question" "billing"
              (92 # 100) (Some "agent_a") "learned_billing_billing"
              (Layer1Tactical.learn_pattern out1.1.2 out1.2 1
                 "billing question" "billing" (92 # 100)
                 (Some "agent_a")).1.2
              (Layer1Tactical.learn_pattern out1.1.2 out1.2 1
                 "billing question" "billing" (92 # 100)
                 (Some "agent_a")).2
              stage_b "my billing statement"
              ltac:(vm_compute; discriminate) eq_refl eq_refl eq_refl
              eq_refl (Forall_nil_2 _))
    as (stage_b1 & Hmatch).
  vm_compute in Hmatch. discriminate Hmatch.
Qed.

(** What the stage of the counterexample answers. *)
Example earlier_shared_entry_wins :
  let stage_a := SPLAgent.layer1 Toy.agent0 in
  let out1 := Layer1Tactical.learn_pattern stage_a Toy.heap0 0
                "bill overdue" "bill" (95 # 100) (Some "agent_a") in
  let out2 := Layer1Tactical.learn_pattern out1.1.2 out1.2 1
                "billing question" "billing" (92 # 100) (Some "agent_a") in
  let stage_b := (Layer1Tactical.new (85 # 100)
                    (Some (Layer1Tactical.shared_state stage_a)) out1.2).1 in
  Layer1Tactical.shared_state stage_b = Layer1Tactical.shared_state stage_a
  ∧ (Toy.match_ stage_b out2.2 "my billing statement").1
    = Py.Ok (Some (PatternMatchResult.mk true (Some "bill") (Some "bill")
                     (95 # 100) "pattern_shared")).
Proof. vm_compute. split; reflexivity. Qed.

(** The constructor keeps the dict it is given only when the dict is
    truthy: two stages built on the same empty dict do not share it. *)
Example empty_dict_is_not_shared :
  let h0 : Heap.t := <[0%nat := SharedState.empty]> ∅ in
  let '(stage_a, h1) := Layer1Tactical.new (85 # 100) (Some 0%nat) h0 in
  let '(stage_b, h2) := Layer1Tactical.new (85 # 100) (Some 0%nat) h1 in
  Layer1Tactical.shared_state stage_a ≠ Layer1Tactical.shared_state stage_b
  ∧ Layer1Tactical.shared_state stage_a ≠ 0%nat.
Proof. vm_compute. split; discriminate. Qed.

(** C4, amended. A stage publishes category [C] with confidence [c]
    through [learn_pattern] (so [c] is at least 0.90). An agent whose
    tactical stage holds the same shared-state dict then processes a
    request that passes validation, whose content contains [C] letter
    case aside, has no entry in the cache of that stage and is passed
    over by all its local patterns. If moreover the threshold of that
    stage is at most [c] and no category published before [C] qualifies
    for the content, then [match] returns the result with method
    [pattern_shared], category [C] and confidence [c], and [process]
    returns the decision with layer 1, cost 0, suppressed, that method
    and confidence, and category [C] (['unknown'] when [C] is empty). *)
Theorem C4_published_category_is_matched_amended `{Py.Lib}
    (stage_a : Layer1Tactical.t) (h : Heap.t) (now : Z)
    (content0 C : string) (c : Q) (learned_by : option string)
    (name : string) (stage_a1 : Layer1Tactical.t) (h1 : Heap.t)
    (agent_b : SPLAgent.t) (now_b : Z) (request : Request.t) (s : string)
    (v : ValidationResult.t) (l0 : Layer0Reactive.t) :
  Layer1Tactical.learn_pattern stage_a h now content0 C c learned_by
  = (Some name, stage_a1, h1) →
  let stage_b := SPLAgent.layer1 agent_b in
  let threshold := Layer1Tactical.confidence_threshold stage_b in
  let learned0 :=
    default [] (SharedState.learned_patterns
                  (Heap.deref h (Layer1Tactical.shared_state stage_a))) in
  Layer1Tactical.shared_state stage_b = Layer1Tactical.shared_state stage_a →
  Request.get_content request = Py.VStr s →
  Layer0Reactive.validate (SPLAgent.layer0 agent_b) now_b request
  = (Py.Ok v, l0) →
  ValidationResult.valid v = true →
  Py.contains (Py.lower s) (Py.lower C) = true →
  Layer1Tactical.cache stage_b !! Py.sha256_hexdigest (Py.lower s) = None →
  Forall (λ np, Scan.passed_over threshold (Py.lower s) np.2 = true)
    (Layer1Tactical.patterns stage_b) →
  (threshold <= c)%Q →
  Layer1Tactical.scan_shared threshold (Scan.od_before learned0 C)
    (Py.lower s) = None →
  (90 # 100 <= c)%Q
  ∧ ∃ stage_b1 agent_b1,
      Layer1Tactical.match_ stage_b h1 s
      = (Py.Ok (Some (PatternMatchResult.mk true (Some C) (Some C) c
                        "pattern_shared")), stage_b1)
      ∧ SPLAgent.process agent_b h1 now_b request
        = (Py.Ok (Decision.mk (Py.str_or C "unknown") "pattern_shared" c
                    0 1 true), (agent_b1, h1))
      ∧ SPLAgent._suppression_count agent_b1
        = (SPLAgent._suppression_count agent_b + 1)%Z.
Proof.
  intros Hlearn stage_b threshold learned0 Hloc Hcontent Hval Hvalid Hin
    Hmiss Hlocal Hthr Hbefore.
  unfold Layer1Tactical.learn_pattern in Hlearn.
  destruct (Py.Qltb c (90 # 100)) eqn:Hlt; [done|].
  apply Qltb_false in Hlt. split; [done|].
  destruct (Py.split (Py.lower content0)) as [|key_word rest]; [done|].
  injection Hlearn as _ _ Hh1.
  assert (Hlearned :
    SharedState.learned_patterns
      (Heap.deref h1 (Layer1Tactical.shared_state stage_b))
    = Some (Py.od_set learned0 C
              (PatternInfo.mk (Some c) learned_by (Some now)))).
  { rewrite <- Hh1, Hloc. unfold Heap.deref.
    by rewrite lookup_insert_eq. }
  assert (Hshared :
    Layer1Tactical.scan_shared threshold
      (Py.od_set learned0 C (PatternInfo.mk (Some c) learned_by (Some now)))
      (Py.lower s) = Some (C, c)).
  { apply (scan_shared_published threshold learned0 C
             (PatternInfo.mk (Some c) learned_by (Some now))); [done| |done].
    by apply Qle_bool_iff. }
  destruct (match_shared_hit stage_b h1 s _ C c Hmiss Hlocal Hlearned Hshared)
    as (stage_b1 & Hmatch & _).
  eexists stage_b1, _. split; [exact Hmatch|].
  unfold SPLAgent.process, Py.try_except, SPLAgent.process_try,
    SPLAgent.record_and_return.
  rewrite Hval, Hvalid, Hcontent.
  cbn [negb SPLAgent.layer1 SPLAgent.set_layer0].
  fold stage_b. rewrite Hmatch. cbn. split; reflexivity.
Qed.

Lemma C4_published_category_is_matched_amended_witness :
  (* agent B is built on the dict of agent A once A has published *)
  let stage_a := SPLAgent.layer1 Toy.agent0 in
  let out := Layer1Tactical.learn_pattern stage_a Toy.heap0 0
               "Billing question about invoice" "billing" (92 # 100)
               (Some "agent_a") in
  let agent_b := (SPLAgent.new "agent_b"
                    (Some (Layer1Tactical.shared_state stage_a))
                    (85 # 100) out.2).1 in
  ∃ agent_b1,
    Toy.process agent_b out.2 1 (Toy.req "user456" "My billing statement")
    = (Py.Ok (Decision.mk "billing" "pattern_shared" (92 # 100) 0 1 true),
       (agent_b1, out.2)).
Proof.
  intros stage_a out agent_b.
  pose (request := Toy.req "user456" "My billing statement").
  destruct (@C4_published_category_is_matched_amended Toy.lib
              stage_a Toy.heap0 0 "Billing question about invoice"
              "billing" (92 # 100) (Some "agent_a")
              "learned_billing_billing" out.1.2 out.2
              agent_b 1 request "My billing statement"
              Layer0Reactive.passed
              (Layer0Reactive.validate (SPLAgent.layer0 agent_b) 1 request).2
              eq_refl eq_refl eq_refl eq_refl eq_refl eq_refl eq_refl
              (Forall_nil_2 _) ltac:(vm_compute; discriminate) eq_refl)
    as (_ & stage_b1 & agent_b1 & _ & Hproc & _).
  exists agent_b1. exact Hproc.
Defined.

(* ===================================================================== *)
(** * Further properties of the code                                      *)
(* ===================================================================== *)

(* --------------------------------------------------------------------- *)
(** ** Registering and removing patterns                                  *)
(* --------------------------------------------------------------------- *)

Lemma od_mem_true {V} (d : list (string * V)) (k : string) :
  Py.od_mem d k = true ↔ k ∈ d.*1.
Proof.
  unfold Py.od_mem. induction d as [|[k' v'] d IH]; cbn.
  - split; [done|]. by intros ?%elem_of_nil.
  - rewrite elem_of_cons. destruct (String.eqb k' k) eqn:Hk.
    + apply String.eqb_eq in Hk. by split; [left|].
    + apply String.eqb_neq in Hk. rewrite IH.
      split; [by right|]. intros [Heq|Hin]; [by subst|done].
Qed.

Lemma od_mem_false {V} (d : list (string * V)) (k : string) :
  Py.od_mem d k = false ↔ k ∉ d.*1.
Proof.
  rewrite <- od_mem_true. destruct (Py.od_mem d k); [|done].
  split; [done|]. by intros [].
Qed.

Lemma od_set_keys {V} (d : list (string * V)) (k : string) (v : V) :
  (Py.od_set d k v).*1 = if Py.od_mem d k then d.*1 else d.*1 ++ [k].
Proof.
  unfold Py.od_mem. induction d as [|[k' v'] d IH]; cbn; [done|].
  destruct (String.eqb k' k) eqn:Hk; cbn; [done|].
  rewrite IH. by destruct (Py.od_get d k).
Qed.

Lemma od_set_NoDup {V} (d : list (string * V)) (k : string) (v : V) :
  NoDup d.*1 → NoDup (Py.od_set d k v).*1.
Proof.
  intros Hd. rewrite od_set_keys.
  destruct (Py.od_mem d k) eqn:Hk; [done|].
  apply od_mem_false in Hk. apply NoDup_app. split; [done|].
  split; [|apply NoDup_singleton].
  intros x Hx ->%list_elem_of_singleton. done.
Qed.

Lemma od_del_keys_subset {V} (d : list (string * V)) (k x : string) :
  x ∈ (Py.od_del d k).*1 → x ∈ d.*1.
Proof.
  induction d as [|[k' v'] d IH]; cbn; [done|].
  destruct (String.eqb k' k); cbn; rewrite ?elem_of_cons; intuition.
Qed.

Lemma od_del_NoDup {V} (d : list (string * V)) (k : string) :
  NoDup d.*1 → NoDup (Py.od_del d k).*1.
Proof.
  induction d as [|[k' v'] d IH]; cbn; [done|].
  rewrite NoDup_cons. intros [Hk' Hd].
  destruct (String.eqb k' k); cbn; [done|].
  apply NoDup_cons. split; [|by apply IH].
  intros Hin. by apply od_del_keys_subset in Hin.
Qed.

Lemma od_get_none {V} (d : list (string * V)) (k : string) :
  k ∉ d.*1 → Py.od_get d k = None.
Proof.
  intros Hk. apply od_mem_false in Hk. unfold Py.od_mem in Hk.
  by destruct (Py.od_get d k).
Qed.

Lemma od_get_del_eq {V} (d : list (string * V)) (k : string) :
  NoDup d.*1 → Py.od_get (Py.od_del d k) k = None.
Proof.
  induction d as [|[k' v'] d IH]; cbn; [done|].
  rewrite NoDup_cons. intros [Hk' Hd].
  destruct (String.eqb k' k) eqn:Hk; cbn.
  - apply String.eqb_eq in Hk. subst k'. by apply od_get_none.
  - rewrite Hk. by apply IH.
Qed.

Lemma od_get_del_ne {V} (d : list (string * V)) (k k' : string) :
  k ≠ k' → Py.od_get (Py.od_del d k) k' = Py.od_get d k'.
Proof.
  intros Hne. induction d as [|[k0 v0] d IH]; cbn; [done|].
  destruct (String.eqb k0 k) eqn:Hk; cbn.
  - apply String.eqb_eq in Hk. subst k0.
    apply String.eqb_neq in Hne. by rewrite Hne.
  - by rewrite IH.
Qed.

Lemma od_del_length {V} (d : list (string * V)) (k : string) :
  Py.od_mem d k = true → S (length (Py.od_del d k)) = length d.
Proof.
  unfold Py.od_mem. induction d as [|[k' v'] d IH]; cbn; [done|].
  destruct (String.eqb k' k); cbn; [done|]. intros Hk. by rewrite IH.
Qed.

Section stage.
Context `{Py.Lib}.

(** The names of the registered patterns are pairwise distinct, as the
    keys of a dict are. *)
Lemma stage_names_distinct (self : Layer1Tactical.t) :
  Runs.stage self → NoDup (Layer1Tactical.patterns self).*1.
Proof.
  induction 1 as [threshold shared h
                 |self now name regex category confidence _ IH
                 |self name _ IH
                 |self h content _ IH
                 |self h now content category confidence learned_by _ IH
                 |self _ IH].
  - unfold Layer1Tactical.new. destruct (Heap.or_empty shared h). cbn.
    apply NoDup_nil_2.
  - cbn. by apply od_set_NoDup.
  - unfold Layer1Tactical.remove_pattern.
    destruct (Py.od_mem _ _); cbn; [by apply od_del_NoDup|done].
  - unfold Layer1Tactical.match_. cbn.
    destruct (Layer1Tactical.cache self !! _); [done|].
    pose proof (scan_keeps_names (Layer1Tactical.confidence_threshold self)
                  (Layer1Tactical.patterns self) (Py.lower content)) as Hn.
    destruct (Layer1Tactical.scan_patterns _ _ _) as [[name p| |e] ps1];
      cbn in *; [by rewrite Hn| |done].
    repeat case_match; done.
  - unfold Layer1Tactical.learn_pattern.
    destruct (Py.Qltb _ _); [done|].
    destruct (Py.split _); [done|]. cbn. by apply od_set_NoDup.
  - done.
Qed.

End stage.

(** [add_pattern] registers the pattern under its name with a match count
    of 0, and leaves the other patterns alone. A new name goes last and
    the pattern count grows by one; a name already registered keeps its
    place, the old pattern is replaced, and the count is unchanged. The
    cache is not touched. *)
Theorem add_pattern_registers (self : Layer1Tactical.t) (now : Z)
    (name regex category : string) (confidence : Q) :
  let self1 :=
    Layer1Tactical.add_pattern self now name regex category confidence in
  Py.od_get (Layer1Tactical.patterns self1) name
  = Some (Pattern.mk name regex category confidence (Some now) None 0)
  ∧ (∀ n, n ≠ name →
       Py.od_get (Layer1Tactical.patterns self1) n
       = Py.od_get (Layer1Tactical.patterns self) n)
  ∧ (Py.od_mem (Layer1Tactical.patterns self) name = true →
     (Layer1Tactical.patterns self1).*1 = (Layer1Tactical.patterns self).*1
     ∧ Layer1Tactical.pattern_count self1 = Layer1Tactical.pattern_count self)
  ∧ (Py.od_mem (Layer1Tactical.patterns self) name = false →
     (Layer1Tactical.patterns self1).*1
     = (Layer1Tactical.patterns self).*1 ++ [name]
     ∧ Layer1Tactical.pattern_count self1
       = (Layer1Tactical.pattern_count self + 1)%Z)
  ∧ Layer1Tactical.cache self1 = Layer1Tactical.cache self.
Proof.
  intros self1. subst self1. cbn.
  split; [apply od_get_set_eq|].
  split; [intros n Hn; by apply od_get_set_ne|].
  unfold Layer1Tactical.pattern_count. cbn.
  pose proof (od_set_keys (Layer1Tactical.patterns self) name
                (Pattern.mk name regex category confidence (Some now) None 0))
    as Hkeys.
  split; [|split; [|done]]; intros Hmem; rewrite Hmem in Hkeys;
    (split; [done|]);
    apply (f_equal length) in Hkeys;
    rewrite ?length_app, !length_fmap in Hkeys; cbn in Hkeys; lia.
Qed.

Lemma add_pattern_registers_witness :
  let l1 := Layer1Tactical.add_pattern (SPLAgent.layer1 Toy.agent0) 0
              "urgent" "urgent" "urgent" (95 # 100) in
  let l2 := Layer1Tactical.add_pattern l1 1 "urgent" "asap" "urgent"
              (99 # 100) in
  Layer1Tactical.pattern_count l2 = 1%Z.
Proof.
  intros l1 l2.
  destruct (add_pattern_registers l1 1 "urgent" "asap" "urgent" (99 # 100))
    as (_ & _ & Hsame & _).
  destruct (Hsame eq_refl) as [_ Hcount]. fold l2 in Hcount.
  rewrite Hcount. reflexivity.
Defined.

(** [remove_pattern] answers [False] and changes nothing when the name is
    not registered. Otherwise it answers [True], the name is no longer
    registered, the other patterns are kept, and the pattern count drops
    by one. The cache is kept as it is: a content cached as matched by
    the removed pattern is still answered with it. *)
Theorem remove_pattern_unregisters `{Py.Lib} (self : Layer1Tactical.t)
    (name : string) :
  Runs.stage self →
  (Py.od_mem (Layer1Tactical.patterns self) name = false →
   Layer1Tactical.remove_pattern self name = (false, self))
  ∧ (Py.od_mem (Layer1Tactical.patterns self) name = true →
     ∃ self1,
       Layer1Tactical.remove_pattern self name = (true, self1)
       ∧ Py.od_get (Layer1Tactical.patterns self1) name = None
       ∧ (∀ n, n ≠ name →
            Py.od_get (Layer1Tactical.patterns self1) n
            = Py.od_get (Layer1Tactical.patterns self) n)
       ∧ Layer1Tactical.pattern_count self1
         = (Layer1Tactical.pattern_count self - 1)%Z
       ∧ Layer1Tactical.cache self1 = Layer1Tactical.cache self
       ∧ (∀ h content cached,
            Layer1Tactical.cache self
              !! Py.sha256_hexdigest (Py.lower content) = Some cached →
            PatternMatchResult.matched cached = true →
            (Layer1Tactical.match_ self1 h content).1
            = Py.Ok (Some cached))).
Proof.
  intros Hstage. apply stage_names_distinct in Hstage.
  unfold Layer1Tactical.remove_pattern. split; intros Hmem; rewrite Hmem.
  - done.
  - eexists. split; [reflexivity|]. cbn.
    split; [by apply od_get_del_eq|].
    split; [intros n Hn; by apply od_get_del_ne|].
    split.
    { unfold Layer1Tactical.pattern_count. cbn.
      apply od_del_length in Hmem. lia. }
    split; [done|].
    intros h content cached Hcached Hmatched.
    unfold Layer1Tactical.match_. cbn. by rewrite Hcached, Hmatched.
Qed.

Lemma remove_pattern_unregisters_witness :
  let l0 := (Layer1Tactical.new (85 # 100) None ∅).1 in
  let h0 := (Layer1Tactical.new (85 # 100) None ∅).2 in
  let l1 := Layer1Tactical.add_pattern l0 0 "urgent" "urgent" "urgent"
              (95 # 100) in
  let l2 := (Toy.match_ l1 h0 "This is urgent!").2 in
  ∃ l3,
    Layer1Tactical.remove_pattern l2 "urgent" = (true, l3)
    ∧ Layer1Tactical.pattern_count l3 = 0%Z
    ∧ (Toy.match_ l3 h0 "This is urgent!").1
      = Py.Ok (Some (PatternMatchResult.mk true (Some "urgent")
                       (Some "urgent") (95 # 100) "pattern_cached")).
Proof.
  intros l0 h0 l1 l2.
  assert (Hstage : @Runs.stage Toy.lib l2).
  { apply @Runs.stage_match, @Runs.stage_add_pattern, @Runs.stage_new. }
  destruct (@remove_pattern_unregisters Toy.lib l2 "urgent" Hstage)
    as [_ Hremove].
  destruct (Hremove eq_refl) as (l3 & Heq & _ & _ & Hcount & _ & Hstale).
  exists l3. split; [exact Heq|]. split; [rewrite Hcount; reflexivity|].
  apply Hstale; reflexivity.
Defined.

(* --------------------------------------------------------------------- *)
(** ** The cache of the tactical stage                                    *)
(* --------------------------------------------------------------------- *)

(** Cache consistency: when [match] has answered a content, matched or
    not, the next [match] on the same content gives the same answer from
    the cache, whatever the shared state has become: no pattern counter
    and no cost moves, only the number of match attempts grows. *)
Theorem match_again_from_cache `{Py.Lib} (self : Layer1Tactical.t)
    (h h' : Heap.t) (content : string)
    (r : option PatternMatchResult.t) (self1 : Layer1Tactical.t) :
  Layer1Tactical.match_ self h content = (Py.Ok r, self1) →
  ∃ self2,
    Layer1Tactical.match_ self1 h' content = (Py.Ok r, self2)
    ∧ Layer1Tactical.patterns self2 = Layer1Tactical.patterns self1
    ∧ Layer1Tactical.cache self2 = Layer1Tactical.cache self1
    ∧ Layer1Tactical._cost self2 = Layer1Tactical._cost self1
    ∧ Layer1Tactical._match_count self2
      = (Layer1Tactical._match_count self1 + 1)%Z.
Proof.
  unfold Layer1Tactical.match_ at 1. cbn.
  destruct (Layer1Tactical.cache self !! _) as [cached|] eqn:Hcache.
  - intros [= <- <-]. unfold Layer1Tactical.match_. cbn.
    rewrite Hcache. by eexists.
  - destruct (Layer1Tactical.scan_patterns _ _ _) as [[name p| |e] ps1];
      [| |done].
    + intros [= <- <-]. unfold Layer1Tactical.match_. cbn.
      rewrite lookup_insert_eq. by eexists.
    + destruct (match SharedState.learned_patterns _ with
                | Some entries => _
                | None => None
                end) as [[category confidence]|];
        intros [= <- <-]; unfold Layer1Tactical.match_; cbn;
        rewrite lookup_insert_eq; by eexists.
Qed.

Lemma match_again_from_cache_witness :
  let l0 := (Layer1Tactical.new (85 # 100) None ∅).1 in
  let h0 := (Layer1Tactical.new (85 # 100) None ∅).2 in
  let l1 := (Toy.match_ l0 h0 "Nothing special here").2 in
  (* a pattern registered after the first call changes nothing *)
  let l2 := Layer1Tactical.add_pattern l1 1 "special" "special" "promo"
              (95 # 100) in
  (Toy.match_ l1 h0 "Nothing special here").1 = Py.Ok None
  ∧ (Toy.match_ l2 h0 "Nothing special here").1 = Py.Ok None.
Proof.
  intros l0 h0 l1 l2.
  destruct (@match_again_from_cache Toy.lib l0 h0 h0 "Nothing special here"
              None l1 eq_refl) as (l1' & Hagain & _).
  split; [unfold Toy.match_; by rewrite Hagain|reflexivity].
Defined.

(** After [clear_cache] the scan decides again: the first registered
    pattern that qualifies answers, whatever was cached before. The same
    holds after [SPLAgent.reset], which clears the cache and keeps the
    patterns. *)
Theorem match_after_clear_cache `{Py.Lib} (self : Layer1Tactical.t)
    (h : Heap.t) (content : string)
    (pre post : list (string * Pattern.t)) (name : string) (p : Pattern.t) :
  let threshold := Layer1Tactical.confidence_threshold self in
  Layer1Tactical.patterns self = pre ++ (name, p) :: post →
  Forall (λ np, Scan.passed_over threshold (Py.lower content) np.2 = true)
    pre →
  Scan.wins threshold (Py.lower content) p = true →
  (Layer1Tactical.match_ (Layer1Tactical.clear_cache self) h content).1
  = Py.Ok (Some (PatternMatchResult.mk true (Some name)
                   (Some (Pattern.category p)) (Pattern.confidence p)
                   "pattern_cached"))
  ∧ ∀ agent, SPLAgent.layer1 agent = self →
      SPLAgent.layer1 (SPLAgent.reset agent) = Layer1Tactical.clear_cache self.
Proof.
  intros threshold Hps Hpre Hwin. split.
  - destruct (match_local_hit (Layer1Tactical.clear_cache self) h content
                name p (pre ++ (name, Pattern.hit p) :: post))
      as (self1 & Hmatch & _).
    + apply lookup_empty.
    + cbn. rewrite Hps. by apply scan_first_winner.
    + by rewrite Hmatch.
  - by intros agent <-.
Qed.

Lemma match_after_clear_cache_witness :
  let request := Toy.req "user123" "please reset my password" in
  let a1 := (Toy.process Toy.agent0 Toy.heap0 0 request).2.1 in
  let a2 := SPLAgent.add_pattern a1 1 "reset" "reset" "account" (95 # 100) in
  (Toy.match_ (SPLAgent.layer1 a2) Toy.heap0 "please reset my password").1
  = Py.Ok None
  ∧ (Toy.match_ (Layer1Tactical.clear_cache (SPLAgent.layer1 a2)) Toy.heap0
       "please reset my password").1
    = Py.Ok (Some (PatternMatchResult.mk true (Some "reset") (Some "account")
                     (95 # 100) "pattern_cached")).
Proof.
  intros request a1 a2. split; [reflexivity|].
  destruct (@match_after_clear_cache Toy.lib (SPLAgent.layer1 a2) Toy.heap0
              "please reset my password" [] [] "reset"
              (Pattern.mk "reset" "reset" "account" (95 # 100) (Some 1%Z)
                 None 0)
              eq_refl (Forall_nil_2 _) eq_refl) as [Hmatch _].
  exact Hmatch.
Defined.

(* --------------------------------------------------------------------- *)
(** ** What validation changes, and the window of the rate limiter        *)
(* --------------------------------------------------------------------- *)

Lemma check_rate_limit_frame (self : Layer0Reactive.t) (now : Z)
    (user_id : Py.value) (max_requests window_seconds : Z) r self1 :
  Layer0Reactive._check_rate_limit self now user_id max_requests
    window_seconds = (r, self1) →
  Layer0Reactive.min_length self1 = Layer0Reactive.min_length self
  ∧ Layer0Reactive.max_length self1 = Layer0Reactive.max_length self
  ∧ Layer0Reactive.blocklist self1 = Layer0Reactive.blocklist self
  ∧ Layer0Reactive.allowlist self1 = Layer0Reactive.allowlist self
  ∧ Layer0Reactive._validation_count self1
    = Layer0Reactive._validation_count self
  ∧ (∀ u, u ≠ user_id →
       Layer0Reactive.rate_limits self1 !! u
       = Layer0Reactive.rate_limits self !! u)
  ∧ (r ≠ Py.Ok Layer0Reactive.passed →
     Layer0Reactive.rate_limits self1 = Layer0Reactive.rate_limits self).
Proof.
  unfold Layer0Reactive._check_rate_limit.
  repeat case_match; intros [= <- <-]; cbn;
    repeat split; try done;
    intros u Hu; by rewrite lookup_insert_ne.
Qed.

(** [validate] counts every call, also one that is refused or raises; it
    never changes the bounds, the blocklist or the allowlist, never
    touches the window of another user, and changes the window of the
    requesting user only when the request is valid: a refused request,
    whatever the reason, uses up nothing of the quota. *)
Theorem validate_frame (self : Layer0Reactive.t) (now : Z)
    (request : Request.t) r self1 :
  Layer0Reactive.validate self now request = (r, self1) →
  Layer0Reactive._validation_count self1
  = (Layer0Reactive._validation_count self + 1)%Z
  ∧ Layer0Reactive.min_length self1 = Layer0Reactive.min_length self
  ∧ Layer0Reactive.max_length self1 = Layer0Reactive.max_length self
  ∧ Layer0Reactive.blocklist self1 = Layer0Reactive.blocklist self
  ∧ Layer0Reactive.allowlist self1 = Layer0Reactive.allowlist self
  ∧ (∀ u, u ≠ Request.get_user_id request →
       Layer0Reactive.rate_limits self1 !! u
       = Layer0Reactive.rate_limits self !! u)
  ∧ ((∀ v, r = Py.Ok v → ValidationResult.valid v = false) →
     Layer0Reactive.rate_limits self1 = Layer0Reactive.rate_limits self).
Proof.
  unfold Layer0Reactive.validate.
  destruct (Request.get_content request) as [s| | |];
    try (intros [= <- <-]; by repeat split).
  destruct (_ <? _)%Z; [intros [= <- <-]; by repeat split|].
  destruct (_ <? _)%Z; [intros [= <- <-]; by repeat split|].
  destruct (Layer0Reactive.blocked_term _ _);
    [intros [= <- <-]; by repeat split|].
  destruct (Layer0Reactive._check_rate_limit _ _ _ _ _) as [r0 self2] eqn:Hrate.
  destruct (check_rate_limit_frame _ _ _ _ _ _ _ Hrate)
    as (Hmin & Hmax & Hbl & Hal & Hvc & Hother & Hrefused).
  cbn in Hmin, Hmax, Hbl, Hal, Hvc, Hother, Hrefused.
  destruct r0 as [v|e].
  - destruct (ValidationResult.valid v) eqn:Hv; cbn [negb];
      intros [= <- <-]; (repeat split; try done).
    + by intros Hinvalid; specialize (Hinvalid _ eq_refl).
    + intros _. apply Hrefused. intros [= ->]. done.
  - intros [= <- <-]. repeat split; try done. intros _. by apply Hrefused.
Qed.

Lemma validate_frame_witness :
  let l0 := (Layer0Reactive.validate Layer0Reactive.new 0
               (Toy.req "user123" "Valid content here")).2 in
  let l1 := (Layer0Reactive.validate l0 1 (Toy.req "user123" "Hi")).2 in
  Layer0Reactive.rate_limits l1 = Layer0Reactive.rate_limits l0
  ∧ Layer0Reactive._validation_count l1 = 2%Z.
Proof.
  intros l0 l1.
  destruct (validate_frame l0 1 (Toy.req "user123" "Hi") _ l1 eq_refl)
    as (Hcount & _ & _ & _ & _ & _ & Hquota).
  split; [|rewrite Hcount; reflexivity].
  apply Hquota. intros v [= <-]. reflexivity.
Defined.

Lemma rate_limit_calls_open (self : Layer0Reactive.t) (user_id : Py.value)
    (max_requests window_seconds : Z) (start count : Z) (times : list Z) :
  Py.hashable user_id = true →
  Layer0Reactive.rate_limits self !! user_id
  = Some (RateEntry.mk count start) →
  Forall (λ now, (now - start <= window_seconds * 1000000)%Z) times →
  (Runs.rate_limit_calls self user_id max_requests window_seconds times).1
  = map (λ i, (Z.of_nat i + count <? max_requests)%Z)
      (seq 0 (length times)).
Proof.
  intros Hhash Hentry Htimes. revert self count Hentry.
  induction Htimes as [|now times Hnow _ IH]; intros self count Hentry;
    [done|].
  cbn [Runs.rate_limit_calls length seq map].
  destruct (check_rate_limit_cases self now user_id max_requests
              window_seconds Hhash) as [_ Hcases].
  destruct (Hcases _ Hentry) as (_ & Hfull & Hroom).
  cbn [RateEntry.window_start RateEntry.count] in Hfull, Hroom.
  destruct (Z.lt_ge_cases count max_requests) as [Hlt|Hge].
  - rewrite (Hroom Hnow Hlt).
    specialize (IH (Layer0Reactive.set_rate_limits self
                      (<[user_id := RateEntry.mk (count + 1) start]>
                         (Layer0Reactive.rate_limits self)))
                  (count + 1)%Z (lookup_insert_eq _ _ _)).
    destruct (Runs.rate_limit_calls _ _ _ _ times) as [answers self2].
    cbn in *. rewrite IH. f_equal; [symmetry; apply Z.ltb_lt; lia|].
    rewrite <- seq_shift, map_map. apply map_ext. intros i.
    f_equal. lia.
  - rewrite (Hfull Hnow Hge).
    specialize (IH self count Hentry).
    destruct (Runs.rate_limit_calls _ _ _ _ times) as [answers self2].
    cbn in *. rewrite IH. f_equal; [symmetry; apply Z.ltb_ge; lia|].
    rewrite <- seq_shift, map_map. apply map_ext. intros i.
    transitivity false; [|symmetry]; apply Z.ltb_ge; lia.
Qed.

(** The window of the limiter: for a user without an entry, the first
    request passes whatever [max_requests] is, and among the following
    requests that arrive no later than [window_seconds] after the first,
    the one of rank k (counting the first as 1) passes exactly when
    k <= max_requests. *)
Theorem rate_limit_window (self : Layer0Reactive.t) (user_id : Py.value)
    (max_requests window_seconds : Z) (first : Z) (later : list Z) :
  Py.hashable user_id = true →
  Layer0Reactive.rate_limits self !! user_id = None →
  Forall (λ now, (now - first <= window_seconds * 1000000)%Z) later →
  (Runs.rate_limit_calls self user_id max_requests window_seconds
     (first :: later)).1
  = true :: map (λ i, (Z.of_nat i + 2 <=? max_requests)%Z)
              (seq 0 (length later)).
Proof.
  intros Hhash Hnone Hlater. cbn [Runs.rate_limit_calls].
  destruct (check_rate_limit_cases self first user_id max_requests
              window_seconds Hhash) as [Hnew _].
  rewrite (Hnew Hnone).
  pose proof (rate_limit_calls_open
                (Layer0Reactive.set_rate_limits self
                   (<[user_id := RateEntry.mk 1 first]>
                      (Layer0Reactive.rate_limits self)))
                user_id max_requests window_seconds first 1 later Hhash
                (lookup_insert_eq _ _ _) Hlater) as Hopen.
  destruct (Runs.rate_limit_calls _ _ _ _ later) as [answers self2].
  cbn in *. rewrite Hopen. f_equal. apply map_ext. intros i.
  destruct (Z.ltb_spec (Z.of_nat i + 1) max_requests),
    (Z.leb_spec (Z.of_nat i + 2) max_requests); done || lia.
Qed.

Lemma rate_limit_window_witness :
  (Runs.rate_limit_calls Layer0Reactive.new (Py.VStr "user123") 3 60
     [0; 1000000; 2000000; 3000000; 59000000]%Z).1
  = [true; true; true; false; false].
Proof.
  rewrite (rate_limit_window Layer0Reactive.new (Py.VStr "user123") 3 60 0
             [1000000; 2000000; 3000000; 59000000]%Z eq_refl eq_refl).
  - reflexivity.
  - repeat constructor; vm_compute; discriminate.
Defined.

(* --------------------------------------------------------------------- *)
(** ** The blocklist                                                      *)
(* --------------------------------------------------------------------- *)

(** Once a term is added to the blocklist, every string content of
    admissible length that contains it, letter case aside on both sides,
    is refused, before the rate limiter is consulted. Adding a term twice
    is adding it once, and removing a term that was added and was not
    blocked before restores the stage. *)
Theorem add_to_blocklist_blocks (self : Layer0Reactive.t) (term : string)
    (now : Z) (request : Request.t) (s : string) :
  let self1 := Layer0Reactive.add_to_blocklist self term in
  (Request.get_content request = Py.VStr s →
   (Layer0Reactive.min_length self <= Z.of_nat (String.length s)
    <= Layer0Reactive.max_length self)%Z →
   Py.contains (Py.lower s) (Py.lower term) = true →
   ∃ v self2,
     Layer0Reactive.validate self1 now request = (Py.Ok v, self2)
     ∧ ValidationResult.valid v = false
     ∧ ValidationResult.rejected v = true
     ∧ Layer0Reactive.rate_limits self2 = Layer0Reactive.rate_limits self)
  ∧ Layer0Reactive.add_to_blocklist self1 term = self1
  ∧ (term ∉ Layer0Reactive.blocklist self →
     Layer0Reactive.remove_from_blocklist self1 term = self).
Proof.
  intros self1. split; [|split].
  - intros Hcontent [Hmin Hmax] Hin.
    destruct (validate_cases self1 now request) as [_ Hcases].
    destruct (Hcases s _ Hcontent eq_refl) as (_ & _ & Hblock & _).
    destruct (Layer0Reactive.blocked_term (Layer0Reactive.blocklist self1)
                (Py.lower s)) as [b|] eqn:Hfind.
    + rewrite (Hblock Hmin Hmax b eq_refl). by eexists _, _.
    + rewrite blocked_term_none in Hfind.
      rewrite Hfind in Hin; [done|]. cbn.
      apply elem_of_union_l, elem_of_singleton. reflexivity.
  - unfold self1, Layer0Reactive.add_to_blocklist. cbn. f_equal.
    apply set_eq. intros x. rewrite !elem_of_union. tauto.
  - intros Hfresh. destruct self.
    unfold self1, Layer0Reactive.remove_from_blocklist,
      Layer0Reactive.add_to_blocklist. cbn in *. f_equal.
    apply set_eq. intros x.
    rewrite elem_of_difference, elem_of_union, elem_of_singleton.
    split; [tauto|]. intros Hx. split; [by right|]. by intros ->.
Qed.

Lemma add_to_blocklist_blocks_witness :
  ∃ v self2,
    Layer0Reactive.validate
      (Layer0Reactive.add_to_blocklist Layer0Reactive.new "Forbidden") 0
      (Toy.req "user123" "This contains a FORBIDDEN word.")
    = (Py.Ok v, self2)
    ∧ ValidationResult.valid v = false.
Proof.
  destruct (add_to_blocklist_blocks Layer0Reactive.new "Forbidden" 0
              (Toy.req "user123" "This contains a FORBIDDEN word.")
              "This contains a FORBIDDEN word.") as [Hblocks _].
  destruct (Hblocks eq_refl) as (v & self2 & Hval & Hinvalid & _).
  - vm_compute. split; discriminate.
  - reflexivity.
  - exists v, self2. split; [exact Hval|exact Hinvalid].
Defined.

(* --------------------------------------------------------------------- *)
(** ** The ledger of the cost tracker, layer by layer                     *)
(* --------------------------------------------------------------------- *)

Lemma sum_costs_snoc (rs : list CostRecord.t) (r : CostRecord.t) :
  Runs.sum_costs (rs ++ [r]) = (Runs.sum_costs rs + CostRecord.cost r)%Q.
Proof. unfold Runs.sum_costs. by rewrite foldl_app. Qed.

(** Ledger invariant, layer by layer. *)
Lemma layer_ledger (self : CostTracker.t) (layer : Z) :
  CostTracker.reachable self →
  default 0%Z (CostTracker.layer_counts self !! layer)
  = Z.of_nat (length (CostTracker.get_records_by_layer self layer))
  ∧ default 0%Q (CostTracker.layer_costs self !! layer)
    = Runs.sum_costs (CostTracker.get_records_by_layer self layer).
Proof.
  assert (Hnew : ∀ base,
    default 0%Z (CostTracker.layer_counts (CostTracker.reset base) !! layer)
    = 0%Z
    ∧ default 0%Q (CostTracker.layer_costs (CostTracker.reset base) !! layer)
      = 0%Q).
  { intros base. cbn. rewrite !lookup_insert, !lookup_empty.
    repeat case_decide; done. }
  assert (Hrec : ∀ s now result,
    default 0%Z (CostTracker.layer_counts s !! layer)
    = Z.of_nat (length (CostTracker.get_records_by_layer s layer))
    ∧ default 0%Q (CostTracker.layer_costs s !! layer)
      = Runs.sum_costs (CostTracker.get_records_by_layer s layer) →
    let s1 := CostTracker.record s now result in
    default 0%Z (CostTracker.layer_counts s1 !! layer)
    = Z.of_nat (length (CostTracker.get_records_by_layer s1 layer))
    ∧ default 0%Q (CostTracker.layer_costs s1 !! layer)
      = Runs.sum_costs (CostTracker.get_records_by_layer s1 layer)).
  { intros s now result [Hn Hc]. unfold CostTracker.get_records_by_layer in *.
    cbn. rewrite filter_app, filter_cons, filter_nil. cbn.
    case_decide as Hl.
    - rewrite Hl, !lookup_insert_eq. cbn.
      rewrite length_app, sum_costs_snoc, Hn, Hc. cbn. split; [lia|done].
    - rewrite !lookup_insert_ne by done. by rewrite app_nil_r. }
  induction 1 as [|s now result _ IH|s now d _ IH|s cost _ IH|s _ IH].
  - apply (Hnew CostTracker.new).
  - by apply Hrec.
  - by apply Hrec.
  - exact IH.
  - apply Hnew.
Qed.

(** The per-layer counters agree with the ledger: in every state a
    tracker reaches, and for every layer (also one that is not 0, 1 or
    2), [layer_counts.get(layer, 0)] is the number of ledger records of
    that layer, as [get_records_by_layer] lists them, and
    [layer_costs.get(layer, 0)] is the sum of their costs. *)
Theorem layer_counters_match_ledger (self : CostTracker.t) (layer : Z) :
  CostTracker.reachable self →
  default 0%Z (CostTracker.layer_counts self !! layer)
  = Z.of_nat (length (CostTracker.get_records_by_layer self layer))
  ∧ default 0%Q (CostTracker.layer_costs self !! layer)
    = Runs.sum_costs (CostTracker.get_records_by_layer self layer).
Proof.
  exact (layer_ledger self layer).
Qed.

Lemma layer_counters_match_ledger_witness :
  let t1 :=
    CostTracker.record
      (CostTracker.record CostTracker.new 0
         (ResultDict.mk (Some 7%Z) (Some (1 # 2)) None None None))
      1 (ResultDict.mk None (Some (1 # 100)) None None None) in
  (* a layer outside 0..2, and the default layer 2 of a dict without one *)
  default 0%Z (CostTracker.layer_counts t1 !! 7%Z) = 1%Z
  ∧ length (CostTracker.get_records_by_layer t1 2) = 1%nat.
Proof.
  intros t1.
  assert (Hreach : CostTracker.reachable t1)
    by (apply CostTracker.reach_record, CostTracker.reach_record,
          CostTracker.reach_new).
  destruct (layer_counters_match_ledger t1 7 Hreach) as [Hcount _].
  split; [rewrite Hcount; reflexivity|reflexivity].
Defined.

(* --------------------------------------------------------------------- *)
(** ** The accounts of the deliberative stage and of the MCP client       *)
(* --------------------------------------------------------------------- *)

(** As long as [set_cost_per_call] is not used, the running total of the
    deliberative stage is determined by the number of calls: after the
    constructor and any sequence of [reason], [set_model_client] and
    [reset_tracking], [cost_per_call] is the price given to the
    constructor, the call counter is not negative, and [_total_cost] is
    what adding [cost_per_call] to 0, [_call_count] times over, gives.
    These are the additions the code makes, in its order: the statement
    does not go through a product. *)
Theorem layer2_total_is_repeated_sum (cost : Q)
    (self : Layer2Deliberative.t) :
  Layer2Deliberative.priced cost self →
  Layer2Deliberative.cost_per_call self = cost
  ∧ (0 <= Layer2Deliberative._call_count self)%Z
  ∧ Layer2Deliberative._total_cost self
    = Nat.iter (Z.to_nat (Layer2Deliberative._call_count self))
        (λ total, (total + cost)%Q) 0%Q.
Proof.
  induction 1 as [client name|self content _ (IHc & IHn & IHt)
                 |self client _ IH|self _ (IHc & _ & _)].
  - cbn. by repeat split.
  - assert (Hstep :
      Layer2Deliberative.cost_per_call
        (Layer2Deliberative.reason self content).2 = cost
      ∧ Layer2Deliberative._call_count
          (Layer2Deliberative.reason self content).2
        = (Layer2Deliberative._call_count self + 1)%Z
      ∧ Layer2Deliberative._total_cost
          (Layer2Deliberative.reason self content).2
        = (Layer2Deliberative._total_cost self + cost)%Q).
    { unfold Layer2Deliberative.reason.
      cbn [Layer2Deliberative.model_client].
      destruct (Layer2Deliberative.model_client self); cbn;
        by rewrite IHc. }
    destruct Hstep as (-> & -> & ->).
    split; [done|]. split; [lia|].
    replace (Z.to_nat (Layer2Deliberative._call_count self + 1))
      with (S (Z.to_nat (Layer2Deliberative._call_count self))) by lia.
    cbn [Nat.iter]. by rewrite IHt.
  - exact IH.
  - cbn. by repeat split.
Qed.

Lemma layer2_total_is_repeated_sum_witness :
  let l2 :=
    (Layer2Deliberative.reason
       (Layer2Deliberative.reason
          (Layer2Deliberative.reset_tracking
             (Layer2Deliberative.reason Layer2Deliberative.new "one").2)
          "two").2
       "three").2 in
  Layer2Deliberative._call_count l2 = 2%Z
  ∧ Layer2Deliberative._total_cost l2 = (0 + (1 # 100) + (1 # 100))%Q.
Proof.
  intros l2. split; [reflexivity|].
  destruct (layer2_total_is_repeated_sum (1 # 100) l2) as (_ & _ & Htotal).
  - do 2 apply Layer2Deliberative.priced_reason.
    apply Layer2Deliberative.priced_reset_tracking,
      Layer2Deliberative.priced_reason.
    apply (Layer2Deliberative.priced_new (1 # 100) None "simulated").
  - exact Htotal.
Defined.

Lemma mcp_simulated_reason_classify (self : MCPClient.t) (content : string) :
  let r := MCPClient._simulated_reason self content in
  let c := HeuristicSpec.classify (Py.lower content) in
  MCPResponse.content r = c.1
  ∧ MCPResponse.category r = Some c.1
  ∧ MCPResponse.confidence r = c.2
  ∧ MCPResponse.cost r = MCPClient.cost_per_call self
  ∧ MCPResponse.model r = MCPClient.model self.
Proof.
  unfold MCPClient._simulated_reason, HeuristicSpec.classify,
    HeuristicSpec.has_any, HeuristicSpec.urgency_keywords,
    HeuristicSpec.billing_keywords, HeuristicSpec.spam_keywords.
  cbn [existsb].
  repeat match goal with
         | |- context [Py.contains ?t ?k] => destruct (Py.contains t k)
         end; cbn; repeat split; reflexivity.
Qed.

Lemma mcp_simulated_cost (self : MCPClient.t) (content : string) :
  MCPResponse.cost (MCPClient._simulated_reason self content)
  = MCPClient.cost_per_call self.
Proof. apply mcp_simulated_reason_classify. Qed.

Lemma mcp_simulated_model (self : MCPClient.t) (content : string) :
  MCPResponse.model (MCPClient._simulated_reason self content)
  = MCPClient.model self.
Proof. apply mcp_simulated_reason_classify. Qed.

(** The simulation of the MCP client is the one of the deliberative
    stage: on the same content both give the same category and the same
    confidence, each at its own price per call. *)
Theorem mcp_simulation_agrees_with_layer2 (client : MCPClient.t)
    (l2 : Layer2Deliberative.t) (content : string) :
  let r := MCPClient._simulated_reason client content in
  let r2 := Layer2Deliberative._simulated_reason l2 content in
  MCPResponse.category r = Some (DeliberativeResult.category r2)
  ∧ MCPResponse.content r = DeliberativeResult.category r2
  ∧ MCPResponse.confidence r = DeliberativeResult.confidence r2
  ∧ MCPResponse.cost r = MCPClient.cost_per_call client
  ∧ DeliberativeResult.cost r2 = Layer2Deliberative.cost_per_call l2.
Proof.
  intros r r2.
  destruct (mcp_simulated_reason_classify client content)
    as (Hcontent & Hcat & Hconf & Hcost & _).
  destruct (simulated_reason_classify l2 content) as [Hpair Hcost2].
  fold r in Hcontent, Hcat, Hconf, Hcost. fold r2 in Hpair, Hcost2.
  destruct (HeuristicSpec.classify (Py.lower content)) as [c q].
  injection Hpair as <- <-. by repeat split.
Qed.

(** [MCPClient.reason] never fails and always charges the call: the
    counter goes up by one and the total by [cost_per_call], and the
    answer costs [cost_per_call] and names the model of the client.
    Without an API client, with a client that has no [messages]
    attribute, or when the API call raises, the answer is the
    simulation; when the API call returns a text, the category is the
    text stripped and lowercased, with confidence 0.90, whatever the
    content says. *)
Theorem mcp_reason_accounting_and_fallback (self : MCPClient.t)
    (content : string) :
  let '(r, self1) := MCPClient.reason self content in
  MCPClient._call_count self1 = (MCPClient._call_count self + 1)%Z
  ∧ MCPClient._total_cost self1
    = (MCPClient._total_cost self + MCPClient.cost_per_call self)%Q
  ∧ MCPClient.cost_per_call self1 = MCPClient.cost_per_call self
  ∧ MCPClient.api_client self1 = MCPClient.api_client self
  ∧ MCPResponse.cost r = MCPClient.cost_per_call self
  ∧ MCPResponse.model r = MCPClient.model self
  ∧ match MCPClient.api_client self with
    | None => r = MCPClient._simulated_reason self1 content
    | Some client =>
        if ApiClient.has_messages client
        then
          match ApiClient.create_text client (MCPClient.model self)
                  (MCPClient.prompt content) with
          | Py.Ok text =>
              MCPResponse.content r = text
              ∧ MCPResponse.category r = Some (Py.lower (Py.strip text))
              ∧ MCPResponse.confidence r = 90 # 100
          | Py.Raise _ => r = MCPClient._simulated_reason self1 content
          end
        else r = MCPClient._simulated_reason self1 content
    end.
Proof.
  unfold MCPClient.reason. cbn [MCPClient.api_client].
  destruct (MCPClient.api_client self) as [client|] eqn:Hclient.
  - do 4 (split; [reflexivity|]).
    unfold MCPClient._call_api. cbn [MCPClient.model MCPClient.cost_per_call].
    destruct (ApiClient.has_messages client).
    + destruct (ApiClient.create_text client _ _) as [text|e].
      * cbn. by repeat split.
      * rewrite mcp_simulated_cost, mcp_simulated_model. by repeat split.
    + rewrite mcp_simulated_cost, mcp_simulated_model. by repeat split.
  - do 4 (split; [reflexivity|]).
    rewrite mcp_simulated_cost, mcp_simulated_model. by repeat split.
Qed.

Lemma str_or_nonempty (x d : string) : d ≠ "" → Py.str_or x d ≠ "".
Proof.
  intros Hd. unfold Py.str_or, Py.is_empty.
  by destruct x.
Qed.

(** [MCPClient.classify] never answers with the empty string: without a
    usable API answer it gives the category of the keyword heuristic,
    one of urgent, billing, spam and other; an API answer that is blank
    once stripped is replaced by [other]. *)
Theorem mcp_classify_never_empty (self : MCPClient.t) (content : string) :
  (MCPClient.classify self content).1 ≠ ""
  ∧ (MCPClient.api_client self = None →
     (MCPClient.classify self content).1
     = (HeuristicSpec.classify (Py.lower content)).1
     ∧ (MCPClient.classify self content).1
       ∈ ["urgent"; "billing"; "spam"; "other"])
  ∧ (∀ client text,
       MCPClient.api_client self = Some client →
       ApiClient.has_messages client = true →
       ApiClient.create_text client (MCPClient.model self)
         (MCPClient.prompt content) = Py.Ok text →
       Py.strip text = "" →
       (MCPClient.classify self content).1 = "other").
Proof.
  split; [|split].
  - unfold MCPClient.classify.
    destruct (MCPClient.reason self content) as [r self1]. cbn [fst].
    by apply str_or_nonempty.
  - intros Hnone. unfold MCPClient.classify, MCPClient.reason.
    cbn [MCPClient.api_client]. rewrite Hnone. cbn [fst].
    unfold MCPClient._simulated_reason, HeuristicSpec.classify,
      HeuristicSpec.has_any, HeuristicSpec.urgency_keywords,
      HeuristicSpec.billing_keywords, HeuristicSpec.spam_keywords.
    cbn [existsb].
    repeat match goal with
           | |- context [Py.contains ?t ?k] => destruct (Py.contains t k)
           end; cbn; (split; [reflexivity|]);
      rewrite !elem_of_cons; auto.
  - intros client text Hclient Hmsg Hcreate Hblank.
    unfold MCPClient.classify, MCPClient.reason, MCPClient._call_api.
    cbn [MCPClient.api_client MCPClient.model]. rewrite Hclient, Hmsg, Hcreate.
    cbn. by rewrite Hblank.
Qed.

Lemma mcp_classify_never_empty_witness :
  let blank := ApiClient.mk true (λ _ _, Py.Ok "  ") in
  let self := MCPClient.set_api_client MCPClient.new (Some blank) in
  (MCPClient.classify self "urgent: call me").1 = "other"
  ∧ (MCPClient.classify MCPClient.new "urgent: call me").1 = "urgent".
Proof.
  intros blank self. split.
  - destruct (mcp_classify_never_empty self "urgent: call me")
      as (_ & _ & Hblank).
    apply (Hblank blank "  "); reflexivity.
  - destruct (mcp_classify_never_empty MCPClient.new "urgent: call me")
      as (_ & Hnone & _).
    destruct (Hnone eq_refl) as [Hsim _]. rewrite Hsim. reflexivity.
Defined.

(* --------------------------------------------------------------------- *)
(** ** What the ledger of an agent holds                                  *)
(* --------------------------------------------------------------------- *)

Section economics.
Context `{Py.Lib}.

Lemma process_try_price (self : SPLAgent.t) (h : Heap.t) (now : Z)
    (request : Request.t) d self1 h1 :
  SPLAgent.process_try self h now request = (Py.Ok d, (self1, h1)) →
  Layer2Deliberative.cost_per_call (SPLAgent.layer2 self1)
  = Layer2Deliberative.cost_per_call (SPLAgent.layer2 self).
Proof.
  unfold SPLAgent.process_try, SPLAgent.record_and_return.
  destruct (Layer0Reactive.validate _ _ _) as [[v|e] l0]; [|done].
  destruct (ValidationResult.valid v); cbn [negb].
  2:{ by intros [= <- <- <-]. }
  destruct (Request.get_content request) as [s| | |]; try done.
  cbn [SPLAgent.layer1 SPLAgent.set_layer0].
  destruct (Layer1Tactical.match_ _ _ _) as [[[m|]|e] l1]; [| |done].
  - by intros [= <- <- <-].
  - cbn [SPLAgent.layer2 SPLAgent.set_layer1].
    assert (Hprice :
      Layer2Deliberative.cost_per_call
        (Layer2Deliberative.reason (SPLAgent.layer2 self) s).2
      = Layer2Deliberative.cost_per_call (SPLAgent.layer2 self)).
    { unfold Layer2Deliberative.reason.
      cbn [Layer2Deliberative.model_client].
      by destruct (Layer2Deliberative.model_client (SPLAgent.layer2 self)). }
    destruct (Layer2Deliberative.reason _ _) as [fm l2]. cbn [snd] in Hprice.
    destruct (Py.Qgeb _ _).
    + destruct (Layer1Tactical.learn_pattern _ _ _ _ _ _ _)
        as [[o l1'] h'].
      by intros [= <- <- <-].
    + by intros [= <- <- <-].
Qed.

(** The prices an agent works with, and what its ledger holds: a
    layer-2 entry costs 0.01 and every other entry nothing. *)
Lemma agent_prices (self : SPLAgent.t) :
  Reach.agent self →
  CostTracker.reachable (SPLAgent.cost_tracker self)
  ∧ Layer2Deliberative.cost_per_call (SPLAgent.layer2 self) = 1 # 100
  ∧ CostTracker._baseline_cost_per_request (SPLAgent.cost_tracker self)
    = 1 # 100
  ∧ Forall (λ r, CostRecord.cost r
                 = if (CostRecord.layer r =? 2)%Z then 1 # 100 else 0%Q)
      (CostTracker.records (SPLAgent.cost_tracker self)).
Proof.
  induction 1 as [agent_id shared threshold h
                 |self h now request _ (IHr & IHp & IHb & IHl)
                 |self now name regex category confidence _ IH
                 |self term _ IH
                 |self _ (IHr & IHp & IHb & IHl)].
  - unfold SPLAgent.new.
    destruct (Heap.or_empty shared h) as [l h1].
    destruct (Layer1Tactical.new threshold (Some l) h1) as [l1 h2].
    cbn. split; [apply CostTracker.reach_new|]. by repeat split.
  - destruct (process_cases self h now request)
      as (d & self1 & h1 & Hproc
          & [(Htry & Hct & Hret)|(e & self0 & Htry & -> & -> & Hsc)]).
    + rewrite Hproc. cbn [fst snd]. rewrite Hct.
      split; [by apply CostTracker.reach_record_result|].
      split; [by rewrite (process_try_price _ _ _ _ _ _ _ Htry)|].
      split; [exact IHb|].
      rewrite record_result_records, Forall_app, Forall_singleton.
      split; [exact IHl|].
      cbn [Ledger.entry CostRecord.layer CostRecord.cost].
      destruct Hret as [->|Hl Hc _ _|Hl _ Hc _ _].
      * reflexivity.
      * by rewrite Hl, Hc.
      * by rewrite Hl, Hc, IHp.
    + rewrite Hproc. cbn [fst snd].
      cbn [SPLAgent.cost_tracker SPLAgent.set_cost_tracker SPLAgent.layer2].
      destruct (process_try_raise _ _ _ _ _ _ _ Htry) as (_ & _ & Hl2).
      split; [by apply CostTracker.reach_record_result|].
      split; [by rewrite Hl2|].
      split; [exact IHb|].
      rewrite record_result_records, Forall_app, Forall_singleton.
      split; [exact IHl|reflexivity].
  - exact IH.
  - exact IH.
  - cbn. split; [by apply CostTracker.reach_reset|]. by repeat split.
Qed.

End economics.

Lemma ledger_length_split (rs : list CostRecord.t) :
  Z.of_nat (length rs)
  = (Ledger.count_layer (λ l, (l <? 2)%Z) rs
     + Ledger.count_layer (λ l, (l =? 2)%Z) rs)%Z
  ∨ ∃ r, r ∈ rs ∧ (2 < CostRecord.layer r)%Z.
Proof.
  induction rs as [|r rs IH]; [by left|].
  destruct (Z_lt_dec 2 (CostRecord.layer r)) as [Hbig|Hsmall].
  { right. exists r. split; [left|done]. }
  destruct IH as [IH|(r' & Hin & Hbig)].
  - left. rewrite !count_layer_cons. cbn [length].
    destruct (CostRecord.layer r <? 2)%Z eqn:Hlt,
             (CostRecord.layer r =? 2)%Z eqn:Heq; lia.
  - right. exists r'. split; [by right|done].
Qed.

(** What the ledger of an agent holds, in every state of an agent built
    by the constructor and changed by [process], [add_pattern],
    [add_to_blocklist] and [reset] (its layer 2 is the one of the
    constructor): the price of layer 2 and the baseline price of the
    tracker are 0.01; every ledger entry is at layer 0, 1 or 2, an entry
    at layer 2 carries the cost 0.01 and every other entry the cost 0;
    and every request counted is a suppression of the tracker or an
    entry at layer 2. *)
Theorem agent_ledger_prices `{Py.Lib} (self : SPLAgent.t) :
  Reach.agent self →
  let t := SPLAgent.cost_tracker self in
  Layer2Deliberative.cost_per_call (SPLAgent.layer2 self) = 1 # 100
  ∧ CostTracker._baseline_cost_per_request t = 1 # 100
  ∧ Forall (λ r, (CostRecord.layer r = 2%Z ∧ CostRecord.cost r = 1 # 100)
                 ∨ ((CostRecord.layer r = 0%Z ∨ CostRecord.layer r = 1%Z)
                    ∧ CostRecord.cost r = 0%Q))
      (CostTracker.records t)
  ∧ CostTracker.total_requests t
    = (CostTracker._suppressions t
       + Ledger.count_layer (λ l, (l =? 2)%Z) (CostTracker.records t))%Z.
Proof.
  intros Hreach t.
  destruct (agent_prices self Hreach) as (Hr & Hprice & Hbase & Hcosts).
  destruct (agent_counters self Hreach) as (Hsupp & _ & Hlayers).
  destruct (tracker_ledger _ Hr) as [Htotal _].
  fold t in Hbase, Hsupp, Htotal, Hlayers, Hcosts.
  split; [exact Hprice|]. split; [exact Hbase|]. split.
  - rewrite Forall_forall in Hlayers, Hcosts. apply Forall_forall.
    intros r Hin. specialize (Hlayers r Hin). specialize (Hcosts r Hin).
    destruct Hlayers as [Hl|[Hl|Hl]]; rewrite Hl in Hcosts; cbn in Hcosts;
      auto.
  - rewrite Htotal, Hsupp.
    destruct (ledger_length_split (CostTracker.records t))
      as [Heq|(r & Hin & Hbig)]; [exact Heq|].
    rewrite Forall_forall in Hlayers. specialize (Hlayers r Hin). lia.
Qed.

Lemma agent_ledger_prices_witness :
  let a1 :=
    (@SPLAgent.process Toy.lib
       (@SPLAgent.process Toy.lib Toy.agent0 Toy.heap0 0
          (Toy.req "user123" "Hi")).2.1
       Toy.heap0 1 (Toy.req "user123" "Please pay the invoice")).2.1 in
  CostTracker.total_requests (SPLAgent.cost_tracker a1) = 2%Z
  ∧ Forall (λ r, (CostRecord.layer r = 2%Z ∧ CostRecord.cost r = 1 # 100)
                 ∨ ((CostRecord.layer r = 0%Z ∨ CostRecord.layer r = 1%Z)
                    ∧ CostRecord.cost r = 0%Q))
      (CostTracker.records (SPLAgent.cost_tracker a1)).
Proof.
  intros a1.
  destruct (@agent_ledger_prices Toy.lib a1) as (_ & _ & Hcosts & Htotal).
  - do 2 apply Reach.agent_process. apply Reach.agent_new.
  - split; [rewrite Htotal; reflexivity|exact Hcosts].
Defined.

(* --------------------------------------------------------------------- *)
(** ** What [process] does after an answer of layer 2                     *)
(* --------------------------------------------------------------------- *)

Lemma reason_answer (self : Layer2Deliberative.t) (content : string) :
  let fm := (Layer2Deliberative.reason self content).1 in
  (DeliberativeResult.category fm, DeliberativeResult.confidence fm)
  = HeuristicSpec.classify (Py.lower content).
Proof.
  unfold Layer2Deliberative.reason. cbn [Layer2Deliberative.model_client].
  destruct (Layer2Deliberative.model_client self);
    unfold Layer2Deliberative._call_model; cbn [fst];
    match goal with
    | |- context [Layer2Deliberative._simulated_reason ?s content] =>
        apply (simulated_reason_classify s content)
    end.
Qed.

Lemma reason_price_kept (self : Layer2Deliberative.t) (content : string) :
  Layer2Deliberative.cost_per_call (Layer2Deliberative.reason self content).2
  = Layer2Deliberative.cost_per_call self.
Proof.
  unfold Layer2Deliberative.reason. cbn [Layer2Deliberative.model_client].
  by destruct (Layer2Deliberative.model_client self).
Qed.

Lemma classify_confident (text : string) :
  let c := HeuristicSpec.classify text in
  (Py.Qgeb c.2 (90 # 100) = true
   ∧ (c.1 = "urgent" ∨ c.1 = "spam")
   ∧ (Py.contains text "urgent" = true ∨ Py.contains text "asap" = true
      ∨ Py.contains text "emergency" = true
      ∨ Py.contains text "unsubscribe" = true
      ∨ Py.contains text "viagra" = true
      ∨ Py.contains text "lottery" = true))
  ∨ (Py.Qgeb c.2 (90 # 100) = false
     ∧ (c.1 = "billing" ∨ c.1 = "other")).
Proof.
  unfold HeuristicSpec.classify, HeuristicSpec.has_any,
    HeuristicSpec.urgency_keywords, HeuristicSpec.billing_keywords,
    HeuristicSpec.spam_keywords.
  cbn [existsb].
  repeat match goal with
         | |- context [Py.contains ?t ?k] => destruct (Py.contains t k)
         end; cbn;
    first [ left; split; [reflexivity|]; split; [auto|auto 10]; done
          | right; split; [reflexivity|auto] ].
Qed.

(** A text that [split()] finds no word in has only white space, and no
    string that starts with another character occurs in it. *)
Lemma split_from_nil (s cur : string) :
  Py.split_from s cur = [] →
  cur = "" ∧ ∀ c t, Py.is_space c = false →
              Py.contains s (String c t) = false.
Proof.
  revert cur. induction s as [|a s IH]; intros cur; cbn [Py.split_from].
  - destruct cur; [|done]. intros _. split; [done|].
    intros c t _. reflexivity.
  - destruct (Py.is_space a) eqn:Ha.
    + destruct cur; cbn [Py.is_empty]; [|done].
      intros Hnil. destruct (IH _ Hnil) as [_ Hno]. split; [done|].
      intros c t Hc. cbn [Py.contains String.prefix].
      rewrite (Hno c t Hc).
      destruct (Ascii.ascii_dec c a) as [->|Hne]; [congruence|].
      by rewrite orb_false_r.
    + intros Hnil. destruct (IH _ Hnil) as [Hcur _].
      by destruct cur.
Qed.

Lemma split_keyword (text : string) :
  Py.contains text "urgent" = true ∨ Py.contains text "asap" = true
  ∨ Py.contains text "emergency" = true
  ∨ Py.contains text "unsubscribe" = true
  ∨ Py.contains text "viagra" = true
  ∨ Py.contains text "lottery" = true →
  ∃ key_word rest, Py.split text = key_word :: rest.
Proof.
  intros Hkey. destruct (Py.split text) as [|key_word rest] eqn:Hsplit;
    [|by eexists _, _].
  exfalso. apply split_from_nil in Hsplit as [_ Hno].
  destruct Hkey as [Hk|[Hk|[Hk|[Hk|[Hk|Hk]]]]];
    rewrite Hno in Hk; done.
Qed.

Section deliberated.
Context `{Py.Lib}.

Lemma match_miss_cached (self : Layer1Tactical.t) (h : Heap.t)
    (content : string) (self1 : Layer1Tactical.t) :
  Layer1Tactical.match_ self h content = (Py.Ok None, self1) →
  Layer1Tactical.patterns self1 = Layer1Tactical.patterns self
  ∧ Layer1Tactical.shared_state self1 = Layer1Tactical.shared_state self
  ∧ Layer1Tactical._cost self1 = Layer1Tactical._cost self
  ∧ ∃ cached,
      Layer1Tactical.cache self1
        !! Py.sha256_hexdigest (Py.lower content) = Some cached
      ∧ PatternMatchResult.matched cached = false.
Proof.
  unfold Layer1Tactical.match_. cbn.
  destruct (Layer1Tactical.cache self !! _) as [cached|] eqn:Hcache.
  - destruct (PatternMatchResult.matched cached) eqn:Hm; [done|].
    intros [= <-]. cbn. do 3 (split; [done|]). by exists cached.
  - destruct (Layer1Tactical.scan_patterns _ _ _) as [[name p| |e] ps1];
      [done| |done].
    destruct (match SharedState.learned_patterns _ with
              | Some entries => _
              | None => None
              end) as [[category confidence]|]; [done|].
    intros [= <-]. cbn. do 3 (split; [done|]).
    exists PatternMatchResult.no_match. by rewrite lookup_insert_eq.
Qed.

Lemma match_cached_miss (self : Layer1Tactical.t) (h : Heap.t)
    (content : string) (cached : PatternMatchResult.t) :
  Layer1Tactical.cache self !! Py.sha256_hexdigest (Py.lower content)
  = Some cached →
  PatternMatchResult.matched cached = false →
  ∃ self1,
    Layer1Tactical.match_ self h content = (Py.Ok None, self1)
    ∧ Layer1Tactical.cache self1 = Layer1Tactical.cache self.
Proof.
  intros Hcache Hm. unfold Layer1Tactical.match_. cbn.
  rewrite Hcache, Hm. by eexists.
Qed.

Lemma learn_pattern_frame (self : Layer1Tactical.t) (h : Heap.t) (now : Z)
    (content category : string) (confidence : Q)
    (learned_by : option string) :
  let '(_, self1, _) :=
    Layer1Tactical.learn_pattern self h now content category confidence
      learned_by in
  Layer1Tactical.cache self1 = Layer1Tactical.cache self
  ∧ Layer1Tactical._cost self1 = Layer1Tactical._cost self
  ∧ Layer1Tactical.shared_state self1 = Layer1Tactical.shared_state self.
Proof.
  unfold Layer1Tactical.learn_pattern.
  destruct (Py.Qltb confidence (90 # 100)); [done|].
  by destruct (Py.split (Py.lower content)).
Qed.

(** The way through [process] that ends at layer 2. *)
Lemma process_deliberated (self : SPLAgent.t) (h : Heap.t) (now : Z)
    (request : Request.t) d self1 h1 :
  SPLAgent.process self h now request = (Py.Ok d, (self1, h1)) →
  Decision.layer d = 2%Z →
  ∃ s l1,
    Request.get_content request = Py.VStr s
    ∧ Layer1Tactical.match_ (SPLAgent.layer1 self) h s = (Py.Ok None, l1)
    ∧ d = Decision.mk
            (DeliberativeResult.category
               (Layer2Deliberative.reason (SPLAgent.layer2 self) s).1)
            "llm"
            (DeliberativeResult.confidence
               (Layer2Deliberative.reason (SPLAgent.layer2 self) s).1)
            (DeliberativeResult.cost
               (Layer2Deliberative.reason (SPLAgent.layer2 self) s).1)
            2 false
    ∧ SPLAgent.layer2 self1
      = (Layer2Deliberative.reason (SPLAgent.layer2 self) s).2
    ∧ SPLAgent.agent_id self1 = SPLAgent.agent_id self
    ∧ (SPLAgent.layer1 self1, h1)
      = (if Py.Qgeb (Decision.confidence d) (90 # 100)
         then
           let '(_, l1', h') :=
             Layer1Tactical.learn_pattern l1 h now s (Decision.category d)
               (Decision.confidence d) (Some (SPLAgent.agent_id self)) in
           (l1', h')
         else (l1, h)).
Proof.
  unfold SPLAgent.process, Py.try_except.
  destruct (SPLAgent.process_try self h now request)
    as [[d0|e] [self0 h0]] eqn:Htry.
  2:{ unfold SPLAgent.record_and_return. by intros [= <- <- <-]. }
  intros [= -> -> ->]. revert Htry.
  unfold SPLAgent.process_try, SPLAgent.record_and_return.
  destruct (Layer0Reactive.validate _ _ _) as [[v|e] l0]; [|done].
  destruct (ValidationResult.valid v); cbn [negb].
  2:{ by intros [= <- <- <-]. }
  destruct (Request.get_content request) as [s| | |]; try done.
  cbn [SPLAgent.layer1 SPLAgent.set_layer0].
  destruct (Layer1Tactical.match_ _ _ _) as [[[m|]|e] l1] eqn:Hmatch;
    [| |done].
  - by intros [= <- <- <-].
  - cbn [SPLAgent.layer2 SPLAgent.set_layer1 SPLAgent.set_layer0].
    destruct (Layer2Deliberative.reason _ _) as [fm l2] eqn:Hreason.
    destruct (Py.Qgeb (DeliberativeResult.confidence fm) (90 # 100))
      eqn:Hconf.
    + cbn [SPLAgent.layer1 SPLAgent.set_layer1 SPLAgent.set_layer2
             SPLAgent.set_layer0 SPLAgent.agent_id].
      destruct (Layer1Tactical.learn_pattern _ _ _ _ _ _ _)
        as [[o l1'] h'] eqn:Hlearn.
      intros [= <- <- <-] _. exists s, l1. rewrite Hreason. cbn.
      rewrite Hconf, Hlearn. by repeat split.
    + intros [= <- <- <-] _. exists s, l1. rewrite Hreason. cbn.
      rewrite Hconf. by repeat split.
Qed.

End deliberated.

(** What [process] learns. When it returns a decision of layer 2, the
    content is a string. If the confidence of the decision is at least
    0.90, the category is urgent or spam, the content has a first word,
    the tactical stage holds the pattern [learned_<word>_<category>]
    with that word as regular expression, and the shared dict of the
    stage has the category under ['learned_patterns'] with the
    confidence and the id of the agent. Otherwise the category is
    billing or other, nothing is learned: the patterns and the heap are
    as before. *)
Theorem process_learns_confident_answers `{Py.Lib} (self : SPLAgent.t)
    (h : Heap.t) (now : Z) (request : Request.t) (d : Decision.t)
    (self1 : SPLAgent.t) (h1 : Heap.t) :
  SPLAgent.process self h now request = (Py.Ok d, (self1, h1)) →
  Decision.layer d = 2%Z →
  ∃ s,
    Request.get_content request = Py.VStr s
    ∧ if Py.Qgeb (Decision.confidence d) (90 # 100)
      then
        (Decision.category d = "urgent" ∨ Decision.category d = "spam")
        ∧ ∃ key_word rest entries,
            Py.split (Py.lower s) = key_word :: rest
            ∧ Py.od_get (Layer1Tactical.patterns (SPLAgent.layer1 self1))
                ("learned_" +:+ key_word +:+ "_" +:+ Decision.category d)
              = Some (Pattern.mk
                        ("learned_" +:+ key_word +:+ "_"
                         +:+ Decision.category d)
                        key_word (Decision.category d)
                        (Decision.confidence d) (Some now)
                        (Some (SPLAgent.agent_id self)) 0)
            ∧ SharedState.learned_patterns
                (Heap.deref h1
                   (Layer1Tactical.shared_state (SPLAgent.layer1 self)))
              = Some entries
            ∧ Py.od_get entries (Decision.category d)
              = Some (PatternInfo.mk (Some (Decision.confidence d))
                        (Some (SPLAgent.agent_id self)) (Some now))
      else
        (Decision.category d = "billing" ∨ Decision.category d = "other")
        ∧ h1 = h
        ∧ Layer1Tactical.patterns (SPLAgent.layer1 self1)
          = Layer1Tactical.patterns (SPLAgent.layer1 self).
Proof.
  intros Hproc Hlayer.
  destruct (process_deliberated _ _ _ _ _ _ _ Hproc Hlayer)
    as (s & l1 & Hcontent & Hmatch & Hd & _ & _ & Hlearn).
  exists s. split; [exact Hcontent|].
  destruct (match_miss_cached _ _ _ _ Hmatch) as (Hpat & Hshared & _ & _).
  pose proof (reason_answer (SPLAgent.layer2 self) s) as Hanswer.
  cbn zeta in Hanswer.
  assert (Hcat : (Decision.category d, Decision.confidence d)
                 = HeuristicSpec.classify (Py.lower s))
    by (rewrite Hd; exact Hanswer).
  pose proof (classify_confident (Py.lower s)) as Hcases.
  cbn zeta in Hcases. rewrite <- Hcat in Hcases. cbn [fst snd] in Hcases.
  destruct Hcases as [(Hconf & Hcats & Hkey)|(Hconf & Hcats)];
    rewrite Hconf in Hlearn |- *.
  - split; [exact Hcats|].
    destruct (split_keyword _ Hkey) as (key_word & rest & Hsplit).
    unfold Layer1Tactical.learn_pattern in Hlearn.
    unfold Py.Qgeb in Hconf. unfold Py.Qltb in Hlearn.
    rewrite Hconf, Hsplit in Hlearn. cbn [negb] in Hlearn.
    injection Hlearn as Hl1 Hh1.
    exists key_word, rest. eexists.
    split; [exact Hsplit|].
    split; [rewrite Hl1; cbn [Layer1Tactical.patterns];
            apply od_get_set_eq|].
    rewrite Hh1, Hshared. unfold Heap.deref at 1.
    rewrite lookup_insert_eq. cbn [default SharedState.learned_patterns].
    split; [reflexivity|]. apply od_get_set_eq.
  - split; [exact Hcats|]. injection Hlearn as Hl1 Hh1.
    by rewrite Hl1, Hh1.
Qed.

Lemma process_learns_confident_answers_witness :
  let run :=
    @SPLAgent.process Toy.lib Toy.agent0 Toy.heap0 0
      (Toy.req "user123" "URGENT call me") in
  ∃ entries,
    SharedState.learned_patterns
      (Heap.deref run.2.2
         (Layer1Tactical.shared_state (SPLAgent.layer1 Toy.agent0)))
    = Some entries
    ∧ Py.od_get entries "urgent"
      = Some (PatternInfo.mk (Some (92 # 100))
                (Some (SPLAgent.agent_id Toy.agent0)) (Some 0%Z)).
Proof.
  intros run.
  destruct (@process_learns_confident_answers Toy.lib Toy.agent0 Toy.heap0 0
              (Toy.req "user123" "URGENT call me")
              (Decision.mk "urgent" "llm" (92 # 100) (1 # 100) 2 false)
              run.2.1 run.2.2 eq_refl eq_refl)
    as (s & _ & Hlearned).
  cbn [Decision.confidence Decision.category] in Hlearned.
  change (Py.Qgeb (92 # 100) (90 # 100)) with true in Hlearned.
  destruct Hlearned as (_ & key_word & rest & entries & _ & _ & He1 & He2).
  exists entries. split; [exact He1|exact He2].
Defined.

(** Learning does not undo the cached miss. When [process] has answered
    a content at layer 2, whether it learned a pattern from it or not,
    the next request with the same content (letter case aside) that
    passes validation goes to layer 2 again, whatever the shared dicts
    hold by then: the decision has the same category and confidence and
    is charged again. *)
Theorem repeated_content_deliberated_again `{Py.Lib} (self : SPLAgent.t)
    (h : Heap.t) (now : Z) (request : Request.t) (d : Decision.t)
    (self1 : SPLAgent.t) (h1 : Heap.t)
    (h' : Heap.t) (now' : Z) (request' : Request.t) (s s' : string)
    (v : ValidationResult.t) (l0 : Layer0Reactive.t) :
  SPLAgent.process self h now request = (Py.Ok d, (self1, h1)) →
  Decision.layer d = 2%Z →
  Request.get_content request = Py.VStr s →
  Request.get_content request' = Py.VStr s' →
  Py.lower s' = Py.lower s →
  Layer0Reactive.validate (SPLAgent.layer0 self1) now' request'
  = (Py.Ok v, l0) →
  ValidationResult.valid v = true →
  ∃ d' self2 h2,
    SPLAgent.process self1 h' now' request' = (Py.Ok d', (self2, h2))
    ∧ Decision.layer d' = 2%Z
    ∧ Decision.method d' = "llm"
    ∧ Decision.suppressed d' = false
    ∧ Decision.category d' = Decision.category d
    ∧ Decision.confidence d' = Decision.confidence d
    ∧ Decision.cost d' = Decision.cost d
    ∧ Layer2Deliberative._call_count (SPLAgent.layer2 self2)
      = (Layer2Deliberative._call_count (SPLAgent.layer2 self) + 2)%Z.
Proof.
  intros Hproc Hlayer Hcontent Hcontent' Hlower Hvalidate Hvalid.
  destruct (process_deliberated _ _ _ _ _ _ _ Hproc Hlayer)
    as (s0 & l1 & Hcontent0 & Hmatch & Hd & Hl2 & _ & Hlearn).
  rewrite Hcontent in Hcontent0. injection Hcontent0 as <-.
  destruct (match_miss_cached _ _ _ _ Hmatch)
    as (_ & _ & _ & cached & Hcached & Hmiss).
  assert (Hcache1 : Layer1Tactical.cache (SPLAgent.layer1 self1)
                    = Layer1Tactical.cache l1).
  { destruct (Py.Qgeb (Decision.confidence d) (90 # 100)).
    - pose proof (learn_pattern_frame l1 h now s (Decision.category d)
                    (Decision.confidence d)
                    (Some (SPLAgent.agent_id self))) as Hframe.
      destruct (Layer1Tactical.learn_pattern _ _ _ _ _ _ _)
        as [[o l1'] h0].
      injection Hlearn as -> _. apply Hframe.
    - by injection Hlearn as -> _. }
  clear Hlearn. rewrite <- Hcache1, <- Hlower in Hcached.
  destruct (match_cached_miss (SPLAgent.layer1 self1) h' s' cached
              Hcached Hmiss) as (l1'' & Hmatch' & _).
  pose proof (reason_answer (SPLAgent.layer2 self) s) as Ha.
  pose proof (reason_answer (SPLAgent.layer2 self1) s') as Ha'.
  pose proof (reason_cost (SPLAgent.layer2 self) s) as Hc.
  pose proof (reason_cost (SPLAgent.layer2 self1) s') as Hc'.
  cbn zeta in Ha, Ha'. rewrite Hlower, <- Ha in Ha'.
  injection Ha' as Hcat Hconf.
  rewrite Hl2, reason_price_kept, <- Hc in Hc'.
  assert (Hcount :
    Layer2Deliberative._call_count
      (Layer2Deliberative.reason (SPLAgent.layer2 self1) s').2
    = (Layer2Deliberative._call_count (SPLAgent.layer2 self) + 2)%Z).
  { rewrite Hl2. unfold Layer2Deliberative.reason.
    cbn [Layer2Deliberative.model_client].
    destruct (Layer2Deliberative.model_client (SPLAgent.layer2 self));
      cbn; lia. }
  rewrite <- Hl2 in Hc'.
  unfold SPLAgent.process, Py.try_except, SPLAgent.process_try.
  rewrite Hvalidate, Hvalid, Hcontent'. cbn [negb].
  cbn [SPLAgent.layer1 SPLAgent.set_layer0]. rewrite Hmatch'.
  cbn [SPLAgent.layer2 SPLAgent.set_layer1 SPLAgent.set_layer0].
  destruct (Layer2Deliberative.reason (SPLAgent.layer2 self1) s')
    as [fm' l2'].
  cbn [fst snd] in Hcat, Hconf, Hc', Hcount.
  destruct (Py.Qgeb (DeliberativeResult.confidence fm') (90 # 100)).
  - cbn [SPLAgent.layer1 SPLAgent.set_layer1 SPLAgent.set_layer2
           SPLAgent.agent_id].
    destruct (Layer1Tactical.learn_pattern _ _ _ _ _ _ _) as [[o l1'] h0].
    unfold SPLAgent.record_and_return. eexists _, _, _.
    split; [reflexivity|]. rewrite Hd. cbn. by repeat split.
  - unfold SPLAgent.record_and_return. eexists _, _, _.
    split; [reflexivity|]. rewrite Hd. cbn. by repeat split.
Qed.

Lemma repeated_content_deliberated_again_witness :
  let run :=
    @SPLAgent.process Toy.lib Toy.agent0 Toy.heap0 0
      (Toy.req "user123" "URGENT call me") in
  (* the pattern learned_urgent_urgent is registered by now *)
  Py.od_mem (Layer1Tactical.patterns (SPLAgent.layer1 run.2.1))
    "learned_urgent_urgent" = true
  ∧ ∃ d' st,
      @SPLAgent.process Toy.lib run.2.1 run.2.2 1
        (Toy.req "user123" "urgent CALL me") = (Py.Ok d', st)
      ∧ Decision.layer d' = 2%Z
      ∧ Decision.cost d' = 1 # 100.
Proof.
  intros run. split; [reflexivity|].
  destruct (@repeated_content_deliberated_again Toy.lib
              Toy.agent0 Toy.heap0 0 (Toy.req "user123" "URGENT call me")
              (Decision.mk "urgent" "llm" (92 # 100) (1 # 100) 2 false)
              run.2.1 run.2.2 run.2.2 1
              (Toy.req "user123" "urgent CALL me")
              "URGENT call me" "urgent CALL me"
              (ValidationResult.mk true None false)
              (Layer0Reactive.validate (SPLAgent.layer0 run.2.1) 1
                 (Toy.req "user123" "urgent CALL me")).2
              eq_refl eq_refl eq_refl eq_refl eq_refl eq_refl eq_refl)
    as (d' & self2 & h2 & Hproc & Hlayer & _ & _ & _ & _ & Hcost & _).
  exists d', (self2, h2). split; [exact Hproc|].
  split; [exact Hlayer|exact Hcost].
Defined.

(* --------------------------------------------------------------------- *)
(** ** The cost of pattern matching                                       *)
(* --------------------------------------------------------------------- *)

Lemma sum_costs_free (rs : list CostRecord.t) :
  Forall (λ r, CostRecord.cost r = 0%Q) rs → (Runs.sum_costs rs == 0)%Q.
Proof.
  induction rs as [|r rs IH] using rev_ind; [reflexivity|].
  rewrite Forall_app, Forall_singleton. intros [Hrs Hr].
  rewrite sum_costs_snoc, IH, Hr by done. reflexivity.
Qed.

Section pattern_cost.
Context `{Py.Lib}.

Lemma match_cost (self : Layer1Tactical.t) (h : Heap.t) (content : string)
    r (self1 : Layer1Tactical.t) :
  Layer1Tactical.match_ self h content = (r, self1) →
  Layer1Tactical._cost self1 = Layer1Tactical._cost self
  ∨ (Layer1Tactical._cost self1
     = (Layer1Tactical._cost self + (1 # 10000))%Q
     ∧ Layer1Tactical.cache self
         !! Py.sha256_hexdigest (Py.lower content) = None
     ∧ ∃ m, r = Py.Ok (Some m)).
Proof.
  unfold Layer1Tactical.match_. cbn.
  destruct (Layer1Tactical.cache self !! _) as [cached|] eqn:Hcache.
  - intros [= <- <-]. by left.
  - destruct (Layer1Tactical.scan_patterns _ _ _) as [[name p| |e] ps1].
    + intros [= <- <-]. right. cbn. split; [done|]. split; [done|].
      by eexists.
    + destruct (match SharedState.learned_patterns _ with
                | Some entries => _
                | None => None
                end) as [[category confidence]|]; intros [= <- <-].
      * right. cbn. split; [done|]. split; [done|]. by eexists.
      * by left.
    + intros [= <- <-]. by left.
Qed.

End pattern_cost.

(** The tactical stage bills 0.0001 on its own counter for every match
    it finds outside the cache, and this never reaches the decision or
    the cost tracker: a call of [process] either leaves the counter of
    the stage alone or adds 0.0001 to it, and then the decision is one
    of layer 1 at cost 0; and in every state of an agent built by the
    constructor and changed by [process], [add_pattern],
    [add_to_blocklist] and [reset], the tracker has no cost at layers 0
    and 1. *)
Theorem pattern_cost_never_reported `{Py.Lib} :
  (∀ self h now request d self1 h1,
     SPLAgent.process self h now request = (Py.Ok d, (self1, h1)) →
     Layer1Tactical._cost (SPLAgent.layer1 self1)
     = Layer1Tactical._cost (SPLAgent.layer1 self)
     ∨ (Layer1Tactical._cost (SPLAgent.layer1 self1)
        = (Layer1Tactical._cost (SPLAgent.layer1 self) + (1 # 10000))%Q
        ∧ Decision.layer d = 1%Z ∧ Decision.cost d = 0%Q
        ∧ Decision.suppressed d = true))
  ∧ (∀ self, Reach.agent self →
       (default 0%Q
          (CostTracker.layer_costs (SPLAgent.cost_tracker self) !! 0%Z)
        == 0)%Q
       ∧ (default 0%Q
            (CostTracker.layer_costs (SPLAgent.cost_tracker self) !! 1%Z)
          == 0)%Q).
Proof.
  split.
  - intros self h now request d self1 h1.
    unfold SPLAgent.process, Py.try_except, SPLAgent.process_try,
      SPLAgent.record_and_return.
    destruct (Layer0Reactive.validate _ _ _) as [[v|e] l0];
      [|intros [= <- <- <-]; by left].
    destruct (ValidationResult.valid v); cbn [negb];
      [|intros [= <- <- <-]; by left].
    destruct (Request.get_content request) as [s| | |];
      try (intros [= <- <- <-]; by left).
    cbn [SPLAgent.layer1 SPLAgent.set_layer0].
    destruct (Layer1Tactical.match_ _ _ _) as [r l1] eqn:Hmatch.
    apply match_cost in Hmatch as Hcost.
    destruct r as [[m|]|e].
    + intros [= <- <- <-]. cbn.
      destruct Hcost as [Hcost|(Hcost & _ & _)]; [by left|by right].
    + destruct Hcost as [Hcost|(_ & _ & m & [=])].
      cbn [SPLAgent.layer2 SPLAgent.set_layer1 SPLAgent.set_layer0].
      destruct (Layer2Deliberative.reason _ _) as [fm l2].
      destruct (Py.Qgeb _ _).
      * cbn [SPLAgent.layer1 SPLAgent.set_layer1 SPLAgent.set_layer2
               SPLAgent.set_layer0 SPLAgent.agent_id].
        pose proof (learn_pattern_frame l1 h now s
                      (DeliberativeResult.category fm)
                      (DeliberativeResult.confidence fm)
                      (Some (SPLAgent.agent_id self))) as Hframe.
        destruct (Layer1Tactical.learn_pattern _ _ _ _ _ _ _)
          as [[o l1'] h'].
        destruct Hframe as (_ & Hkeep & _).
        intros [= <- <- <-]. left. cbn. by rewrite Hkeep.
      * intros [= <- <- <-]. by left.
    + destruct Hcost as [Hcost|(_ & _ & m & [=])].
      intros [= <- <- <-]. by left.
  - intros self Hreach.
    destruct (agent_prices self Hreach) as (Hr & _ & _ & Hcosts).
    assert (Hfree : ∀ layer, layer ≠ 2%Z →
      (default 0%Q
         (CostTracker.layer_costs (SPLAgent.cost_tracker self) !! layer)
       == 0)%Q).
    { intros layer Hlayer.
      destruct (layer_ledger _ layer Hr) as [_ ->].
      apply sum_costs_free, Forall_forall. intros r Hin.
      unfold CostTracker.get_records_by_layer in Hin.
      apply list_elem_of_filter in Hin as [Hl Hin].
      rewrite Forall_forall in Hcosts. rewrite (Hcosts r Hin), Hl.
      by destruct (Z.eqb_spec layer 2). }
    split; by apply Hfree.
Qed.

Lemma pattern_cost_never_reported_witness :
  let a1 := SPLAgent.add_pattern Toy.agent0 0 "greeting" "hello" "greeting"
              (95 # 100) in
  let run := @SPLAgent.process Toy.lib a1 Toy.heap0 1
               (Toy.req "user123" "Hello there") in
  Layer1Tactical._cost (SPLAgent.layer1 run.2.1) = 1 # 10000
  ∧ (default 0%Q
       (CostTracker.layer_costs (SPLAgent.cost_tracker run.2.1) !! 1%Z)
     == 0)%Q.
Proof.
  intros a1 run. split; [reflexivity|].
  destruct (@pattern_cost_never_reported Toy.lib) as [_ Hfree].
  apply (Hfree run.2.1).
  apply Reach.agent_process, Reach.agent_add_pattern, Reach.agent_new.
Defined.
